(** * Connectivity resolver and resilient client (utils/api.js)

    A shallow embedding of the two variants of the API-connectivity layer:

    - [Direct]     : the variant that normalises the configured URL, classifies
                     transport errors in the health check and has no wake-up
                     path (src/unnamed/part_000);
    - [AutoDetect] : the variant with candidate-URL auto-detection, the wake-up
                     orchestrator and the wake-and-retry response interceptor
                     (src/unnamed/part_001).

    JavaScript module-level variables become fields of an explicit [world];
    asynchronous functions become computations of a state-and-exception monad.
    A computation is the run of a call during which no other call of the
    module is started.  Where a property depends on calls that overlap
    ([getApiInstance]), the function is also given as the stretches it runs
    between its suspension points, and a schedule interleaves them.  The
    network and the build-time configuration are an environment [env], so
    that every theorem quantifies over all backends. *)

From Stdlib Require Import String Ascii List Bool Arith NArith Lia DecimalString.
Import ListNotations.
Open Scope string_scope.
Open Scope nat_scope.

(* ------------------------------------------------------------------------- *)
(** ** JavaScript values used by the module *)

(** A value that is [undefined], [null] or a string: the configured URL, the
    cached URL, [config.baseURL], [config.url], [error.code], ... *)
Inductive jsval : Type :=
| JUndefined
| JNull
| JStr (s : string).

Definition is_empty (s : string) : bool :=
  match s with EmptyString => true | String _ _ => false end.

(** JavaScript truthiness on these values. *)
Definition truthy (v : jsval) : bool :=
  match v with
  | JStr s => negb (is_empty s)
  | _ => false
  end.

(** [a || b] *)
Definition js_or (a b : jsval) : jsval := if truthy a then a else b.

(** [a === b] *)
Definition js_eqb (a b : jsval) : bool :=
  match a, b with
  | JUndefined, JUndefined => true
  | JNull, JNull => true
  | JStr s, JStr t => String.eqb s t
  | _, _ => false
  end.

(** [v === 'lit'] *)
Definition is_str (v : jsval) (lit : string) : bool := js_eqb v (JStr lit).

(** Conversion inside a template literal [`${v}...`]. *)
Definition template (v : jsval) : string :=
  match v with
  | JUndefined => "undefined"
  | JNull => "null"
  | JStr s => s
  end.

(* ------------------------------------------------------------------------- *)
(** ** String operations *)

Fixpoint drop_while {A : Type} (p : A -> bool) (l : list A) : list A :=
  match l with
  | [] => []
  | x :: l' => if p x then drop_while p l' else l
  end.

Definition is_slash (c : ascii) : bool := Ascii.eqb c "/"%char.

(** A string is the sequence of bytes of its UTF-8 encoding.  The code points
    [String.prototype.trim] removes are the WhiteSpace and LineTerminator
    code points of ECMAScript; they are encoded on one, two or three bytes.

    One byte: TAB, LF, VT, FF, CR and SPACE. *)
Definition is_space (c : ascii) : bool :=
  let n := nat_of_ascii c in
  ((9 <=? n) && (n <=? 13)) || (n =? 32).

(** Two bytes: U+00A0 (no-break space). *)
Definition is_space2 (a b : ascii) : bool :=
  (nat_of_ascii a =? 194) && (nat_of_ascii b =? 160).

(** Three bytes: U+1680, U+2000 to U+200A, U+2028, U+2029, U+202F, U+205F,
    U+3000 and U+FEFF. *)
Definition is_space3 (a b c : ascii) : bool :=
  let x := nat_of_ascii a in
  let y := nat_of_ascii b in
  let z := nat_of_ascii c in
  ((x =? 225) && (y =? 154) && (z =? 128))
  || ((x =? 226) && (y =? 128)
      && (((128 <=? z) && (z <=? 138)) || (z =? 168) || (z =? 169) || (z =? 175)))
  || ((x =? 226) && (y =? 129) && (z =? 159))
  || ((x =? 227) && (y =? 128) && (z =? 128))
  || ((x =? 239) && (y =? 187) && (z =? 191)).

(** Removes from the front of [l] every group of one, two or three bytes
    that [p1], [p2] or [p3] accepts, up to the first byte that starts none. *)
Fixpoint drop_units (p1 : ascii -> bool) (p2 : ascii -> ascii -> bool)
         (p3 : ascii -> ascii -> ascii -> bool) (l : list ascii) : list ascii :=
  match l with
  | a :: l1 =>
      if p1 a then drop_units p1 p2 p3 l1
      else match l1 with
           | b :: l2 =>
               if p2 a b then drop_units p1 p2 p3 l2
               else match l2 with
                    | c :: l3 => if p3 a b c then drop_units p1 p2 p3 l3 else l
                    | [] => l
                    end
           | [] => l
           end
  | [] => []
  end.

Definition trim_start (l : list ascii) : list ascii :=
  drop_units is_space is_space2 is_space3 l.

(** The same from the end: the bytes of a code point are met last byte
    first. *)
Definition drop_units_back (l : list ascii) : list ascii :=
  drop_units is_space (fun b a => is_space2 a b) (fun c b a => is_space3 a b c) l.

Definition trim_end (l : list ascii) : list ascii := rev (drop_units_back (rev l)).

Definition strip_end (p : ascii -> bool) (s : string) : string :=
  string_of_list_ascii (rev (drop_while p (rev (list_ascii_of_string s)))).

(** [s.replace(/\/+$/, '')] *)
Definition strip_trailing_slashes (s : string) : string := strip_end is_slash s.

(** [s.trim()] *)
Definition trim (s : string) : string :=
  string_of_list_ascii (trim_end (trim_start (list_ascii_of_string s))).

Definition ends_with_slash (s : string) : bool :=
  match rev (list_ascii_of_string s) with
  | c :: _ => is_slash c
  | [] => false
  end.

(** [hay.includes(needle)] *)
Fixpoint includes (needle hay : string) : bool :=
  String.prefix needle hay ||
  match hay with
  | EmptyString => false
  | String _ hay' => includes needle hay'
  end.

(** First occurrence of [pat] in [s]: the text before it and the text after. *)
Fixpoint split_at_first (pat s : string) (before_rev : list ascii)
  : option (string * string) :=
  if String.prefix pat s
  then Some (string_of_list_ascii (rev before_rev),
             substring (String.length pat) (String.length s - String.length pat) s)
  else match s with
       | EmptyString => None
       | String c s' => split_at_first pat s' (c :: before_rev)
       end.

(** Expansion of the replacement patterns [$$], [$&], [$`] and [$'] of
    [String.prototype.replace]; a string pattern has no capture groups, so
    every other [$] sequence is literal. *)
Fixpoint expand_replacement (rep matched before after : string) : string :=
  match rep with
  | EmptyString => EmptyString
  | String a rest =>
      if Ascii.eqb a "$" then
        match rest with
        | String c rep' =>
            if Ascii.eqb c "$" then String "$" (expand_replacement rep' matched before after)
            else if Ascii.eqb c "&" then matched ++ expand_replacement rep' matched before after
            else if Ascii.eqb c "`" then before ++ expand_replacement rep' matched before after
            else if Ascii.eqb c "'" then after ++ expand_replacement rep' matched before after
            else String "$" (expand_replacement rest matched before after)
        | EmptyString => String "$" EmptyString
        end
      else String a (expand_replacement rest matched before after)
  end.

(** [s.replace(pat, rep)] with a string pattern: first occurrence only. *)
Definition js_replace (s pat rep : string) : string :=
  match split_at_first pat s [] with
  | Some (before, after) => before ++ expand_replacement rep pat before after ++ after
  | None => s
  end.

(* ------------------------------------------------------------------------- *)
(** ** HTTP data *)

(** The fields of a parsed response body that the module reads. *)
Record body : Type := mkBody {
  b_status : jsval;    (* data.status  *)
  b_message : jsval    (* data.message *)
}.

(** [r_data = None] is a falsy body ([null], [undefined], the empty string);
    a truthy body that is not a JSON object has both fields [undefined]. *)
Record response : Type := mkResponse {
  r_status : nat;
  r_data : option body
}.

(** The request descriptor (axios config): the fields the resilience layer
    reads or writes.  Payload, headers and callbacks travel unchanged.  The
    descriptor is threaded as a value; where the source mutates the object
    that [error.config] also points to, the error is updated with it. *)
Record request : Type := mkRequest {
  q_method : string;
  q_url : jsval;
  q_baseURL : jsval;
  q_timeout : option N;            (* milliseconds *)
  q_retry : bool          (* config._retry *)
}.

(** A thrown value: an AxiosError, a TypeError, or the plain object the
    interceptor builds from one. *)
Record error : Type := mkError {
  e_code : jsval;
  e_message : string;
  e_response : option response;
  e_config : option request;
  e_userMessage : jsval;
  e_isRetryError : bool
}.

Definition type_error (msg : string) : error :=
  mkError JUndefined msg None None JUndefined false.

(** What reaches the network. *)
Record wire : Type := mkWire {
  w_method : string;
  w_base : jsval;
  w_url : jsval;
  w_timeout : N
}.

(** What the network answers: an HTTP reply or a transport failure with the
    code and message axios reports. *)
Inductive answer : Type :=
| Reply (r : response)
| NetFail (code : string) (msg : string).

(** Build-time configuration, browser location and the backend.  The backend
    is any function from the number of network calls made so far and the call
    itself to an answer, so it may be down, wake up after a while, or answer
    differently per URL. *)
Record env : Type := mkEnv {
  VITE_API_URL : jsval;            (* import.meta.env.VITE_API_URL *)
  hostname : string;               (* window.location.hostname *)
  net : nat -> wire -> answer
}.

(* ------------------------------------------------------------------------- *)
(** ** Observable events and the module state *)

Inductive event : Type :=
| Http (w : wire)
| Sleep (ms : N)
| ConsoleLog (msg : string)
| ConsoleWarn (msg : string).

(** An axios instance; [i_id] is the identity of the object. *)
Record instance : Type := mkInstance {
  i_id : nat;
  i_baseURL : jsval;
  i_timeout : N
}.

Record world : Type := mkWorld {
  cachedApiUrl : jsval;
  apiUrlChecked : bool;
  apiInstance : option instance;
  created : nat;                   (* instances constructed so far *)
  clock : nat;                     (* network calls made so far *)
  trace : list event               (* in chronological order *)
}.

Definition initial_world : world := mkWorld JNull false None 0 0 [].

Definition set_cache (u : jsval) (c : bool) (w : world) : world :=
  mkWorld u c (apiInstance w) (created w) (clock w) (trace w).

Definition emit (ev : event) (w : world) : world :=
  mkWorld (cachedApiUrl w) (apiUrlChecked w) (apiInstance w) (created w)
          (clock w) (trace w ++ [ev]).

Definition tick (w : world) : world :=
  mkWorld (cachedApiUrl w) (apiUrlChecked w) (apiInstance w) (created w)
          (S (clock w)) (trace w).

(* ------------------------------------------------------------------------- *)
(** ** The monad of asynchronous computations *)

Inductive outcome (A : Type) : Type :=
| Ret (a : A)            (* the promise resolves *)
| Throw (e : error)      (* the promise rejects *)
| OutOfFuel.             (* the model ran out of unfolding depth *)
Arguments Ret {A} a.
Arguments Throw {A} e.
Arguments OutOfFuel {A}.

Definition M (A : Type) : Type := world -> outcome A * world.

Definition ret {A} (a : A) : M A := fun w => (Ret a, w).
Definition throw {A} (e : error) : M A := fun w => (Throw e, w).
Definition out_of_fuel {A} : M A := fun w => (OutOfFuel, w).

Definition bind {A B} (m : M A) (k : A -> M B) : M B :=
  fun w =>
    match m w with
    | (Ret a, w') => k a w'
    | (Throw e, w') => (Throw e, w')
    | (OutOfFuel, w') => (OutOfFuel, w')
    end.

(** [try { m } catch (e) { h e }]: state changes made before the throw stay. *)
Definition try_catch {A} (m : M A) (h : error -> M A) : M A :=
  fun w =>
    match m w with
    | (Throw e, w') => h e w'
    | r => r
    end.

Declare Scope js_scope.
Delimit Scope js_scope with js.
Notation "x <- m ;; k" := (bind m (fun x => k))
  (at level 61, m at next level, right associativity) : js_scope.
Notation "m ;;; k" := (bind m (fun _ => k))
  (at level 61, right associativity) : js_scope.
Open Scope js_scope.

Definition get_world : M world := fun w => (Ret w, w).
Definition modify (f : world -> world) : M unit := fun w => (Ret tt, f w).

(** [await new Promise(resolve => setTimeout(resolve, ms))] *)
Definition sleep (ms : N) : M unit := modify (emit (Sleep ms)).
Definition console_log (msg : string) : M unit := modify (emit (ConsoleLog msg)).
Definition console_warn (msg : string) : M unit := modify (emit (ConsoleWarn msg)).

(** A [for] loop of [n] remaining iterations starting at index [i]; the body
    answers [Some v] for [return v] and [None] to go on with the next index
    (falling off the end of the body, or [continue]). *)
Fixpoint for_loop {A} (body : nat -> M (option A)) (after : M A) (n i : nat) : M A :=
  match n with
  | 0 => after
  | S n' =>
      r <- body i ;;
      match r with
      | Some v => ret v
      | None => for_loop body after n' (S i)
      end
  end.

(* ------------------------------------------------------------------------- *)
(** ** The axios calls the module makes

    axios is an external library; this is the part of its behaviour the
    module relies on: a call reaches the network once, a reply whose status
    [validateStatus] accepts resolves, any other reply rejects with an error
    carrying the response (axios's [settle]), and a transport failure rejects
    with an error carrying the failure code and no response. *)

Definition decimal (n : nat) : string := NilEmpty.string_of_uint (Nat.to_uint n).

Definition status_code (s : nat) : jsval :=
  if (400 <=? s) && (s <? 500) then JStr "ERR_BAD_REQUEST"
  else if (500 <=? s) && (s <? 600) then JStr "ERR_BAD_RESPONSE"
  else JUndefined.

Definition status_error (r : response) (config : request) : error :=
  mkError (status_code (r_status r))
          ("Request failed with status code " ++ decimal (r_status r))
          (Some r) (Some config) JUndefined false.

Definition transport_error (code msg : string) (config : request) : error :=
  mkError (JStr code) msg None (Some config) JUndefined false.

Definition wire_of (config : request) : wire :=
  mkWire (q_method config) (q_baseURL config) (q_url config)
         (match q_timeout config with Some t => t | None => 0%N end).

Section Axios.
Variable E : env.

(** The adapter: one network call for the (already merged) config. *)
Definition dispatch (validateStatus : nat -> bool) (config : request) : M response :=
  fun w =>
    let w' := tick (emit (Http (wire_of config)) w) in
    match net E (clock w) (wire_of config) with
    | Reply r =>
        if validateStatus (r_status r) then (Ret r, w')
        else (Throw (status_error r config), w')
    | NetFail code msg => (Throw (transport_error code msg config), w')
    end.

(** [axios.get(url, { timeout, validateStatus })] on the global axios. *)
Definition axios_get (url : string) (timeout : N) (validateStatus : nat -> bool)
  : M response :=
  dispatch validateStatus (mkRequest "get" (JStr url) JUndefined (Some timeout) false).
End Axios.

(** The default [validateStatus] of an instance: 2xx. *)
Definition default_validateStatus (status : nat) : bool :=
  (200 <=? status) && (status <? 300).

(** The [validateStatus] of the health probes: [status < 500]. *)
Definition below_500 (status : nat) : bool := status <? 500.

(** axios's mergeConfig of the instance defaults with the call's config. *)
Definition merge_defaults (inst : instance) (config : request) : request :=
  mkRequest (q_method config) (q_url config)
            (match q_baseURL config with JUndefined => i_baseURL inst | b => b end)
            (match q_timeout config with None => Some (i_timeout inst) | t => t end)
            (q_retry config).

(** [{ success, url?, error? }] *)
Record health_result : Type := mkHealth {
  success : bool;
  h_url : option jsval;
  h_error : option error
}.

(** [response.data && response.data.status === 'ok'] *)
Definition body_ok (r : response) : bool :=
  match r_data r with
  | Some b => is_str (b_status b) "ok"
  | None => false
  end.

(** [error.response.data?.message] *)
Definition data_message (r : response) : jsval :=
  match r_data r with
  | Some b => b_message b
  | None => JUndefined
  end.

Definition localUrl : string := "http://localhost:5000".

Definition set_userMessage (m : jsval) (e : error) : error :=
  mkError (e_code e) (e_message e) (e_response e) (e_config e) m (e_isRetryError e).

Definition set_instance (i : instance) (w : world) : world :=
  mkWorld (cachedApiUrl w) (apiUrlChecked w) (Some i) (created w) (clock w) (trace w).

(** [axios.create({ baseURL, timeout, headers })]: a fresh object. *)
Definition axios_create (baseURL : jsval) (timeout : N) : M instance :=
  fun w =>
    (Ret (mkInstance (created w) baseURL timeout),
     mkWorld (cachedApiUrl w) (apiUrlChecked w) (apiInstance w) (S (created w))
             (clock w) (trace w)).

(** The calls of the exported [api] object that go through the instance. *)
Definition get_request (path : string) : request :=
  mkRequest "get" (JStr path) JUndefined None false.
Definition delete_request (path : string) : request :=
  mkRequest "delete" (JStr path) JUndefined None false.

(** *** Calls of [getApiInstance] that overlap

    [getApiInstance] is [async]: between the test [!apiInstance] and the
    assignment [apiInstance = ...] it is suspended at
    [await createApiInstance()], and [createApiInstance] is itself suspended
    at [await getApiUrlWithFallback()].  A call is in one of these states. *)
Inductive pending : Type :=
| AwaitingUrl (apiUrl : jsval)       (* in [createApiInstance], the URL obtained *)
| AwaitingInstance (inst : instance) (* in [getApiInstance], the instance constructed *)
| Returned (inst : instance).        (* [return apiInstance] reached *)



(* ------------------------------------------------------------------------- *)
(** ** Variant without wake-up: src/unnamed/part_000 *)

Module Direct.
Section WithEnv.
Variable E : env.

Definition getApiUrl : jsval :=
  let envUrl := VITE_API_URL E in
  match envUrl with
  | JStr s =>
      if truthy envUrl && truthy (JStr (trim s))
      then JStr (strip_trailing_slashes (trim s))
      else JStr localUrl
  | _ => JStr localUrl
  end.

(** [url ? url.replace(/\/+$/, '') : url] *)
Definition clean (url : jsval) : jsval :=
  match url with
  | JStr s => if truthy url then JStr (strip_trailing_slashes s) else url
  | _ => url
  end.

Definition healthUrl (cleanUrl : jsval) : string :=
  if truthy cleanUrl then template cleanUrl ++ "/api/health" else "/api/health".

Definition is_transport (error : error) : bool :=
  is_str (e_code error) "ERR_NAME_NOT_RESOLVED"
  || is_str (e_code error) "ERR_NETWORK"
  || is_str (e_code error) "ECONNABORTED".

(** One iteration of the loop of [checkApiHealth], at index [i]. *)
Definition checkApiHealth_body (url cleanUrl : jsval) (retries i : nat)
  : M (option health_result) :=
  try_catch
    (response <- axios_get E (healthUrl cleanUrl) 10000%N below_500 ;;
     if body_ok response
     then ret (Some (mkHealth true (Some url) None))
     else ret None)
    (fun error =>
       if is_transport error then
         if S i =? retries                      (* i === retries - 1 *)
         then ret (Some (mkHealth false None (Some error)))
         else sleep (2000 * (N.of_nat i + 1))%N ;;; ret None
       else
         if S i =? retries
         then ret (Some (mkHealth false None (Some error)))
         else sleep (1000 * (N.of_nat i + 1))%N ;;; ret None).

(** [retries] counts attempts: a natural number, as at every call site (1, 2
    and the default 3).  The loop test [i < retries] is the number of
    iterations left. *)
Definition checkApiHealth (url : jsval) (retries : nat) : M health_result :=
  let cleanUrl := clean url in
  for_loop (checkApiHealth_body url cleanUrl retries)
           (ret (mkHealth false None None)) retries 0.

Definition getApiUrlWithFallback : M jsval :=
  w <- get_world ;;
  if truthy (cachedApiUrl w) && apiUrlChecked w
  then ret (cachedApiUrl w)
  else
    let apiUrl := getApiUrl in
    modify (set_cache apiUrl true) ;;;
    ret apiUrl.

(** The request interceptor. *)
Definition requestFulfilled (config : request) : M request :=
  w <- get_world ;;
  match cachedApiUrl w with
  | JStr s =>
      if truthy (cachedApiUrl w)
      then ret (mkRequest (q_method config) (q_url config)
                          (JStr (strip_trailing_slashes s))
                          (q_timeout config) (q_retry config))
      else ret config
  | _ => ret config
  end.

(** The message the response interceptor derives for an error. *)
Definition userMessage_of (error : error) : jsval :=
  if is_str (e_code error) "ERR_NETWORK" || is_str (e_code error) "ERR_NAME_NOT_RESOLVED"
  then JStr "Cannot connect to server. Please check your connection and try again."
  else if is_str (e_code error) "ECONNABORTED" && includes "timeout" (e_message error)
  then JStr "Upload timeout: The server is taking too long to respond. This may happen if the service is waking up. Please try again."
  else match e_response error with
       | Some r => js_or (data_message r) (JStr (e_message error))
       | None => js_or (JStr (e_message error)) (JStr "An unexpected error occurred")
       end.

(** The response interceptor's rejection handler. *)
Definition responseRejected (error : error) : M response :=
  throw (set_userMessage (userMessage_of error) error).

(** [instance(config)]: request interceptor, adapter, response interceptor. *)
Definition instance_request (inst : instance) (config : request) : M response :=
  config' <- requestFulfilled (merge_defaults inst config) ;;
  try_catch (dispatch E default_validateStatus config') responseRejected.

Definition createApiInstance : M instance :=
  apiUrl <- getApiUrlWithFallback ;;
  let cleanBaseUrl := clean apiUrl in
  axios_create cleanBaseUrl 30000%N.

(** A call of [getApiInstance] during which no other call is started. *)
Definition getApiInstance : M instance :=
  w <- get_world ;;
  match apiInstance w with
  | None =>
      inst <- createApiInstance ;;
      modify (set_instance inst) ;;;
      ret inst
  | Some inst => ret inst
  end.

(** The same call by stretches.  The first one runs up to the [await] in
    [createApiInstance]: the test of [apiInstance] and the call of
    [getApiUrlWithFallback], which contains no [await] in this variant. *)
Definition getApiInstance_start : M pending :=
  w <- get_world ;;
  match apiInstance w with
  | None => apiUrl <- getApiUrlWithFallback ;; ret (AwaitingUrl apiUrl)
  | Some inst => ret (Returned inst)
  end.

(** The rest of [createApiInstance], then the assignment and the [return] of
    [getApiInstance]. *)
Definition getApiInstance_step (p : pending) : M pending :=
  match p with
  | AwaitingUrl apiUrl =>
      inst <- axios_create (clean apiUrl) 30000%N ;; ret (AwaitingInstance inst)
  | AwaitingInstance inst => modify (set_instance inst) ;;; ret (Returned inst)
  | Returned inst => ret (Returned inst)
  end.

Definition api_upload : M response :=
  inst <- getApiInstance ;;
  instance_request inst
    (mkRequest "post" (JStr "/api/upload") JUndefined (Some 120000%N) false).

Definition api_getResults : M response :=
  inst <- getApiInstance ;;
  instance_request inst (get_request "/api/results").

Definition api_getResult (id : string) : M response :=
  inst <- getApiInstance ;;
  instance_request inst (get_request ("/api/results/" ++ id)).

Definition api_downloadResult (id : string) : M response :=
  inst <- getApiInstance ;;
  instance_request inst (get_request ("/api/results/" ++ id ++ "/download")).

Definition api_deleteResult (id : string) : M response :=
  inst <- getApiInstance ;;
  instance_request inst (delete_request ("/api/results/" ++ id)).

Definition api_getRequirements : M response :=
  inst <- getApiInstance ;;
  instance_request inst (get_request "/api/requirements").

Definition api_healthCheck : M health_result :=
  apiUrl <- getApiUrlWithFallback ;;
  checkApiHealth apiUrl 3.
End WithEnv.
End Direct.

(* ------------------------------------------------------------------------- *)
(** ** Variant with auto-detection and wake-up: src/unnamed/part_001 *)

(** How the body of a loop iteration ends when it contains code after the
    [try] statement: [return v], [continue], or falling out of the [try]. *)
Inductive flow (A : Type) : Type :=
| Return (v : A)
| Continue
| FallThrough.
Arguments Return {A} v.
Arguments Continue {A}.
Arguments FallThrough {A}.

Definition set_retry (b : bool) (q : request) : request :=
  mkRequest (q_method q) (q_url q) (q_baseURL q) (q_timeout q) b.
Definition set_baseURL (u : jsval) (q : request) : request :=
  mkRequest (q_method q) (q_url q) u (q_timeout q) (q_retry q).
Definition set_url (u : jsval) (q : request) : request :=
  mkRequest (q_method q) u (q_baseURL q) (q_timeout q) (q_retry q).
Definition set_config (q : request) (e : error) : error :=
  mkError (e_code e) (e_message e) (e_response e) (Some q) (e_userMessage e)
          (e_isRetryError e).

Module AutoDetect.
Section WithEnv.
Variable E : env.

Definition getApiUrl : jsval :=
  let envUrl := VITE_API_URL E in
  if negb (truthy envUrl) || js_eqb envUrl (JStr localUrl) then
    let isProduction := negb (String.eqb (hostname E) "localhost") in
    if isProduction then JNull else JStr localUrl
  else envUrl.

(** One iteration of the loop of [checkApiHealth], at index [i]. *)
Definition checkApiHealth_body (url : jsval) (retries i : nat)
  : M (option health_result) :=
  try_catch
    (response <- axios_get E (template url ++ "/api/health") 5000%N below_500 ;;
     if body_ok response
     then ret (Some (mkHealth true (Some url) None))
     else ret None)
    (fun error =>
       if S i =? retries                        (* i === retries - 1 *)
       then ret (Some (mkHealth false None (Some error)))
       else sleep (1000 * (N.of_nat i + 1))%N ;;; ret None).

Definition checkApiHealth (url : jsval) (retries : nat) : M health_result :=
  for_loop (checkApiHealth_body url retries)
           (ret (mkHealth false None None)) retries 0.

Definition possibleUrls : list string :=
  filter (fun u => negb (is_empty u))            (* .filter(Boolean) *)
    [ "https://filebackend-production.up.railway.app";
      "https://filebackend-production-b095.up.railway.app" ].

(** The [for ... of possibleUrls] loop of [detectApiUrl] and what follows it. *)
Fixpoint detect_candidates (urls : list string) : M jsval :=
  match urls with
  | [] =>
      console_warn "Could not auto-detect API URL. Please set VITE_API_URL environment variable." ;;;
      ret JNull
  | url :: rest =>
      r <- try_catch
             (health <- checkApiHealth (JStr url) 2 ;;
              if success health
              then console_log ("Auto-detected API URL: " ++ url) ;;; ret (Some (JStr url))
              else ret None)
             (fun _ => ret None) ;;
      match r with
      | Some u => ret u
      | None => detect_candidates rest
      end
  end.

Definition detectApiUrl : M jsval :=
  found <- (if truthy (VITE_API_URL E)
            then health <- checkApiHealth (VITE_API_URL E) 2 ;; ret (success health)
            else ret false) ;;
  if found then ret (VITE_API_URL E) else detect_candidates possibleUrls.

Definition getApiUrlWithFallback : M jsval :=
  w <- get_world ;;
  if truthy (cachedApiUrl w) && apiUrlChecked w
  then ret (cachedApiUrl w)
  else
    let apiUrl := getApiUrl in
    (* !apiUrl || !(await checkApiHealth(apiUrl, 1)).success *)
    unavailable <- (if negb (truthy apiUrl) then ret true
                    else health <- checkApiHealth apiUrl 1 ;;
                         ret (negb (success health))) ;;
    apiUrl <- (if unavailable : bool then
                 console_warn "API URL not available, attempting auto-detection..." ;;;
                 detected <- detectApiUrl ;;
                 if negb (truthy detected)
                 then ret (js_or (VITE_API_URL E) (JStr localUrl))
                 else ret detected
               else ret apiUrl) ;;
    modify (set_cache apiUrl true) ;;;
    ret apiUrl.

Definition maxRetries : nat := 3.

(** One iteration of the loop of [wakeUpServer], for [attempt] from 1. *)
Definition wakeUpServer_body (apiUrl : jsval) (attempt : nat) : M (option bool) :=
  r <- try_catch
         (let timeout := if attempt =? 1 then 5000%N else 15000%N in
          response <- axios_get E (template apiUrl ++ "/api/health") timeout below_500 ;;
          if body_ok response
          then console_log "Server is awake and responding" ;;; ret (Return true)
          else ret FallThrough)
         (fun error =>
            let isLastAttempt := attempt =? maxRetries in
            if is_str (e_code error) "ERR_NAME_NOT_RESOLVED" then
              if isLastAttempt then
                console_warn ("Server wake-up failed after " ++ decimal maxRetries
                              ++ " attempts: " ++ e_message error) ;;;
                ret (Return false)
              else sleep (2000 * N.of_nat attempt)%N ;;; ret Continue
            else if is_str (e_code error) "ECONNABORTED"
                    || is_str (e_code error) "ETIMEDOUT" then
              if isLastAttempt then
                console_warn ("Server wake-up timed out after " ++ decimal maxRetries
                              ++ " attempts") ;;;
                ret (Return false)
              else sleep (2000 * N.of_nat attempt)%N ;;; ret Continue
            else
              console_warn ("Server wake-up attempt " ++ decimal attempt
                            ++ " failed: " ++ e_message error) ;;;
              if isLastAttempt then ret (Return false) else ret FallThrough) ;;
  match r with
  | Return b => ret (Some b)
  | Continue => ret None
  | FallThrough =>
      (* Wait between attempts (except on last attempt) *)
      (if attempt <? maxRetries then sleep (2000 * N.of_nat attempt)%N else ret tt) ;;;
      ret None
  end.

Definition wakeUpServer (apiUrl : jsval) : M bool :=
  apiUrl <- (if negb (truthy apiUrl) then getApiUrlWithFallback else ret apiUrl) ;;
  for_loop (wakeUpServer_body apiUrl) (ret false) maxRetries 1.

Definition createApiInstance : M instance :=
  apiUrl <- getApiUrlWithFallback ;;
  axios_create apiUrl 30000%N.

(** The request interceptor. *)
Definition requestFulfilled (config : request) : M request :=
  w <- get_world ;;
  if truthy (cachedApiUrl w)
  then ret (set_baseURL (cachedApiUrl w) config)
  else ret config.

Definition is_network (error : error) : bool :=
  is_str (e_code error) "ERR_NETWORK" || is_str (e_code error) "ERR_NAME_NOT_RESOLVED".

Definition wake_marker : string :=
  "Network error detected, attempting to wake up server...".

(** The body of the interceptor's [try] block.  It answers [Some q] where
    the source has [return instance(q)]: the promise of the re-issued
    request is returned without [await], so its rejection is not seen by
    the [catch] of this block.  It answers [None] where control leaves the
    block normally. *)
Definition retry_decision (originalRequest : request) : M (option request) :=
  apiUrl <- getApiUrlWithFallback ;;
  woke <- wakeUpServer apiUrl ;;
  if woke : bool then
    console_log "Server awakened, retrying request..." ;;;
    ret (Some (set_baseURL apiUrl originalRequest))
  else
    console_warn "Wake-up failed, refreshing API URL..." ;;;
    modify (set_cache JNull false) ;;;
    newApiUrl <- getApiUrlWithFallback ;;
    if negb (js_eqb newApiUrl apiUrl) then
      let q := set_baseURL newApiUrl originalRequest in
      match q_url q with
      | JStr u =>
          ret (Some (set_url
                       (JStr (js_replace u (template (js_or (q_baseURL q) (JStr "")))
                                         (template newApiUrl)))
                       q))
      | _ => throw (type_error "Cannot read properties of undefined (reading 'replace')")
      end
    else ret None.

(** [{ ...retryError, message: '...', isRetryError: true }] *)
Definition retry_error (retryError : error) : error :=
  mkError (e_code retryError)
          "Unable to connect to server. The server may be sleeping or unavailable. Please try again in a moment."
          (e_response retryError) (e_config retryError) (e_userMessage retryError) true.

Definition userMessage_of (error : error) : jsval :=
  if is_network error
  then JStr "Cannot connect to server. The server may be sleeping or unavailable. Please try again in a moment."
  else match e_response error with
       | Some r => js_or (data_message r) (JStr (e_message error))
       | None => js_or (JStr (e_message error)) (JStr "An unexpected error occurred")
       end.

(** The tail of the interceptor: "Enhanced error message". *)
Definition reject_enhanced (error : error) : M response :=
  throw (set_userMessage (userMessage_of error) error).

(** The response interceptor's rejection handler; [self] is the instance
    it is installed on. *)
Definition responseRejected (self : request -> M response) (error : error)
  : M response :=
  if is_network error then
    match e_config error with
    | None => throw (type_error "Cannot read properties of undefined (reading '_retry')")
    | Some originalRequest =>
        if negb (q_retry originalRequest) then
          (* originalRequest._retry = true; error.config is the same object *)
          let originalRequest := set_retry true originalRequest in
          let error := set_config originalRequest error in
          console_warn wake_marker ;;;
          d <- try_catch (retry_decision originalRequest)
                         (fun retryError => throw (retry_error retryError)) ;;
          match d with
          | Some q => self q
          | None => reject_enhanced error
          end
        else reject_enhanced error
    end
  else reject_enhanced error.

(** [instance(config)]: request interceptor, adapter, response interceptor.
    The interceptor re-enters the instance; [fuel] bounds the nesting. *)
Fixpoint instance_request (fuel : nat) (inst : instance) (config : request)
  : M response :=
  match fuel with
  | 0 => out_of_fuel
  | S fuel' =>
      config' <- requestFulfilled (merge_defaults inst config) ;;
      try_catch (dispatch E default_validateStatus config')
                (responseRejected (instance_request fuel' inst))
  end.

(** A call of [getApiInstance] during which no other call is started. *)
Definition getApiInstance : M instance :=
  w <- get_world ;;
  match apiInstance w with
  | None =>
      inst <- createApiInstance ;;
      modify (set_instance inst) ;;;
      ret inst
  | Some inst => ret inst
  end.

(** The same call by stretches.  The first one runs up to the [await] in
    [createApiInstance].  With a base URL resolved, [getApiUrlWithFallback]
    returns the cached URL without suspending, and the stretch is the test of
    [apiInstance] and that call.  Without one it suspends at every probe; the
    whole resolution is then kept in this stretch, so that the schedule
    [two_calls] is that of the source only from a world with a resolved
    URL. *)
Definition getApiInstance_start : M pending :=
  w <- get_world ;;
  match apiInstance w with
  | None => apiUrl <- getApiUrlWithFallback ;; ret (AwaitingUrl apiUrl)
  | Some inst => ret (Returned inst)
  end.

(** The rest of [createApiInstance], then the assignment and the [return] of
    [getApiInstance]. *)
Definition getApiInstance_step (p : pending) : M pending :=
  match p with
  | AwaitingUrl apiUrl =>
      inst <- axios_create apiUrl 30000%N ;; ret (AwaitingInstance inst)
  | AwaitingInstance inst => modify (set_instance inst) ;;; ret (Returned inst)
  | Returned inst => ret (Returned inst)
  end.

Definition api_upload (fuel : nat) : M response :=
  inst <- getApiInstance ;;
  instance_request fuel inst (mkRequest "post" (JStr "/api/upload") JUndefined None false).

Definition api_getResults (fuel : nat) : M response :=
  inst <- getApiInstance ;;
  instance_request fuel inst (get_request "/api/results").

Definition api_getResult (fuel : nat) (id : string) : M response :=
  inst <- getApiInstance ;;
  instance_request fuel inst (get_request ("/api/results/" ++ id)).

Definition api_downloadResult (fuel : nat) (id : string) : M response :=
  inst <- getApiInstance ;;
  instance_request fuel inst (get_request ("/api/results/" ++ id ++ "/download")).

Definition api_deleteResult (fuel : nat) (id : string) : M response :=
  inst <- getApiInstance ;;
  instance_request fuel inst (delete_request ("/api/results/" ++ id)).

Definition api_getRequirements (fuel : nat) : M response :=
  inst <- getApiInstance ;;
  instance_request fuel inst (get_request "/api/requirements").

Definition api_healthCheck : M health_result :=
  apiUrl <- getApiUrlWithFallback ;;
  checkApiHealth apiUrl 3.
End WithEnv.
End AutoDetect.

(* ------------------------------------------------------------------------- *)
(** ** Observations on traces and URLs *)

Definition starts_with_slash (s : string) : bool :=
  match s with
  | String c _ => is_slash c
  | EmptyString => false
  end.

(** Number of positions of [s] where two slashes follow each other. *)
Fixpoint double_slashes (s : string) : nat :=
  match s with
  | String c t =>
      (if is_slash c && starts_with_slash t then 1 else 0) + double_slashes t
  | EmptyString => 0
  end.

Definition is_http (ev : event) : bool :=
  match ev with Http _ => true | _ => false end.

Definition is_sleep (ev : event) : bool :=
  match ev with Sleep _ => true | _ => false end.

(** Network calls recorded in a trace. *)
Definition http_count (t : list event) : nat := length (filter is_http t).

(** Backoff waits recorded in a trace, in order. *)
Fixpoint sleeps (t : list event) : list N :=
  match t with
  | Sleep ms :: t' => ms :: sleeps t'
  | _ :: t' => sleeps t'
  | [] => []
  end.

(** [n] attempts on the wire [wr], the one at index [i] followed (unless it is
    the last) by a wait of [unit * (i + 1)] milliseconds. *)
Fixpoint attempts_with_backoff (wr : wire) (unit : N) (n i : nat) : list event :=
  match n with
  | 0 => []
  | S n' =>
      Http wr ::
      match n' with
      | 0 => []
      | S _ => Sleep (unit * (N.of_nat i + 1))%N :: attempts_with_backoff wr unit n' (S i)
      end
  end.

(** The wire of a health probe on the global axios. *)
Definition probe_wire (url : string) (timeout : N) : wire :=
  mkWire "get" JUndefined (JStr url) timeout.

(** The transport failures the health check of [Direct] classifies. *)
Definition transport_code (code : string) : bool :=
  String.eqb code "ERR_NAME_NOT_RESOLVED"
  || String.eqb code "ERR_NETWORK"
  || String.eqb code "ECONNABORTED".

Definition transport_failure (a : answer) : bool :=
  match a with
  | NetFail code _ => transport_code code
  | Reply _ => false
  end.

(** A reply the health probe inspects and does not accept as healthy. *)
Definition unhealthy_reply (a : answer) : bool :=
  match a with
  | Reply r => (r_status r <? 500) && negb (body_ok r)
  | NetFail _ _ => false
  end.

(** The error a probe on [url] throws for a transport failure. *)
Definition probe_error (a : answer) (url : string) (timeout : N) : option error :=
  match a with
  | NetFail code msg =>
      Some (transport_error code msg (mkRequest "get" (JStr url) JUndefined (Some timeout) false))
  | Reply _ => None
  end.

(** The world after [k] more network calls and the events [evs]; module
    variables are untouched. *)
Definition advance (k : nat) (evs : list event) (w : world) : world :=
  mkWorld (cachedApiUrl w) (apiUrlChecked w) (apiInstance w) (created w)
          (k + clock w) (trace w ++ evs).

(** Events of the resolution and wake-up machinery: probes on the global
    axios (no base URL), waits and console messages other than the one that
    opens a wake-and-retry cycle. *)
Definition quiet_event (ev : event) : bool :=
  match ev with
  | Http wr => js_eqb (w_base wr) JUndefined
  | Sleep _ => true
  | ConsoleLog _ => true
  | ConsoleWarn msg => negb (String.eqb msg AutoDetect.wake_marker)
  end.

(** [m] always completes normally, touches no module variable, and makes at
    most [bound] network calls, all of them probes. *)
Definition io_spec {A} (bound : nat) (m : M A) : Prop :=
  forall w, exists a k evs,
    m w = (Ret a, advance k evs w) /\
    k <= bound /\ http_count evs = k /\ forallb quiet_event evs = true.

(** *** Concrete backends and configurations used as test inputs *)

Definition healthy_body : body := mkBody (JStr "ok") JUndefined.

(** Nothing configured, served from localhost, backend unreachable. *)
Definition env_down : env :=
  mkEnv JUndefined "localhost" (fun _ _ => NetFail "ERR_NETWORK" "Network Error").

(** Nothing configured, served from localhost, every call answered 500. *)
Definition env_500 : env :=
  mkEnv JUndefined "localhost" (fun _ _ => Reply (mkResponse 500 None)).

(** Nothing configured, served from localhost, every call answered 404. *)
Definition env_404 : env :=
  mkEnv JUndefined "localhost" (fun _ _ => Reply (mkResponse 404 None)).

(** A configured URL with trailing slashes and a healthy backend. *)
Definition env_slashes : env :=
  mkEnv (JStr "https://api.example.com///") "app.example.com"
        (fun _ _ => Reply (mkResponse 200 (Some healthy_body))).

(** A configured URL; every call times out. *)
Definition env_timeout : env :=
  mkEnv (JStr "https://api.example.com") "app.example.com"
        (fun _ _ => NetFail "ECONNABORTED" "timeout of 30000ms exceeded").

(** [io_spec] with a postcondition on the value returned. *)
Definition io_post {A} (bound : nat) (P : A -> Prop) (m : M A) : Prop :=
  forall w, exists a k evs,
    m w = (Ret a, advance k evs w) /\
    k <= bound /\ http_count evs = k /\ forallb quiet_event evs = true /\ P a.

(** The wire of the wake-up probe number [attempt] on [apiUrl]. *)
Definition wake_wire (apiUrl : jsval) (attempt : nat) : wire :=
  probe_wire (template apiUrl ++ "/api/health")
             (if attempt =? 1 then 5000%N else 15000%N).

(** The answer makes a probe succeed: an inspectable status and a body with
    [status === 'ok']. *)
Definition healthy_answer (a : answer) : bool :=
  match a with
  | Reply r => below_500 (r_status r) && body_ok r
  | NetFail _ _ => false
  end.

(** What the auto-detection answers: [null] or a non-empty URL. *)
Definition null_or_truthy (v : jsval) : Prop := v = JNull \/ truthy v = true.

(** *** Observations on the resilient wrapper *)

(** The codes the response interceptor of [AutoDetect] treats as network-class. *)
Definition network_code (code : string) : bool :=
  String.eqb code "ERR_NETWORK" || String.eqb code "ERR_NAME_NOT_RESOLVED".

Definition network_failure (a : answer) : bool :=
  match a with
  | NetFail code _ => network_code code
  | Reply _ => false
  end.

Definition is_wake_marker (ev : event) : bool :=
  match ev with
  | ConsoleWarn msg => String.eqb msg AutoDetect.wake_marker
  | _ => false
  end.

(** Wake-and-retry cycles opened in a trace: each one starts with the warning
    [wake_marker], logged right before the only call of [wakeUpServer]. *)
Definition wake_cycles (t : list event) : nat := length (filter is_wake_marker t).

(** A network call made through an instance (it carries a base URL), as
    opposed to a probe on the global axios. *)
Definition is_request (ev : event) : bool :=
  match ev with
  | Http wr => negb (js_eqb (w_base wr) JUndefined)
  | _ => false
  end.

Definition requests_sent (t : list event) : nat := length (filter is_request t).

(** The config the adapter receives for [config] on [inst] in world [w]:
    instance defaults merged in, then the request interceptor applied. *)
Definition prepared (inst : instance) (config : request) (w : world) : request :=
  if truthy (cachedApiUrl w)
  then set_baseURL (cachedApiUrl w) (merge_defaults inst config)
  else merge_defaults inst config.

(** One network call whose failure goes straight to the "Enhanced error
    message" tail of the interceptor: what the instance of [AutoDetect] does
    with a request that is already marked as retried. *)
Definition send_once (E : env) (config : request) : M response :=
  try_catch (dispatch E default_validateStatus config) AutoDetect.reject_enhanced.

(** [self] restricted to requests that carry the retry marker. *)
Definition only_marked (self : request -> M response) : request -> M response :=
  fun q => if q_retry q then self q else out_of_fuel.

(** [w'] is [w] after at most [n] probes, waits and messages, with the URL
    cache possibly reassigned. *)
Definition quietly (n : nat) (w w' : world) : Prop :=
  exists c b k evs,
    w' = set_cache c b (advance k evs w) /\
    k <= n /\ http_count evs = k /\ forallb quiet_event evs = true.

Definition is_string (v : jsval) : bool :=
  match v with JStr _ => true | _ => false end.

(** From [w] to [w']: [k] network calls and the events [evs] were added, and
    the instance singleton was left alone. *)
Definition run_summary (w w' : world) (k : nat) (evs : list event) : Prop :=
  trace w' = (trace w ++ evs)%list /\ clock w' = k + clock w /\
  http_count evs = k /\
  apiInstance w' = apiInstance w /\ created w' = created w.

(** The message of the "Enhanced error message" tail of [AutoDetect] for a
    network-class error. *)
Definition connectivity_message : string :=
  "Cannot connect to server. The server may be sleeping or unavailable. Please try again in a moment.".

(** One wake-and-retry cycle, as the run [run] of a call of the instance
    [inst].  [cfg1] is the request whose failure [e] opened the cycle, now
    marked, and [w1] the world once the cycle has been announced.  The base
    URL is looked up; [wakeUpServer] runs once on it; then either the server
    woke and the request is sent once more on that URL, or it did not, the
    cache is cleared, the URL is resolved again, and the request is rejected
    when the URL is unchanged and sent once more when it changed (rejected at
    once when it has no string [url] to rewrite).  [send_once] is a single
    network call that opens no cycle. *)
Definition one_wake_and_retry (E : env) (inst : instance) (cfg1 : request) (e : error)
           (w1 : world) (run : outcome response * world) : Prop :=
  exists u w2 woke kw ew,
    AutoDetect.getApiUrlWithFallback E w1 = (Ret u, w2) /\
    AutoDetect.wakeUpServer E u w2 = (Ret woke, advance kw ew w2) /\
    1 <= kw <= 3 /\ http_count ew = kw /\
    if woke : bool then
      let w3 := advance kw (ew ++ [ConsoleLog "Server awakened, retrying request..."]) w2 in
      run = send_once E (prepared inst (set_baseURL u cfg1) w3) w3
    else
      kw = 3 /\
      exists newUrl w4,
        AutoDetect.getApiUrlWithFallback E
          (set_cache JNull false
             (advance kw (ew ++ [ConsoleWarn "Wake-up failed, refreshing API URL..."]) w2))
        = (Ret newUrl, w4) /\
        if js_eqb newUrl u
        then run = AutoDetect.reject_enhanced e w4
        else match q_url cfg1 with
             | JStr p =>
                 run = send_once E
                         (prepared inst
                            (set_url (JStr (js_replace p (template newUrl) (template newUrl)))
                                     (set_baseURL newUrl cfg1))
                            w4)
                         w4
             | _ =>
                 run = (Throw (AutoDetect.retry_error
                                 (type_error
                                    "Cannot read properties of undefined (reading 'replace')")),
                        w4)
             end.

(** A world in which the base URL has been resolved to [localUrl]. *)
Definition world_resolved : world := set_cache (JStr localUrl) true initial_world.

Definition instance_local : instance := mkInstance 0 (JStr localUrl) 30000.

(** A backend that is asleep for the first two calls and healthy afterwards. *)
Definition env_waking : env :=
  mkEnv JUndefined "localhost"
        (fun n _ => if n <? 2 then NetFail "ERR_NAME_NOT_RESOLVED" "getaddrinfo ENOTFOUND"
                    else Reply (mkResponse 200 (Some healthy_body))).

Definition upload_request : request :=
  mkRequest "post" (JStr "/api/upload") JUndefined None false.

(** The rejection, if any, carries the message [classify] derives for it; the
    run did not stop for lack of fuel. *)
Definition annotated_by (classify : error -> jsval) (o : outcome response) : Prop :=
  match o with
  | Throw e => e_userMessage e = classify e /\ is_string (e_userMessage e) = true
  | Ret _ => True
  | OutOfFuel => False
  end.

(* ------------------------------------------------------------------------- *)
(** ** The pages that call the API (frontend/src/pages) *)

(** Upload.jsx: the state [checkServer] sets. *)
Record server_view : Type := mkView {
  serverStatus : string;     (* 'checking', 'online', 'offline' *)
  errorMessage : string
}.

Definition setServerStatus (s : string) (ui : server_view) : server_view :=
  mkView s (errorMessage ui).
Definition setErrorMessage (m : string) (ui : server_view) : server_view :=
  mkView (serverStatus ui) m.

(** Upload.jsx, [checkServer], run on mount; [healthCheck] is [api.healthCheck]
    of whichever variant of utils/api the page is built with. *)
Definition checkServer (healthCheck : M health_result) (ui : server_view)
  : M server_view :=
  let ui := setServerStatus "checking" ui in
  try_catch
    (health <- healthCheck ;;
     if success health
     then ret (setErrorMessage "" (setServerStatus "online" ui))
     else ret (setErrorMessage
                 "Server is not available. Please check your connection and try again."
                 (setServerStatus "offline" ui)))
    (fun _ =>
       ret (setErrorMessage "Cannot connect to server. Please check your connection."
                            (setServerStatus "offline" ui))).

Definition upload_timeout_message : string :=
  "Upload timeout: The server took too long to respond. This may happen if the Railway service is waking up from sleep. Please wait a moment and try again.".

(** Upload.jsx, the [catch] of [handleUpload]: the message shown for [error]. *)
Definition upload_error_message (error : error) : jsval :=
  let errorMsg :=
    js_or (js_or (e_userMessage error) (JStr (e_message error)))
          (JStr "Unknown error occurred") in
  if is_str (e_code error) "ECONNABORTED" || includes "timeout" (e_message error)
  then JStr upload_timeout_message
  else errorMsg.

(** A character the class [[^/.]] accepts. *)
Definition is_ext_char (c : ascii) : bool :=
  negb (is_slash c || Ascii.eqb c "."%char).

Definition all_ext_chars (s : string) : bool :=
  forallb is_ext_char (list_ascii_of_string s).

(** [s.replace(/\.[^/.]+$/, '')]: the leftmost position where a dot is
    followed, up to the end of the string, by one or more characters other
    than a slash or a dot. *)
Fixpoint strip_extension (s : string) : string :=
  match s with
  | EmptyString => EmptyString
  | String c t =>
      if Ascii.eqb c "."%char && negb (is_empty t) && all_ext_chars t
      then EmptyString
      else String c (strip_extension t)
  end.

(** The Results page, [handleDownload]: the name given to the downloaded file. *)
Definition pdfFilename (id : nat) (filename : jsval) : string :=
  let baseName :=
    if truthy filename then strip_extension (template filename)
    else "file_" ++ decimal id in
  baseName ++ ".pdf".

(** Timeouts of the network calls recorded in a trace, in order. *)
Fixpoint timeouts (t : list event) : list N :=
  match t with
  | Http wr :: t' => w_timeout wr :: timeouts t'
  | _ :: t' => timeouts t'
  | [] => []
  end.

Definition total (l : list N) : N := fold_right N.add 0%N l.

Definition has_dollar (s : string) : bool :=
  existsb (fun c => Ascii.eqb c "$"%char) (list_ascii_of_string s).

(** The two module variables say that a base URL has been resolved. *)
Definition resolved (w : world) : bool :=
  truthy (cachedApiUrl w) && apiUrlChecked w.

(** The candidate URLs of the auto-detection, as values. *)
Definition is_candidate (u : jsval) : Prop :=
  exists c, In c AutoDetect.possibleUrls /\ u = JStr c.

(** The wait after wake-up attempt [j] and the timeout of its probe. *)
Definition wake_sleep (j : nat) : N := (2000 * N.of_nat j)%N.
Definition wake_timeout (j : nat) : N := if j =? 1 then 5000%N else 15000%N.

(** The 25 code points [String.prototype.trim] removes, each as the bytes of
    its UTF-8 encoding: U+0009 to U+000D, U+0020, U+00A0, U+1680, U+2000 to
    U+200A, U+2028, U+2029, U+202F, U+205F, U+3000, U+FEFF. *)
Definition white_space : list (list ascii) :=
  map (map ascii_of_nat)
    [ [9]; [10]; [11]; [12]; [13]; [32];
      [194; 160];
      [225; 154; 128];
      [226; 128; 128]; [226; 128; 129]; [226; 128; 130]; [226; 128; 131];
      [226; 128; 132]; [226; 128; 133]; [226; 128; 134]; [226; 128; 135];
      [226; 128; 136]; [226; 128; 137]; [226; 128; 138];
      [226; 128; 168]; [226; 128; 169];
      [226; 128; 175];
      [226; 129; 159];
      [227; 128; 128];
      [239; 187; 191] ].

(** A string made of white-space code points only (possibly none). *)
Definition blank (s : string) : Prop :=
  exists units, Forall (fun u => In u white_space) units /\
                list_ascii_of_string s = concat units.

(** A printable ASCII character other than the space. *)
Definition is_graphic (c : ascii) : bool :=
  let n := nat_of_ascii c in (33 <=? n) && (n <=? 126).

(** The string is not empty and both its first and its last character are
    printable ASCII, as in a URL. *)
Definition graphic_ends (s : string) : bool :=
  match list_ascii_of_string s, rev (list_ascii_of_string s) with
  | a :: _, z :: _ => is_graphic a && is_graphic z
  | _, _ => false
  end.

(** U+00A0 *)
Definition nbsp : string :=
  String (ascii_of_nat 194) (String (ascii_of_nat 160) EmptyString).

(** Upload.jsx, [handleUpload]: the pre-flight health check before the files
    are sent. *)
Definition preflight (healthCheck : M health_result) : M unit :=
  try_catch
    (healthCheck ;;; console_log "Server health check passed")
    (fun healthError =>
       console_warn ("Health check warning (continuing anyway): "
                       ++ e_message healthError)).

(* ========================================================================= *)
(** * Properties *)

(** ** Strings *)

Lemma drop_while_head {A} (p : A -> bool) (l : list A) :
  match drop_while p l with
  | x :: _ => p x = false
  | [] => True
  end.
Proof.
  induction l as [|x l IH]; simpl; [exact I|].
  destruct (p x) eqn:Hp; [exact IH | exact Hp].
Qed.

Lemma ends_with_slash_strip (s : string) :
  ends_with_slash (strip_end is_slash s) = false.
Proof.
  unfold ends_with_slash, strip_end.
  rewrite list_ascii_of_string_of_list_ascii, rev_involutive.
  pose proof (drop_while_head is_slash (rev (list_ascii_of_string s))) as H.
  destruct (drop_while is_slash (rev (list_ascii_of_string s))); [reflexivity | exact H].
Qed.

Lemma ends_with_slash_cons (c : ascii) (t : string) :
  ends_with_slash (String c t) =
  match t with
  | EmptyString => is_slash c
  | String _ _ => ends_with_slash t
  end.
Proof.
  unfold ends_with_slash. simpl list_ascii_of_string.
  destruct t as [|d t]; [reflexivity|].
  simpl list_ascii_of_string. simpl rev.
  destruct (rev (list_ascii_of_string t)) as [|x r]; reflexivity.
Qed.

Lemma starts_with_slash_app (s p : string) :
  s <> EmptyString -> starts_with_slash (s ++ p) = starts_with_slash s.
Proof. destruct s; [congruence | reflexivity]. Qed.

(** Appending a path to a base without a trailing slash creates no double
    slash at the junction. *)
Lemma double_slashes_app (base path : string) :
  ends_with_slash base = false ->
  double_slashes (base ++ path) = double_slashes base + double_slashes path.
Proof.
  induction base as [|c t IH]; intros H; [reflexivity|].
  rewrite ends_with_slash_cons in H.
  destruct t as [|d t'].
  - simpl. rewrite H. reflexivity.
  - specialize (IH H).
    change (String c (String d t') ++ path)%string
      with (String c (String d t' ++ path)%string).
    cbn [double_slashes]. rewrite IH.
    rewrite starts_with_slash_app by discriminate.
    cbn [double_slashes]. lia.
Qed.

(** ** Worlds and runs *)

Lemma world_eta (w : world) :
  mkWorld (cachedApiUrl w) (apiUrlChecked w) (apiInstance w) (created w)
          (clock w) (trace w) = w.
Proof. destruct w; reflexivity. Qed.

Lemma advance_0 (w : world) : advance 0 [] w = w.
Proof. unfold advance. simpl. rewrite app_nil_r. apply world_eta. Qed.

Lemma advance_advance (k1 k2 : nat) (e1 e2 : list event) (w : world) :
  advance k2 e2 (advance k1 e1 w) = advance (k1 + k2) (e1 ++ e2) w.
Proof.
  unfold advance; simpl. rewrite app_assoc. f_equal. lia.
Qed.

Lemma emit_advance (ev : event) (k : nat) (evs : list event) (w : world) :
  emit ev (advance k evs w) = advance k (evs ++ [ev]) w.
Proof. unfold emit, advance; simpl. rewrite app_assoc. reflexivity. Qed.

Lemma http_count_app (t1 t2 : list event) :
  http_count (t1 ++ t2) = http_count t1 + http_count t2.
Proof. unfold http_count. rewrite filter_app, length_app. reflexivity. Qed.

Lemma http_count_cons (ev : event) (t : list event) :
  http_count (ev :: t) = (if is_http ev then 1 else 0) + http_count t.
Proof. unfold http_count; simpl; destruct (is_http ev); reflexivity. Qed.

Lemma bind_run {A B} (m : M A) (k : A -> M B) (w w' : world) (a : A) :
  m w = (Ret a, w') -> bind m k w = k a w'.
Proof. intros H. unfold bind. rewrite H. reflexivity. Qed.

Lemma bind_assoc {A B C} (m : M A) (f : A -> M B) (g : B -> M C) (w : world) :
  bind (bind m f) g w = bind m (fun a => bind (f a) g) w.
Proof.
  unfold bind. destruct (m w) as [[a|e|] w1]; reflexivity.
Qed.

Lemma bind_get_world {B} (k : world -> M B) (w : world) :
  bind get_world k w = k w w.
Proof. reflexivity. Qed.

Lemma try_catch_ret {A} (m : M A) (h : error -> M A) (w w' : world) (a : A) :
  m w = (Ret a, w') -> try_catch m h w = (Ret a, w').
Proof. intros H. unfold try_catch. rewrite H. reflexivity. Qed.

(** Runs the event-only primitives and normalises the resulting world. *)
Ltac settle_events :=
  cbv [bind ret sleep console_log console_warn modify];
  repeat rewrite emit_advance; repeat rewrite advance_advance;
  cbn [app Nat.add]; try reflexivity.

(** What one network call does, by the backend's answer. *)
Lemma dispatch_run (E : env) (v : nat -> bool) (config : request) (w : world) :
  dispatch E v config w =
  (match net E (clock w) (wire_of config) with
   | Reply r => if v (r_status r) then Ret r else Throw (status_error r config)
   | NetFail code msg => Throw (transport_error code msg config)
   end,
   advance 1 [Http (wire_of config)] w).
Proof.
  unfold dispatch.
  destruct (net E (clock w) (wire_of config)) as [r|code msg];
    [destruct (v (r_status r))|]; reflexivity.
Qed.

(** ** The health check *)

Section HealthCheck.
Variable E : env.

Lemma status_error_not_transport (r : response) (config : request) :
  Direct.is_transport (status_error r config) = false.
Proof.
  unfold Direct.is_transport, status_error; cbn [e_code]. unfold status_code.
  destruct (andb _ _); [reflexivity|].
  destruct (andb _ _); reflexivity.
Qed.

(** One iteration of the health check of [Direct], by the backend's answer. *)
Lemma direct_body_run (url : jsval) (retries i : nat) (w : world) :
  let hurl := Direct.healthUrl (Direct.clean url) in
  let wr := probe_wire hurl 10000 in
  let w1 := advance 1 [Http wr] w in
  Direct.checkApiHealth_body E url (Direct.clean url) retries i w =
  match net E (clock w) wr with
  | Reply r =>
      if below_500 (r_status r) then
        (Ret (if body_ok r then Some (mkHealth true (Some url) None) else None), w1)
      else if S i =? retries
           then (Ret (Some (mkHealth false None
                        (Some (status_error r (mkRequest "get" (JStr hurl) JUndefined (Some 10000%N) false))))), w1)
           else (Ret None, advance 1 [Http wr; Sleep (1000 * (N.of_nat i + 1))] w)
  | NetFail code msg =>
      if S i =? retries
      then (Ret (Some (mkHealth false None (probe_error (NetFail code msg) hurl 10000))), w1)
      else (Ret None,
            advance 1 [Http wr; Sleep ((if transport_code code then 2000 else 1000)
                                       * (N.of_nat i + 1))] w)
  end.
Proof.
  intros hurl wr w1.
  unfold Direct.checkApiHealth_body, axios_get, try_catch, bind.
  rewrite dispatch_run.
  change (wire_of (mkRequest "get" (JStr (Direct.healthUrl (Direct.clean url)))
                             JUndefined (Some 10000%N) false)) with wr.
  destruct (net E (clock w) wr) as [r|code msg].
  - destruct (below_500 (r_status r)) eqn:Hs.
    + destruct (body_ok r); reflexivity.
    + rewrite status_error_not_transport.
      destruct (S i =? retries); [reflexivity | settle_events].
  - change (Direct.is_transport
              (transport_error code msg
                 (mkRequest "get" (JStr (Direct.healthUrl (Direct.clean url)))
                    JUndefined (Some 10000%N) false)))
      with (transport_code code).
    destruct (transport_code code); destruct (S i =? retries);
      first [reflexivity | settle_events].
Qed.

(** One iteration of the health check of [AutoDetect]. *)
Lemma autodetect_body_run (url : jsval) (retries i : nat) (w : world) :
  let hurl := (template url ++ "/api/health")%string in
  let wr := probe_wire hurl 5000 in
  let w1 := advance 1 [Http wr] w in
  AutoDetect.checkApiHealth_body E url retries i w =
  match net E (clock w) wr with
  | Reply r =>
      if below_500 (r_status r) then
        (Ret (if body_ok r then Some (mkHealth true (Some url) None) else None), w1)
      else if S i =? retries
           then (Ret (Some (mkHealth false None
                        (Some (status_error r (mkRequest "get" (JStr hurl) JUndefined (Some 5000%N) false))))), w1)
           else (Ret None, advance 1 [Http wr; Sleep (1000 * (N.of_nat i + 1))] w)
  | NetFail code msg =>
      if S i =? retries
      then (Ret (Some (mkHealth false None (probe_error (NetFail code msg) hurl 5000))), w1)
      else (Ret None, advance 1 [Http wr; Sleep (1000 * (N.of_nat i + 1))] w)
  end.
Proof.
  intros hurl wr w1.
  unfold AutoDetect.checkApiHealth_body, axios_get, try_catch, bind.
  rewrite dispatch_run.
  change (wire_of (mkRequest "get" (JStr (template url ++ "/api/health"))
                             JUndefined (Some 5000%N) false)) with wr.
  destruct (net E (clock w) wr) as [r|code msg].
  - destruct (below_500 (r_status r)).
    + destruct (body_ok r); reflexivity.
    + destruct (S i =? retries); [reflexivity | settle_events].
  - destruct (S i =? retries); [reflexivity | settle_events].
Qed.

End HealthCheck.

(** ** Computations that only probe, wait and log *)

Lemma io_ret {A} (a : A) : io_spec 0 (ret a).
Proof.
  intros w. exists a, 0, []. rewrite advance_0. repeat split; reflexivity.
Qed.

Lemma io_weaken {A} (n n' : nat) (m : M A) : n <= n' -> io_spec n m -> io_spec n' m.
Proof.
  intros Hn Hm w. destruct (Hm w) as (a & k & evs & H & Hk & Hc & Hq).
  exists a, k, evs. repeat split; try assumption. lia.
Qed.

Lemma io_bind {A B} (n1 n2 : nat) (m : M A) (f : A -> M B) :
  io_spec n1 m -> (forall a, io_spec n2 (f a)) -> io_spec (n1 + n2) (bind m f).
Proof.
  intros Hm Hf w.
  destruct (Hm w) as (a & k1 & e1 & H1 & Hk1 & Hc1 & Hq1).
  destruct (Hf a (advance k1 e1 w)) as (b & k2 & e2 & H2 & Hk2 & Hc2 & Hq2).
  exists b, (k1 + k2), (e1 ++ e2)%list.
  rewrite (bind_run _ _ _ _ _ H1), H2, advance_advance.
  repeat split; [lia | rewrite http_count_app; lia |].
  rewrite forallb_app, Hq1, Hq2. reflexivity.
Qed.

Lemma io_event (ev : event) :
  quiet_event ev = true -> is_http ev = false -> io_spec 0 (modify (emit ev)).
Proof.
  intros Hq Hh w. exists tt, 0, [ev]. unfold modify.
  split; [reflexivity|]. split; [lia|]. split.
  - unfold http_count; simpl; rewrite Hh; reflexivity.
  - simpl; rewrite Hq; reflexivity.
Qed.

Lemma io_sleep (ms : N) : io_spec 0 (sleep ms).
Proof. apply io_event; reflexivity. Qed.

Lemma io_console_log (msg : string) : io_spec 0 (console_log msg).
Proof. apply io_event; reflexivity. Qed.

Lemma io_console_warn (msg : string) :
  String.eqb msg AutoDetect.wake_marker = false -> io_spec 0 (console_warn msg).
Proof. intros H. apply io_event; [simpl; rewrite H|]; reflexivity. Qed.

Lemma io_for_loop {A} (b c : nat) (body : nat -> M (option A)) (after : M A) :
  (forall i, io_spec b (body i)) -> io_spec c after ->
  forall n i, io_spec (n * b + c) (for_loop body after n i).
Proof.
  intros Hbody Hafter n.
  induction n as [|n IH]; intros i; simpl.
  - exact Hafter.
  - replace (b + n * b + c) with (b + (n * b + c)) by lia.
    apply io_bind; [apply Hbody|].
    intros [v|]; [apply (io_weaken 0); [lia | apply io_ret] | apply IH].
Qed.

(** A probe through [try]/[catch] whose handler only waits and logs. *)
Lemma io_probe {A} (E : env) (url : string) (timeout : N) (v : nat -> bool)
      (k : response -> M A) (h : error -> M A) :
  (forall r, io_spec 0 (k r)) -> (forall e, io_spec 0 (h e)) ->
  io_spec 1 (try_catch (bind (axios_get E url timeout v) k) h).
Proof.
  intros Hk Hh w.
  unfold try_catch, bind, axios_get. rewrite dispatch_run.
  set (cfg := mkRequest "get" (JStr url) JUndefined (Some timeout) false).
  set (w1 := advance 1 [Http (wire_of cfg)] w).
  assert (Hok : forall a evs, forallb quiet_event evs = true -> http_count evs = 0 ->
      exists (a0 : A) k0 evs0, (Ret a, advance 0 evs w1) = (Ret a0, advance k0 evs0 w) /\
        k0 <= 1 /\ http_count evs0 = k0 /\ forallb quiet_event evs0 = true).
  { intros a evs Hq Hc. exists a, 1, (Http (wire_of cfg) :: evs).
    unfold w1. rewrite advance_advance.
    repeat split; [lia | | simpl; exact Hq].
    change (Http (wire_of cfg) :: evs) with ([Http (wire_of cfg)] ++ evs)%list.
    rewrite http_count_app, Hc. reflexivity. }
  assert (Hio : forall m : M A, io_spec 0 m -> exists (a0 : A) k0 evs0,
      m w1 = (Ret a0, advance k0 evs0 w) /\
        k0 <= 1 /\ http_count evs0 = k0 /\ forallb quiet_event evs0 = true).
  { intros m Hm. destruct (Hm w1) as (a & k0 & evs & H & Hk0 & Hc & Hq).
    destruct k0 as [|k0]; [|lia]. rewrite H. apply Hok; assumption. }
  destruct (net E (clock w) (wire_of cfg)) as [r|code msg].
  - destruct (v (r_status r)).
    + destruct (Hio (k r) (Hk r)) as (a0 & k0 & evs0 & H & Hrest).
      rewrite H. exists a0, k0, evs0. split; [reflexivity | exact Hrest].
    + apply Hio, Hh.
  - apply Hio, Hh.
Qed.

(** ** Health check: totality and effect summary *)

Lemma direct_checkApiHealth_io (E : env) (url : jsval) (retries : nat) :
  io_spec retries (Direct.checkApiHealth E url retries).
Proof.
  unfold Direct.checkApiHealth.
  apply (io_weaken (retries * 1 + 0)); [lia|].
  apply io_for_loop; [|apply io_ret].
  intros i. unfold Direct.checkApiHealth_body. apply io_probe.
  - intros r. destruct (body_ok r); apply io_ret.
  - intros e.
    destruct (Direct.is_transport e); destruct (S i =? retries);
      first [apply io_ret | apply (io_bind 0 0); [apply io_sleep | intros; apply io_ret]].
Qed.

Lemma autodetect_checkApiHealth_io (E : env) (url : jsval) (retries : nat) :
  io_spec retries (AutoDetect.checkApiHealth E url retries).
Proof.
  unfold AutoDetect.checkApiHealth.
  apply (io_weaken (retries * 1 + 0)); [lia|].
  apply io_for_loop; [|apply io_ret].
  intros i. unfold AutoDetect.checkApiHealth_body. apply io_probe.
  - intros r. destruct (body_ok r); apply io_ret.
  - intros e. destruct (S i =? retries);
      first [apply io_ret | apply (io_bind 0 0); [apply io_sleep | intros; apply io_ret]].
Qed.

(** C4: in both variants the health check returns a result object on every
    path, for every url, every attempt count and every backend; no exception
    leaves it. *)
Theorem checkApiHealth_never_throws
  (E : env) (url : jsval) (retries : nat) (w : world) :
  (exists r w', Direct.checkApiHealth E url retries w = (Ret r, w')) /\
  (exists r w', AutoDetect.checkApiHealth E url retries w = (Ret r, w')).
Proof.
  split.
  - destruct (direct_checkApiHealth_io E url retries w) as (r & k & evs & H & _).
    eauto.
  - destruct (autodetect_checkApiHealth_io E url retries w) as (r & k & evs & H & _).
    eauto.
Qed.

(** ** Health check against a backend that keeps failing *)

Lemma http_count_attempts (wr : wire) (unit : N) (n i : nat) :
  http_count (attempts_with_backoff wr unit n i) = n.
Proof.
  revert i. induction n as [|n IH]; intros i; [reflexivity|].
  destruct n as [|n]; [reflexivity|].
  specialize (IH (S i)).
  change (attempts_with_backoff wr unit (S (S n)) i)
    with (Http wr :: Sleep (unit * (N.of_nat i + 1)) :: attempts_with_backoff wr unit (S n) (S i)).
  rewrite !http_count_cons, IH. reflexivity.
Qed.

Lemma sleeps_attempts (wr : wire) (unit : N) (n i : nat) :
  sleeps (attempts_with_backoff wr unit n i) =
  map (fun j => (unit * (N.of_nat j + 1))%N) (seq i (n - 1)).
Proof.
  revert i. induction n as [|n IH]; intros i; [reflexivity|].
  destruct n as [|n]; [reflexivity|].
  specialize (IH (S i)).
  change (attempts_with_backoff wr unit (S (S n)) i)
    with (Http wr :: Sleep (unit * (N.of_nat i + 1)) :: attempts_with_backoff wr unit (S n) (S i)).
  change (sleeps (Http wr :: Sleep (unit * (N.of_nat i + 1))
                  :: attempts_with_backoff wr unit (S n) (S i)))
    with ((unit * (N.of_nat i + 1))%N :: sleeps (attempts_with_backoff wr unit (S n) (S i))).
  rewrite IH.
  replace (S (S n) - 1) with (S n) by lia.
  replace (S n - 1) with n by lia.
  reflexivity.
Qed.

Section FailingBackend.
Variable E : env.
Variable body : nat -> M (option health_result).
Variable wr : wire.
Variable unit : N.
Variable err : answer -> option error.
Variable retries : nat.

Hypothesis body_transport :
  forall i w code msg,
    net E (clock w) wr = NetFail code msg -> transport_code code = true ->
    body i w =
    if S i =? retries
    then (Ret (Some (mkHealth false None (err (NetFail code msg)))), advance 1 [Http wr] w)
    else (Ret None, advance 1 [Http wr; Sleep (unit * (N.of_nat i + 1))] w).

Lemma loop_all_transport (n i : nat) (w : world) :
  i + n = retries -> 0 < n ->
  (forall k wr', k < n -> transport_failure (net E (clock w + k) wr') = true) ->
  for_loop body (ret (mkHealth false None None)) n i w =
  (Ret (mkHealth false None (err (net E (clock w + (n - 1)) wr))),
   advance n (attempts_with_backoff wr unit n i) w).
Proof.
  revert i w. induction n as [|n IH]; intros i w Hin Hn Hnet; [lia|].
  pose proof (Hnet 0 wr ltac:(lia)) as H0. rewrite Nat.add_0_r in H0.
  destruct (net E (clock w) wr) as [r|code msg] eqn:Ha; [discriminate|].
  simpl in H0. simpl for_loop.
  specialize (body_transport i w code msg Ha H0).
  destruct n as [|n].
  - assert (Hlast : (S i =? retries) = true) by (apply Nat.eqb_eq; lia).
    rewrite Hlast in body_transport.
    rewrite (bind_run _ _ _ _ _ body_transport).
    replace (clock w + (1 - 1)) with (clock w) by lia. rewrite Ha. reflexivity.
  - assert (Hnot : (S i =? retries) = false) by (apply Nat.eqb_neq; lia).
    rewrite Hnot in body_transport.
    rewrite (bind_run _ _ _ _ _ body_transport).
    rewrite IH; [| lia | lia |].
    + rewrite advance_advance.
      replace (clock (advance 1 [Http wr; Sleep (unit * (N.of_nat i + 1))] w) + (S n - 1))
        with (clock w + (S (S n) - 1)) by (simpl; lia).
      reflexivity.
    + intros k wr' Hk.
      replace (clock (advance 1 [Http wr; Sleep (unit * (N.of_nat i + 1))] w) + k)
        with (clock w + S k) by (simpl; lia).
      apply Hnet. lia.
Qed.

End FailingBackend.

Section UnhealthyBackend.
Variable E : env.
Variable body : nat -> M (option health_result).
Variable wr : wire.

Hypothesis body_unhealthy :
  forall i w r,
    net E (clock w) wr = Reply r -> below_500 (r_status r) = true -> body_ok r = false ->
    body i w = (Ret None, advance 1 [Http wr] w).

Lemma loop_all_unhealthy (n i : nat) (w : world) :
  (forall k wr', k < n -> unhealthy_reply (net E (clock w + k) wr') = true) ->
  for_loop body (ret (mkHealth false None None)) n i w =
  (Ret (mkHealth false None None), advance n (repeat (Http wr) n) w).
Proof.
  revert i w. induction n as [|n IH]; intros i w Hnet.
  - simpl. unfold ret. rewrite advance_0. reflexivity.
  - pose proof (Hnet 0 wr ltac:(lia)) as H0. rewrite Nat.add_0_r in H0.
    destruct (net E (clock w) wr) as [r|code msg] eqn:Ha; [|discriminate].
    simpl in H0. apply andb_prop in H0. destruct H0 as [Hs Hb].
    apply negb_true_iff in Hb.
    simpl for_loop.
    rewrite (bind_run _ _ _ _ _ (body_unhealthy i w r Ha Hs Hb)).
    rewrite IH.
    + rewrite advance_advance. reflexivity.
    + intros k wr' Hk.
      replace (clock (advance 1 [Http wr] w) + k) with (clock w + S k) by (simpl; lia).
      apply Hnet. lia.
Qed.

End UnhealthyBackend.

Lemma sleeps_repeat_http (wr : wire) (n : nat) : sleeps (repeat (Http wr) n) = [].
Proof. induction n as [|n IH]; [reflexivity | exact IH]. Qed.

Lemma http_count_repeat (wr : wire) (n : nat) : http_count (repeat (Http wr) n) = n.
Proof.
  induction n as [|n IH]; [reflexivity|].
  simpl repeat. rewrite http_count_cons, IH. reflexivity.
Qed.

(** C5: when every attempt fails with a transport-classified error, the
    health check of either variant makes exactly [retries] attempts, waits
    [unit * 1], [unit * 2], ... between them (2000 ms units in [Direct],
    1000 ms units in [AutoDetect]) and returns [{success: false, error}] with
    the error of the last attempt. *)
Theorem checkApiHealth_exhausts_attempts
  (E : env) (url : jsval) (retries : nat) (w : world) :
  0 < retries ->
  (forall k wr, k < retries -> transport_failure (net E (clock w + k) wr) = true) ->
  let durl := Direct.healthUrl (Direct.clean url) in
  let aurl := (template url ++ "/api/health")%string in
  (exists e,
      probe_error (net E (clock w + (retries - 1)) (probe_wire durl 10000)) durl 10000 = Some e /\
      Direct.checkApiHealth E url retries w =
      (Ret (mkHealth false None (Some e)),
       advance retries (attempts_with_backoff (probe_wire durl 10000) 2000 retries 0) w)) /\
  (exists e,
      probe_error (net E (clock w + (retries - 1)) (probe_wire aurl 5000)) aurl 5000 = Some e /\
      AutoDetect.checkApiHealth E url retries w =
      (Ret (mkHealth false None (Some e)),
       advance retries (attempts_with_backoff (probe_wire aurl 5000) 1000 retries 0) w)) /\
  (forall wr unit,
      http_count (attempts_with_backoff wr unit retries 0) = retries /\
      sleeps (attempts_with_backoff wr unit retries 0) =
      map (fun j => (unit * (N.of_nat j + 1))%N) (seq 0 (retries - 1))).
Proof.
  intros Hpos Hnet durl aurl.
  assert (Hlast : forall wr url' t, exists e,
             probe_error (net E (clock w + (retries - 1)) wr) url' t = Some e).
  { intros wr url' t. pose proof (Hnet (retries - 1) wr ltac:(lia)) as H.
    destruct (net E (clock w + (retries - 1)) wr); [discriminate|].
    eexists; reflexivity. }
  split; [|split].
  - destruct (Hlast (probe_wire durl 10000) durl 10000%N) as (e & He).
    exists e. split; [exact He|]. rewrite <- He.
    unfold Direct.checkApiHealth.
    apply (loop_all_transport E _ (probe_wire durl 10000) 2000
             (fun a => probe_error a durl 10000) retries); try assumption; try lia.
    intros i w0 code msg Ha Hc.
    pose proof (direct_body_run E url retries i w0) as Hrun. cbv zeta in Hrun.
    fold durl in Hrun. rewrite Ha, Hc in Hrun. rewrite Hrun.
    destruct (S i =? retries); reflexivity.
  - destruct (Hlast (probe_wire aurl 5000) aurl 5000%N) as (e & He).
    exists e. split; [exact He|]. rewrite <- He.
    unfold AutoDetect.checkApiHealth.
    apply (loop_all_transport E _ (probe_wire aurl 5000) 1000
             (fun a => probe_error a aurl 5000) retries); try assumption; try lia.
    intros i w0 code msg Ha Hc.
    pose proof (autodetect_body_run E url retries i w0) as Hrun. cbv zeta in Hrun.
    fold aurl in Hrun. rewrite Ha in Hrun. rewrite Hrun.
    destruct (S i =? retries); reflexivity.
  - intros wr unit. split; [apply http_count_attempts | apply sleeps_attempts].
Qed.

(** C5 at a concrete input: three attempts against an unreachable backend. *)
Lemma checkApiHealth_exhausts_attempts_witness :
  (exists e,
      probe_error (net env_down (0 + (3 - 1)) (probe_wire "http://localhost:5000/api/health" 10000))
                  "http://localhost:5000/api/health" 10000 = Some e /\
      Direct.checkApiHealth env_down (JStr "http://localhost:5000/") 3 initial_world =
      (Ret (mkHealth false None (Some e)),
       advance 3 (attempts_with_backoff
                    (probe_wire "http://localhost:5000/api/health" 10000) 2000 3 0)
               initial_world)).
Proof.
  exact (proj1 (checkApiHealth_exhausts_attempts env_down (JStr "http://localhost:5000/")
                  3 initial_world ltac:(lia) (fun _ _ _ => eq_refl))).
Defined.

(** C10: when every attempt receives a reply with status below 500 whose body
    is not [{status: "ok"}], the health check of either variant makes its
    [retries] attempts back to back, with no wait, and returns the bare
    [{success: false}]. *)
Theorem checkApiHealth_unhealthy_replies
  (E : env) (url : jsval) (retries : nat) (w : world) :
  (forall k wr, k < retries -> unhealthy_reply (net E (clock w + k) wr) = true) ->
  let dwr := probe_wire (Direct.healthUrl (Direct.clean url)) 10000 in
  let awr := probe_wire (template url ++ "/api/health") 5000 in
  Direct.checkApiHealth E url retries w =
    (Ret (mkHealth false None None), advance retries (repeat (Http dwr) retries) w) /\
  AutoDetect.checkApiHealth E url retries w =
    (Ret (mkHealth false None None), advance retries (repeat (Http awr) retries) w) /\
  (forall wr, sleeps (repeat (Http wr) retries) = [] /\
              http_count (repeat (Http wr) retries) = retries).
Proof.
  intros Hnet dwr awr. split; [|split].
  - unfold Direct.checkApiHealth.
    apply (loop_all_unhealthy E _ dwr); [|assumption].
    intros i w0 r Ha Hs Hb.
    pose proof (direct_body_run E url retries i w0) as Hrun. cbv zeta in Hrun.
    fold dwr in Hrun. rewrite Ha, Hs, Hb in Hrun. exact Hrun.
  - unfold AutoDetect.checkApiHealth.
    apply (loop_all_unhealthy E _ awr); [|assumption].
    intros i w0 r Ha Hs Hb.
    pose proof (autodetect_body_run E url retries i w0) as Hrun. cbv zeta in Hrun.
    fold awr in Hrun. rewrite Ha, Hs, Hb in Hrun. exact Hrun.
  - intros wr. split; [apply sleeps_repeat_http | apply http_count_repeat].
Qed.

(** C10 at a concrete input: three attempts, each answered 404. *)
Lemma checkApiHealth_unhealthy_replies_witness :
  Direct.checkApiHealth env_404 (JStr "http://localhost:5000") 3 initial_world =
    (Ret (mkHealth false None None),
     advance 3 (repeat (Http (probe_wire "http://localhost:5000/api/health" 10000)) 3)
             initial_world).
Proof.
  exact (proj1 (checkApiHealth_unhealthy_replies env_404 (JStr "http://localhost:5000")
                  3 initial_world (fun _ _ _ => eq_refl))).
Defined.

(** C6 (the code at the failing input): in [Direct] a first attempt answered
    with HTTP 500 does not end the health check; the code waits 1000 ms,
    tries again, waits 2000 ms, tries a third time, and only then returns
    [{success: false, error}]. *)
Theorem direct_checkApiHealth_retries_after_http_500 :
  let wr := probe_wire "http://localhost:5000/api/health" 10000 in
  Direct.checkApiHealth env_500 (JStr "http://localhost:5000") 3 initial_world =
  (Ret (mkHealth false None
          (Some (status_error (mkResponse 500 None)
                   (mkRequest "get" (JStr "http://localhost:5000/api/health")
                              JUndefined (Some 10000%N) false)))),
   advance 3 [Http wr; Sleep 1000; Http wr; Sleep 2000; Http wr] initial_world).
Proof. vm_compute. reflexivity. Qed.

(** ** Base-URL normalisation *)

Lemma direct_getApiUrl_normalized (E : env) :
  exists base, Direct.getApiUrl E = JStr base /\ ends_with_slash base = false.
Proof.
  unfold Direct.getApiUrl.
  destruct (VITE_API_URL E) as [| |s]; try (exists localUrl; split; reflexivity).
  destruct (truthy (JStr s) && truthy (JStr (trim s))).
  - exists (strip_trailing_slashes (trim s)). split; [reflexivity|].
    apply ends_with_slash_strip.
  - exists localUrl; split; reflexivity.
Qed.

Lemma direct_clean_normalized (url : jsval) (s : string) :
  Direct.clean url = JStr s -> ends_with_slash s = false.
Proof.
  unfold Direct.clean. destruct url as [| |u]; try discriminate.
  destruct (truthy (JStr u)) eqn:Ht; intros H; injection H as <-.
  - apply ends_with_slash_strip.
  - destruct u; [reflexivity | discriminate].
Qed.

(** C3 (as amended): in the variant [Direct], for every configuration the
    resolved base URL is a string without trailing slash; a first call of
    [getApiUrlWithFallback] caches exactly that URL; appending any path to it
    adds no double slash at the junction; the health URL built from any [url]
    has no more double slashes than the cleaned [url]; and the request
    interceptor installs a base URL without trailing slash. *)
Theorem direct_base_url_has_no_trailing_slash (E : env) :
  exists base,
    Direct.getApiUrl E = JStr base /\
    ends_with_slash base = false /\
    (forall w,
        Direct.getApiUrlWithFallback E w =
        if truthy (cachedApiUrl w) && apiUrlChecked w
        then (Ret (cachedApiUrl w), w)
        else (Ret (JStr base), set_cache (JStr base) true w)) /\
    (forall path,
        double_slashes (base ++ path) = double_slashes base + double_slashes path) /\
    (forall url,
        double_slashes (Direct.healthUrl (Direct.clean url)) =
        match Direct.clean url with JStr s => double_slashes s | _ => 0 end) /\
    (forall config w,
        exists config',
          Direct.requestFulfilled config w = (Ret config', w) /\
          (truthy (cachedApiUrl w) = true ->
           exists b, q_baseURL config' = JStr b /\ ends_with_slash b = false /\
                     forall path, double_slashes (b ++ path)
                                  = double_slashes b + double_slashes path)).
Proof.
  destruct (direct_getApiUrl_normalized E) as (base & Hbase & Hend).
  exists base. split; [exact Hbase|]. split; [exact Hend|].
  split; [|split; [|split]].
  - intros w. unfold Direct.getApiUrlWithFallback, bind, get_world.
    destruct (truthy (cachedApiUrl w) && apiUrlChecked w); [reflexivity|].
    rewrite Hbase. reflexivity.
  - intros path. apply double_slashes_app, Hend.
  - intros url. destruct (Direct.clean url) as [| |s] eqn:Hc; try reflexivity.
    unfold Direct.healthUrl. destruct (truthy (JStr s)) eqn:Ht.
    + simpl template. rewrite double_slashes_app by (eapply direct_clean_normalized; eauto).
      simpl. lia.
    + destruct s; [reflexivity | discriminate].
  - intros config w. unfold Direct.requestFulfilled, bind, get_world.
    destruct (cachedApiUrl w) as [| |s] eqn:Hc;
      try (eexists; split; [reflexivity | discriminate]).
    destruct (truthy (JStr s)) eqn:Ht.
    + eexists; split; [reflexivity|]. intros _.
      exists (strip_trailing_slashes s). split; [reflexivity|].
      split; [apply ends_with_slash_strip|].
      intros path. apply double_slashes_app, ends_with_slash_strip.
    + eexists; split; [reflexivity | discriminate].
Qed.

(** C3 (the claim as stated fails): in the variant [AutoDetect] a configured
    URL ending in slashes is resolved and cached verbatim, and the health URL
    built from it has a double slash at the junction. *)
Lemma autodetect_keeps_trailing_slashes :
  AutoDetect.getApiUrlWithFallback env_slashes initial_world =
    (Ret (JStr "https://api.example.com///"),
     set_cache (JStr "https://api.example.com///") true
       (advance 1 [Http (probe_wire "https://api.example.com////api/health" 5000)]
                initial_world)) /\
  ends_with_slash "https://api.example.com///" = true /\
  double_slashes "https://api.example.com////api/health"
    = S (double_slashes "https://api.example.com///" + double_slashes "/api/health").
Proof. vm_compute. repeat split. Qed.

(** ** Effect summaries with a postcondition *)

Lemma io_spec_post {A} (n : nat) (m : M A) :
  io_spec n m -> io_post n (fun _ => True) m.
Proof.
  intros H w. destruct (H w) as (a & k & evs & Hr & Hk & Hc & Hq).
  exists a, k, evs. auto.
Qed.

Lemma io_post_ret {A} (P : A -> Prop) (a : A) : P a -> io_post 0 P (ret a).
Proof.
  intros HP w. exists a, 0, []. rewrite advance_0. repeat split; auto.
Qed.

Lemma io_post_weaken {A} (n n' : nat) (P Q : A -> Prop) (m : M A) :
  n <= n' -> (forall a, P a -> Q a) -> io_post n P m -> io_post n' Q m.
Proof.
  intros Hn HPQ Hm w. destruct (Hm w) as (a & k & evs & H & Hk & Hc & Hq & HP).
  exists a, k, evs. repeat split; auto. lia.
Qed.

Lemma io_post_bind {A B} (n1 n2 : nat) (P : A -> Prop) (Q : B -> Prop)
      (m : M A) (f : A -> M B) :
  io_post n1 P m -> (forall a, P a -> io_post n2 Q (f a)) ->
  io_post (n1 + n2) Q (bind m f).
Proof.
  intros Hm Hf w.
  destruct (Hm w) as (a & k1 & e1 & H1 & Hk1 & Hc1 & Hq1 & HP).
  destruct (Hf a HP (advance k1 e1 w)) as (b & k2 & e2 & H2 & Hk2 & Hc2 & Hq2 & HQ).
  exists b, (k1 + k2), (e1 ++ e2)%list.
  rewrite (bind_run _ _ _ _ _ H1), H2, advance_advance.
  repeat split; [lia | rewrite http_count_app; lia | | exact HQ].
  rewrite forallb_app, Hq1, Hq2. reflexivity.
Qed.

Lemma io_post_try_catch {A} (n : nat) (P : A -> Prop) (m : M A) (h : error -> M A) :
  io_post n P m -> io_post n P (try_catch m h).
Proof.
  intros Hm w. destruct (Hm w) as (a & k & evs & H & Hrest).
  exists a, k, evs. rewrite (try_catch_ret _ _ _ _ _ H). split; [reflexivity | exact Hrest].
Qed.

(** ** Resolution in [AutoDetect] *)

Section Resolution.
Variable E : env.

Lemma detect_candidates_io (urls : list string) :
  (forall u, In u urls -> is_empty u = false) ->
  io_post (2 * length urls) null_or_truthy (AutoDetect.detect_candidates E urls).
Proof.
  induction urls as [|url rest IH]; intros Hne; simpl AutoDetect.detect_candidates.
  - apply (io_post_bind 0 0 (fun _ => True)).
    + apply io_spec_post, io_console_warn. reflexivity.
    + intros _ _. apply io_post_ret. left; reflexivity.
  - replace (2 * length (url :: rest)) with (2 + 2 * length rest) by (simpl; lia).
    apply (io_post_bind 2 _ (fun r => r = None \/ r = Some (JStr url))).
    + apply io_post_try_catch.
      replace 2 with (2 + 0) by lia.
      apply (io_post_bind 2 0 (fun _ => True)).
      * apply io_spec_post, autodetect_checkApiHealth_io.
      * intros health _. destruct (success health).
        -- replace 0 with (0 + 0) by lia.
           apply (io_post_bind 0 0 (fun _ => True)).
           ++ apply io_spec_post, io_console_log.
           ++ intros _ _. apply io_post_ret. right; reflexivity.
        -- apply io_post_ret. left; reflexivity.
    + intros r [-> | ->].
      * apply IH. intros u Hu. apply Hne. right; exact Hu.
      * apply (io_post_weaken 0 _ null_or_truthy); [lia | intros a Ha; exact Ha |].
        apply io_post_ret. right. simpl.
        rewrite (Hne url (or_introl eq_refl)). reflexivity.
Qed.

Lemma detectApiUrl_io : io_post 6 null_or_truthy (AutoDetect.detectApiUrl E).
Proof.
  unfold AutoDetect.detectApiUrl.
  replace 6 with (2 + 4) by lia.
  apply (io_post_bind 2 4 (fun found => found = true -> truthy (VITE_API_URL E) = true)).
  - destruct (truthy (VITE_API_URL E)) eqn:Ht.
    + replace 2 with (2 + 0) by lia.
      apply (io_post_bind 2 0 (fun _ => True)).
      * apply io_spec_post, autodetect_checkApiHealth_io.
      * intros health _. apply io_post_ret. reflexivity.
    + apply (io_post_weaken 0 2 (fun found => found = false)); [lia | congruence |].
      apply io_post_ret. reflexivity.
  - intros found Hfound. destruct found.
    + apply (io_post_weaken 0 _ null_or_truthy); [lia | intros a Ha; exact Ha |].
      apply io_post_ret. right. apply Hfound. reflexivity.
    + apply (detect_candidates_io AutoDetect.possibleUrls).
      intros u Hu. unfold AutoDetect.possibleUrls in Hu.
      apply filter_In in Hu. destruct Hu as [_ Hu].
      apply negb_true_iff in Hu. exact Hu.
Qed.

(** The body of [getApiUrlWithFallback] once the cache test has failed, up to
    the assignment of the cache. *)
Lemma resolution_io :
  io_post 7 (fun u => truthy u = true)
    (bind (if negb (truthy (AutoDetect.getApiUrl E)) then ret true
           else bind (AutoDetect.checkApiHealth E (AutoDetect.getApiUrl E) 1)
                     (fun health => ret (negb (success health))))
          (fun unavailable : bool =>
             if unavailable then
               bind (console_warn "API URL not available, attempting auto-detection...")
                    (fun _ => bind (AutoDetect.detectApiUrl E)
                       (fun detected =>
                          if negb (truthy detected)
                          then ret (js_or (VITE_API_URL E) (JStr localUrl))
                          else ret detected))
             else ret (AutoDetect.getApiUrl E))).
Proof.
  replace 7 with (1 + 6) by lia.
  apply (io_post_bind 1 6
           (fun unavailable => unavailable = false -> truthy (AutoDetect.getApiUrl E) = true)).
  - destruct (truthy (AutoDetect.getApiUrl E)) eqn:Ht; simpl negb.
    + replace 1 with (1 + 0) by lia.
      apply (io_post_bind 1 0 (fun _ => True)).
      * apply io_spec_post, autodetect_checkApiHealth_io.
      * intros health _. apply io_post_ret. reflexivity.
    + apply (io_post_weaken 0 1 (fun unavailable => unavailable = true)); [lia | congruence |].
      apply io_post_ret. reflexivity.
  - intros unavailable Hun. destruct unavailable.
    + replace 6 with (0 + (6 + 0)) by lia.
      apply (io_post_bind 0 _ (fun _ => True)).
      * apply io_spec_post, io_console_warn. reflexivity.
      * intros _ _. apply (io_post_bind 6 0 null_or_truthy); [apply detectApiUrl_io|].
        intros detected Hd. destruct (truthy detected) eqn:Ht; simpl negb.
        -- apply io_post_ret. exact Ht.
        -- apply io_post_ret. unfold js_or.
           destruct (truthy (VITE_API_URL E)) eqn:Hv; [exact Hv | reflexivity].
    + apply (io_post_weaken 0 _ (fun u => truthy u = true)); [lia | intros a Ha; exact Ha |].
      apply io_post_ret. apply Hun. reflexivity.
Qed.

(** What [getApiUrlWithFallback] does: a cache hit changes nothing; a miss
    resolves with at most 7 probes, caches a truthy URL and returns it. *)
Lemma autodetect_getApiUrlWithFallback_run (w : world) :
  (truthy (cachedApiUrl w) && apiUrlChecked w = true /\
   AutoDetect.getApiUrlWithFallback E w = (Ret (cachedApiUrl w), w)) \/
  (truthy (cachedApiUrl w) && apiUrlChecked w = false /\
   exists u k evs,
     AutoDetect.getApiUrlWithFallback E w = (Ret u, set_cache u true (advance k evs w)) /\
     k <= 7 /\ http_count evs = k /\ forallb quiet_event evs = true /\ truthy u = true).
Proof.
  unfold AutoDetect.getApiUrlWithFallback.
  rewrite bind_get_world.
  destruct (truthy (cachedApiUrl w) && apiUrlChecked w) eqn:Hc.
  - left. split; reflexivity.
  - right. split; [reflexivity|].
    destruct (resolution_io w) as (u & k & evs & Hr & Hk & Hcnt & Hq & Hu).
    exists u, k, evs.
    rewrite <- bind_assoc.
    rewrite (bind_run _ _ _ _ _ Hr).
    repeat split; assumption.
Qed.

End Resolution.

(** ** The wake-up orchestrator *)

Lemma status_code_is_str (s : nat) (lit : string) :
  lit <> "ERR_BAD_REQUEST"%string -> lit <> "ERR_BAD_RESPONSE"%string ->
  is_str (status_code s) lit = false.
Proof.
  intros H1 H2. unfold status_code, is_str.
  destruct (andb _ _); [cbn [js_eqb]; apply String.eqb_neq; congruence|].
  destruct (andb _ _); [cbn [js_eqb]; apply String.eqb_neq; congruence | reflexivity].
Qed.

Ltac finish_wake_case :=
  cbv [bind ret sleep console_log console_warn modify];
  repeat rewrite emit_advance; cbn [app];
  do 2 eexists; split; [reflexivity|];
  split; [reflexivity|]; split; [reflexivity|].

Section WakeUp.
Variable E : env.

(** One wake-up attempt: one probe, then waits and messages only.  It ends
    the loop with [true] exactly when the probe is answered healthy, and can
    end it with [false] only at the last attempt. *)
Lemma wakeUpServer_body_spec (apiUrl : jsval) (attempt : nat) (w : world) :
  exists r evs,
    AutoDetect.wakeUpServer_body E apiUrl attempt w =
      (Ret r, advance 1 (Http (wake_wire apiUrl attempt) :: evs) w) /\
    http_count evs = 0 /\ forallb quiet_event evs = true /\
    (if healthy_answer (net E (clock w) (wake_wire apiUrl attempt))
     then r = Some true
     else r = None \/ (r = Some false /\ attempt = AutoDetect.maxRetries)).
Proof.
  unfold AutoDetect.wakeUpServer_body, axios_get.
  unfold bind at 1. unfold try_catch. unfold bind at 1.
  rewrite dispatch_run.
  change (wire_of (mkRequest "get" (JStr (template apiUrl ++ "/api/health")) JUndefined
                     (Some (if attempt =? 1 then 5000%N else 15000%N)) false))
    with (wake_wire apiUrl attempt).
  destruct (net E (clock w) (wake_wire apiUrl attempt)) as [r|code msg];
    cbn [healthy_answer].
  - destruct (below_500 (r_status r)); cbn [andb].
    + destruct (body_ok r).
      * finish_wake_case. reflexivity.
      * destruct (attempt <? AutoDetect.maxRetries); finish_wake_case; left; reflexivity.
    + cbn [e_code status_error].
      rewrite !status_code_is_str by discriminate. cbn [orb].
      destruct (attempt =? AutoDetect.maxRetries) eqn:Hlast.
      * apply Nat.eqb_eq in Hlast.
        finish_wake_case. right. split; [reflexivity | exact Hlast].
      * destruct (attempt <? AutoDetect.maxRetries); finish_wake_case; left; reflexivity.
  - cbn [e_code transport_error]. unfold is_str, js_eqb.
    destruct (attempt =? AutoDetect.maxRetries) eqn:Hlast;
      [apply Nat.eqb_eq in Hlast|];
      destruct (String.eqb code "ERR_NAME_NOT_RESOLVED");
      try destruct (String.eqb code "ECONNABORTED");
      try destruct (String.eqb code "ETIMEDOUT"); cbn [orb];
        try destruct (attempt <? AutoDetect.maxRetries);
        finish_wake_case;
        first [left; reflexivity | right; split; [reflexivity | exact Hlast]].
Qed.

End WakeUp.

Section WakeLoop.
Variable E : env.
Variable apiUrl : jsval.

Lemma wake_loop_spec (n i : nat) (w : world) :
  i + n = S AutoDetect.maxRetries ->
  exists b k evs,
    for_loop (AutoDetect.wakeUpServer_body E apiUrl) (ret false) n i w =
      (Ret b, advance k evs w) /\
    k <= n /\ http_count evs = k /\ forallb quiet_event evs = true /\
    (b = true ->
     1 <= k /\
     healthy_answer (net E (clock w + (k - 1)) (wake_wire apiUrl (i + (k - 1)))) = true) /\
    (b = false ->
     k = n /\
     forall j, j < n ->
       healthy_answer (net E (clock w + j) (wake_wire apiUrl (i + j))) = false).
Proof.
  revert i w. induction n as [|n IH]; intros i w Hin.
  - exists false, 0, []. simpl. unfold ret. rewrite advance_0.
    repeat split; try reflexivity; try discriminate. intros j Hj; lia.
  - destruct (wakeUpServer_body_spec E apiUrl i w) as (r & evs1 & Hrun & Hc1 & Hq1 & Hr).
    simpl for_loop. rewrite (bind_run _ _ _ _ _ Hrun).
    assert (Hcount1 : http_count (Http (wake_wire apiUrl i) :: evs1) = 1)
      by (rewrite http_count_cons, Hc1; reflexivity).
    assert (Hquiet1 : forallb quiet_event (Http (wake_wire apiUrl i) :: evs1) = true)
      by (simpl; exact Hq1).
    destruct (healthy_answer (net E (clock w) (wake_wire apiUrl i))) eqn:Hh.
    + subst r. exists true, 1, (Http (wake_wire apiUrl i) :: evs1).
      split; [reflexivity|]. split; [lia|]. split; [exact Hcount1|].
      split; [exact Hquiet1|]. split; [|discriminate].
      intros _. split; [lia|]. simpl. rewrite !Nat.add_0_r. exact Hh.
    + destruct Hr as [-> | [-> Hlast]].
      * destruct (IH (S i) (advance 1 (Http (wake_wire apiUrl i) :: evs1) w) ltac:(lia))
          as (b & k & evs & Hloop & Hk & Hc & Hq & Ht & Hf).
        exists b, (1 + k), ((Http (wake_wire apiUrl i) :: evs1) ++ evs)%list.
        rewrite Hloop, advance_advance.
        split; [reflexivity|]. split; [lia|].
        split; [rewrite http_count_app, Hcount1, Hc; reflexivity|].
        split; [rewrite forallb_app, Hquiet1, Hq; reflexivity|].
        split.
        -- intros Hb. destruct (Ht Hb) as [Hk1 Hans]. split; [lia|].
           replace (clock w + (1 + k - 1)) with
             (clock (advance 1 (Http (wake_wire apiUrl i) :: evs1) w) + (k - 1))
             by (simpl; lia).
           replace (i + (1 + k - 1)) with (S i + (k - 1)) by lia.
           exact Hans.
        -- intros Hb. destruct (Hf Hb) as [Hkn Hall]. split; [lia|].
           intros j Hj. destruct j as [|j].
           ++ rewrite !Nat.add_0_r. exact Hh.
           ++ replace (clock w + S j) with
                (clock (advance 1 (Http (wake_wire apiUrl i) :: evs1) w) + j)
                by (simpl; lia).
              replace (i + S j) with (S i + j) by lia.
              apply Hall. lia.
      * assert (n = 0) by (unfold AutoDetect.maxRetries in *; lia). subst n.
        exists false, 1, (Http (wake_wire apiUrl i) :: evs1).
        split; [reflexivity|]. split; [lia|]. split; [exact Hcount1|].
        split; [exact Hquiet1|]. split; [discriminate|].
        intros _. split; [reflexivity|].
        intros j Hj. assert (j = 0) by lia. subst j.
        rewrite !Nat.add_0_r. exact Hh.
Qed.

End WakeLoop.

(** [wakeUpServer] on a non-empty URL: at most three probes, nothing else
    touched, and the boolean says whether one of them was answered healthy. *)
Lemma wakeUpServer_run (E : env) (apiUrl : jsval) (w : world) :
  truthy apiUrl = true ->
  exists b k evs,
    AutoDetect.wakeUpServer E apiUrl w = (Ret b, advance k evs w) /\
    k <= 3 /\ http_count evs = k /\ forallb quiet_event evs = true /\
    (b = true ->
     1 <= k /\
     healthy_answer (net E (clock w + (k - 1)) (wake_wire apiUrl k)) = true) /\
    (b = false ->
     k = 3 /\
     forall j, j < 3 ->
       healthy_answer (net E (clock w + j) (wake_wire apiUrl (S j))) = false).
Proof.
  intros Ht. unfold AutoDetect.wakeUpServer. rewrite Ht. simpl negb.
  rewrite (bind_run _ _ w w apiUrl eq_refl).
  destruct (wake_loop_spec E apiUrl AutoDetect.maxRetries 1 w eq_refl)
    as (b & k & evs & Hloop & Hk & Hc & Hq & Htrue & Hfalse).
  exists b, k, evs. split; [exact Hloop|]. split; [exact Hk|].
  split; [exact Hc|]. split; [exact Hq|]. split.
  - intros Hb. destruct (Htrue Hb) as [Hk1 Hans]. split; [exact Hk1|].
    replace (1 + (k - 1)) with k in Hans by lia. exact Hans.
  - intros Hb. destruct (Hfalse Hb) as [Hkn Hall]. split; [exact Hkn|].
    intros j Hj. exact (Hall j Hj).
Qed.

(** ** Quiet evolution of the world *)

Lemma set_cache_same (w : world) :
  set_cache (cachedApiUrl w) (apiUrlChecked w) w = w.
Proof. destruct w; reflexivity. Qed.

Lemma quietly_refl (w : world) : quietly 0 w w.
Proof.
  exists (cachedApiUrl w), (apiUrlChecked w), 0, [].
  rewrite advance_0, set_cache_same. repeat split; lia.
Qed.

Lemma quietly_advance (n k : nat) (evs : list event) (w : world) :
  k <= n -> http_count evs = k -> forallb quiet_event evs = true ->
  quietly n w (advance k evs w).
Proof.
  intros Hk Hc Hq.
  exists (cachedApiUrl w), (apiUrlChecked w), k, evs.
  split; [|auto].
  change (set_cache (cachedApiUrl w) (apiUrlChecked w) (advance k evs w))
    with (advance k evs (set_cache (cachedApiUrl w) (apiUrlChecked w) w)).
  rewrite set_cache_same. reflexivity.
Qed.

Lemma quietly_set_cache (n : nat) (c : jsval) (b : bool) (w w' : world) :
  quietly n w w' -> quietly n w (set_cache c b w').
Proof.
  intros (c0 & b0 & k & evs & -> & H). exists c, b, k, evs.
  split; [reflexivity | exact H].
Qed.

Lemma quietly_trans (n1 n2 : nat) (w1 w2 w3 : world) :
  quietly n1 w1 w2 -> quietly n2 w2 w3 -> quietly (n1 + n2) w1 w3.
Proof.
  intros (c1 & b1 & k1 & e1 & -> & Hk1 & Hc1 & Hq1)
         (c2 & b2 & k2 & e2 & -> & Hk2 & Hc2 & Hq2).
  exists c2, b2, (k1 + k2), (e1 ++ e2)%list.
  split.
  - change (set_cache c2 b2 (advance k2 e2 (set_cache c1 b1 (advance k1 e1 w1))))
      with (set_cache c2 b2 (advance k2 e2 (advance k1 e1 w1))).
    rewrite advance_advance. reflexivity.
  - split; [lia|]. split; [rewrite http_count_app; lia|].
    rewrite forallb_app, Hq1, Hq2. reflexivity.
Qed.

Lemma quietly_weaken (n n' : nat) (w w' : world) :
  n <= n' -> quietly n w w' -> quietly n' w w'.
Proof.
  intros Hn (c & b & k & evs & -> & Hk & H). exists c, b, k, evs.
  split; [reflexivity|]. split; [lia | exact H].
Qed.

Lemma quiet_no_cycle (evs : list event) :
  forallb quiet_event evs = true -> wake_cycles evs = 0.
Proof.
  unfold wake_cycles. induction evs as [|ev evs IH]; [reflexivity|].
  simpl. intros H. apply andb_prop in H. destruct H as [Hev Hrest].
  destruct ev as [wr|ms|msg|msg]; simpl; auto.
  simpl in Hev. apply negb_true_iff in Hev. rewrite Hev. auto.
Qed.

Lemma quiet_no_request (evs : list event) :
  forallb quiet_event evs = true -> requests_sent evs = 0.
Proof.
  unfold requests_sent. induction evs as [|ev evs IH]; [reflexivity|].
  simpl. intros H. apply andb_prop in H. destruct H as [Hev Hrest].
  destruct ev as [wr|ms|msg|msg]; simpl; auto.
  simpl in Hev. rewrite Hev. simpl. auto.
Qed.

Lemma wake_cycles_app (t1 t2 : list event) :
  wake_cycles (t1 ++ t2) = wake_cycles t1 + wake_cycles t2.
Proof. unfold wake_cycles. rewrite filter_app, length_app. reflexivity. Qed.

Lemma requests_sent_app (t1 t2 : list event) :
  requests_sent (t1 ++ t2) = requests_sent t1 + requests_sent t2.
Proof. unfold requests_sent. rewrite filter_app, length_app. reflexivity. Qed.

(** [getApiUrlWithFallback] of [AutoDetect] never throws; it returns a
    non-empty URL, which is the cached one afterwards. *)
Lemma autodetect_getApiUrlWithFallback_total (E : env) (w : world) :
  exists u w',
    AutoDetect.getApiUrlWithFallback E w = (Ret u, w') /\
    quietly 7 w w' /\ truthy u = true /\
    cachedApiUrl w' = u /\ apiUrlChecked w' = true.
Proof.
  destruct (autodetect_getApiUrlWithFallback_run E w)
    as [[Hc H] | [Hc (u & k & evs & H & Hk & Hcnt & Hq & Hu)]].
  - apply andb_prop in Hc. destruct Hc as [Ht Hchk].
    exists (cachedApiUrl w), w. split; [exact H|].
    split; [apply (quietly_weaken 0); [lia | apply quietly_refl]|]. auto.
  - exists u, (set_cache u true (advance k evs w)). split; [exact H|].
    split; [apply quietly_set_cache, quietly_advance; assumption|]. auto.
Qed.

(** C7 (as amended): [wakeUpServer] always returns a boolean.  Called with a
    non-empty URL it makes at most 3 probes in all.  Called without one it
    first obtains the base URL from [getApiUrlWithFallback], which makes no
    probe when a URL is resolved and at most 7 when none is, and then makes
    at most 3 probes on that URL.  In both cases it touches nothing else
    after that; it returns [true] only if its last probe, within the budget
    of 3, was answered with a status below 500 and a body whose [status] is
    ["ok"]; it returns [false] only after exactly 3 probes none of which was
    answered so. *)
Theorem wakeUpServer_at_most_three_probes (E : env) (url : jsval) (w : world) :
  exists u w0,
    ((truthy url = true /\ u = url /\ w0 = w) \/
     (truthy url = false /\ AutoDetect.getApiUrlWithFallback E w = (Ret u, w0) /\
      quietly 7 w w0 /\ (resolved w = true -> w0 = w))) /\
    exists b k evs,
      AutoDetect.wakeUpServer E url w = (Ret b, advance k evs w0) /\
      k <= 3 /\ http_count evs = k /\
      (b = true ->
       1 <= k /\
       healthy_answer (net E (clock w0 + (k - 1)) (wake_wire u k)) = true) /\
      (b = false ->
       k = 3 /\
       forall j, j < 3 ->
         healthy_answer (net E (clock w0 + j) (wake_wire u (S j))) = false).
Proof.
  destruct (truthy url) eqn:Ht.
  - exists url, w. split; [left; auto|].
    destruct (wakeUpServer_run E url w Ht) as (b & k & evs & H & Hk & Hc & _ & Hb).
    exists b, k, evs. auto.
  - assert (Hres : exists u w0,
               AutoDetect.getApiUrlWithFallback E w = (Ret u, w0) /\ truthy u = true /\
               quietly 7 w w0 /\ (resolved w = true -> w0 = w)).
    { destruct (autodetect_getApiUrlWithFallback_run E w)
        as [[Hc H] | [Hc (u & k & evs & H & Hk & Hcnt & Hq & Hu)]].
      - exists (cachedApiUrl w), w. split; [exact H|].
        split; [apply andb_prop in Hc; apply Hc|].
        split; [apply (quietly_weaken 0); [lia | apply quietly_refl] | reflexivity].
      - exists u, (set_cache u true (advance k evs w)). split; [exact H|].
        split; [exact Hu|].
        split; [apply quietly_set_cache, quietly_advance; assumption|].
        unfold resolved. rewrite Hc. discriminate. }
    destruct Hres as (u & w0 & Hres & Hu & Hq & Hsame).
    exists u, w0. split; [right; auto|].
    destruct (wakeUpServer_run E u w0 Hu) as (b & k & evs & H & Hk & Hc & _ & Hb).
    exists b, k, evs. split; [|auto].
    unfold AutoDetect.wakeUpServer in *. rewrite Ht. rewrite Hu in H. simpl negb in *.
    rewrite (bind_run _ _ _ _ _ Hres).
    rewrite (bind_run _ _ w0 w0 u eq_refl) in H. exact H.
Qed.

(** C7 (the claim as stated fails): called without a URL on a module that
    has not resolved its base URL, [wakeUpServer] makes more than 3 health
    probes.  With nothing configured and the backend unreachable it makes 8:
    5 to resolve the URL, then the 3 of the wake-up.  With a URL configured
    and every call timing out it makes 10. *)
Lemma wakeUpServer_without_url_exceeds_three_probes :
  fst (AutoDetect.wakeUpServer env_down JNull initial_world) = Ret false /\
  http_count (trace (snd (AutoDetect.wakeUpServer env_down JNull initial_world))) = 8 /\
  timeouts (trace (snd (AutoDetect.wakeUpServer env_down JNull initial_world)))
    = [5000; 5000; 5000; 5000; 5000; 5000; 15000; 15000]%N /\
  fst (AutoDetect.wakeUpServer env_timeout JNull initial_world) = Ret false /\
  http_count (trace (snd (AutoDetect.wakeUpServer env_timeout JNull initial_world))) = 10.
Proof. vm_compute. repeat split. Qed.

(** ** The resilient request wrapper of [AutoDetect] *)

Section Wrapper.
Variable E : env.

Lemma requestFulfilled_run (config : request) (w : world) :
  AutoDetect.requestFulfilled config w =
  (Ret (if truthy (cachedApiUrl w) then set_baseURL (cachedApiUrl w) config else config), w).
Proof.
  unfold AutoDetect.requestFulfilled. rewrite bind_get_world.
  destruct (truthy (cachedApiUrl w)); reflexivity.
Qed.

Lemma instance_request_unfold (fuel : nat) (inst : instance) (req : request) (w : world) :
  AutoDetect.instance_request E (S fuel) inst req w =
  try_catch (dispatch E default_validateStatus (prepared inst req w))
            (AutoDetect.responseRejected E (AutoDetect.instance_request E fuel inst)) w.
Proof.
  simpl AutoDetect.instance_request.
  rewrite (bind_run _ _ _ _ _ (requestFulfilled_run _ w)).
  unfold prepared. destruct (truthy (cachedApiUrl w)); reflexivity.
Qed.

Lemma prepared_retry (inst : instance) (req : request) (w : world) :
  q_retry (prepared inst req w) = q_retry req.
Proof. unfold prepared. destruct (truthy (cachedApiUrl w)); reflexivity. Qed.

Lemma prepared_url (inst : instance) (req : request) (w : world) :
  q_url (prepared inst req w) = q_url req.
Proof. unfold prepared. destruct (truthy (cachedApiUrl w)); reflexivity. Qed.

Lemma is_network_status_error (r : response) (config : request) :
  AutoDetect.is_network (status_error r config) = false.
Proof.
  unfold AutoDetect.is_network, status_error; cbn [e_code].
  rewrite !status_code_is_str by discriminate. reflexivity.
Qed.

Lemma is_network_transport_error (code msg : string) (config : request) :
  AutoDetect.is_network (transport_error code msg config) = network_code code.
Proof. reflexivity. Qed.

(** A failed request that already carries the marker is rejected at once. *)
Lemma responseRejected_marked
      (self : request -> M response) (e : error) (config : request) (w : world) :
  e_config e = Some config -> q_retry config = true ->
  AutoDetect.responseRejected E self e w = AutoDetect.reject_enhanced e w.
Proof.
  intros Hc Hr. unfold AutoDetect.responseRejected.
  destruct (AutoDetect.is_network e); [|reflexivity].
  rewrite Hc, Hr. reflexivity.
Qed.

Lemma responseRejected_not_network
      (self : request -> M response) (e : error) (w : world) :
  AutoDetect.is_network e = false ->
  AutoDetect.responseRejected E self e w = AutoDetect.reject_enhanced e w.
Proof. intros H. unfold AutoDetect.responseRejected. rewrite H. reflexivity. Qed.

Lemma send_once_run (config : request) (w : world) :
  send_once E config w =
  (match net E (clock w) (wire_of config) with
   | Reply r =>
       if default_validateStatus (r_status r) then Ret r
       else Throw (set_userMessage (AutoDetect.userMessage_of (status_error r config))
                                   (status_error r config))
   | NetFail code msg =>
       Throw (set_userMessage (AutoDetect.userMessage_of (transport_error code msg config))
                              (transport_error code msg config))
   end,
   advance 1 [Http (wire_of config)] w).
Proof.
  unfold send_once, try_catch. rewrite dispatch_run.
  destruct (net E (clock w) (wire_of config)) as [r|code msg];
    [destruct (default_validateStatus (r_status r))|]; reflexivity.
Qed.

(** A request that carries the marker makes one network call, whatever the
    fuel, and never re-enters the instance. *)
Lemma marked_request_run (fuel : nat) (inst : instance) (req : request) (w : world) :
  q_retry req = true ->
  AutoDetect.instance_request E (S fuel) inst req w = send_once E (prepared inst req w) w.
Proof.
  intros Hr. rewrite instance_request_unfold.
  unfold send_once, try_catch. rewrite dispatch_run.
  destruct (net E (clock w) (wire_of (prepared inst req w))) as [r|code msg];
    [destruct (default_validateStatus (r_status r))|]; try reflexivity;
    apply (responseRejected_marked _ _ (prepared inst req w));
    first [reflexivity | rewrite prepared_retry; exact Hr].
Qed.

(** The [try] block of the interceptor: it never runs out of fuel, makes at
    most 17 probes (3 of the wake-up, 7 for each resolution), leaves a
    non-empty URL in the cache, hands back only marked requests, and throws
    only when the request has no string [url]. *)
Lemma retry_decision_spec (config : request) (w : world) :
  exists o w',
    AutoDetect.retry_decision E config w = (o, w') /\
    quietly 17 w w' /\ truthy (cachedApiUrl w') = true /\
    match o with
    | Ret (Some q) =>
        q_retry q = q_retry config /\
        (is_string (q_url config) = true -> is_string (q_url q) = true)
    | Ret None => True
    | Throw _ => is_string (q_url config) = false
    | OutOfFuel => False
    end.
Proof.
  unfold AutoDetect.retry_decision.
  destruct (autodetect_getApiUrlWithFallback_total E w)
    as (u & w1 & Hget & Hq1 & Hu & Hcache1 & _).
  rewrite (bind_run _ _ _ _ _ Hget).
  destruct (wakeUpServer_run E u w1 Hu) as (b & k & evs & Hwake & Hk & Hc & Hq & _).
  rewrite (bind_run _ _ _ _ _ Hwake).
  assert (Hq2 : quietly 10 w (advance k evs w1)).
  { apply (quietly_weaken (7 + 3)); [lia|].
    eapply quietly_trans; [exact Hq1|]. apply quietly_advance; assumption. }
  destruct b.
  - eexists; eexists. split; [reflexivity|]. split; [|split].
    + apply (quietly_weaken (10 + 0)); [lia|].
      eapply quietly_trans; [exact Hq2|].
      apply (quietly_advance 0 0 [ConsoleLog "Server awakened, retrying request..."]);
        [lia | reflexivity | reflexivity].
    + simpl. rewrite Hcache1. exact Hu.
    + split; [reflexivity | intros H; exact H].
  - set (w3 := set_cache JNull false
                 (emit (ConsoleWarn "Wake-up failed, refreshing API URL...")
                       (advance k evs w1))).
    assert (Hq3 : quietly 10 w w3).
    { apply quietly_set_cache.
      apply (quietly_weaken (10 + 0)); [lia|].
      eapply quietly_trans; [exact Hq2|].
      apply (quietly_advance 0 0 [ConsoleWarn "Wake-up failed, refreshing API URL..."]);
        [lia | reflexivity | reflexivity]. }
    destruct (autodetect_getApiUrlWithFallback_total E w3)
      as (u' & w4 & Hget' & Hq4 & Hu' & Hcache4 & _).
    assert (Hq5 : quietly 17 w w4).
    { apply (quietly_weaken (10 + 7)); [lia|].
      eapply quietly_trans; [exact Hq3 | exact Hq4]. }
    assert (Hrun : forall (k0 : jsval -> M (option request)),
               bind (console_warn "Wake-up failed, refreshing API URL...")
                    (fun _ => bind (modify (set_cache JNull false))
                       (fun _ => bind (AutoDetect.getApiUrlWithFallback E) k0))
                    (advance k evs w1) = k0 u' w4).
    { intros k0. unfold bind at 1. unfold console_warn, modify at 1.
      unfold bind at 1. unfold modify at 1. fold w3.
      apply (bind_run _ _ _ _ _ Hget'). }
    rewrite Hrun.
    destruct (negb (js_eqb u' u)).
    + cbn [q_url set_baseURL].
      destruct (q_url config) as [| |p]; unfold throw, ret;
        eexists; eexists; (split; [reflexivity|]);
        (split; [exact Hq5|]); (split; [rewrite Hcache4; exact Hu'|]);
        first [reflexivity | split; [reflexivity | intros _; reflexivity]].
    + eexists; eexists. split; [reflexivity|]. split; [exact Hq5|].
      split; [rewrite Hcache4; exact Hu' | exact I].
Qed.

End Wrapper.

Lemma run_summary_advance (w : world) (k : nat) (evs : list event) :
  http_count evs = k -> run_summary w (advance k evs w) k evs.
Proof. intros H. repeat split; auto. Qed.

Lemma run_summary_quietly (n : nat) (w w1 w3 : world) (k1 : nat) (e1 : list event) :
  run_summary w w1 k1 e1 -> quietly n w1 w3 ->
  exists k3 e3,
    run_summary w w3 (k1 + k3) (e1 ++ e3) /\ k3 <= n /\ forallb quiet_event e3 = true.
Proof.
  intros (Ht & Hc & Hh & Hi & Hcr) (c & b & k3 & e3 & -> & Hk & Hc3 & Hq).
  exists k3, e3. split; [|auto].
  unfold run_summary; simpl.
  rewrite Ht, Hc, Hi, Hcr, http_count_app, Hh, Hc3, app_assoc.
  repeat split; lia.
Qed.

Lemma run_summary_step (w w1 : world) (k1 : nat) (e1 : list event) (ev : event) :
  run_summary w w1 k1 e1 -> is_http ev = true ->
  run_summary w (advance 1 [ev] w1) (k1 + 1) (e1 ++ [ev]).
Proof.
  intros (Ht & Hc & Hh & Hi & Hcr) Hev.
  unfold run_summary; simpl.
  rewrite Ht, Hc, Hi, Hcr, http_count_app, Hh, app_assoc.
  rewrite http_count_cons, Hev.
  repeat split; simpl; lia.
Qed.

Lemma requests_sent_single (ev : event) : requests_sent [ev] <= 1.
Proof. unfold requests_sent; simpl. destruct (is_request ev); simpl; lia. Qed.

Section AtMostOnce.
Variable E : env.

(** The interceptor on a network-class failure of an unmarked request: the
    marker is set, the cycle is announced, the [try] block runs, and only
    then is the request possibly handed back to the instance. *)
Lemma responseRejected_cycle
      (self : request -> M response) (e : error) (config : request) (w : world) :
  e_config e = Some config -> q_retry config = false ->
  AutoDetect.is_network e = true ->
  AutoDetect.responseRejected E self e w =
  match AutoDetect.retry_decision E (set_retry true config)
          (emit (ConsoleWarn AutoDetect.wake_marker) w) with
  | (Ret (Some q), w3) => self q w3
  | (Ret None, w3) => AutoDetect.reject_enhanced (set_config (set_retry true config) e) w3
  | (Throw e', w3) => (Throw (AutoDetect.retry_error e'), w3)
  | (OutOfFuel, w3) => (OutOfFuel, w3)
  end.
Proof.
  intros Hc Hr Hn. unfold AutoDetect.responseRejected.
  rewrite Hn, Hc, Hr. cbn [negb].
  unfold bind at 1. unfold console_warn, modify.
  unfold bind at 1. unfold try_catch.
  destruct (AutoDetect.retry_decision E (set_retry true config)
              (emit (ConsoleWarn AutoDetect.wake_marker) w)) as [[[q|]|e'|] w3];
    reflexivity.
Qed.

(** The interceptor calls the instance on marked requests only: two
    continuations that agree on marked requests give the same run. *)
Lemma responseRejected_self_on_marked
      (self1 self2 : request -> M response) (e : error) (w : world) :
  (forall q w', q_retry q = true -> self1 q w' = self2 q w') ->
  AutoDetect.responseRejected E self1 e w = AutoDetect.responseRejected E self2 e w.
Proof.
  intros Hagree.
  destruct (AutoDetect.is_network e) eqn:Hn;
    [|rewrite !responseRejected_not_network by exact Hn; reflexivity].
  destruct (e_config e) as [config|] eqn:Hc;
    [|unfold AutoDetect.responseRejected; rewrite Hn, Hc; reflexivity].
  destruct (q_retry config) eqn:Hr;
    [rewrite !(responseRejected_marked E _ e config) by assumption; reflexivity|].
  rewrite !(responseRejected_cycle _ e config) by assumption.
  destruct (retry_decision_spec E (set_retry true config)
              (emit (ConsoleWarn AutoDetect.wake_marker) w)) as (o & w3 & Hrd & _ & _ & Ho).
  rewrite Hrd. destruct o as [[q|]|e'|]; try reflexivity.
  apply Hagree. destruct Ho as [Ho _]. exact Ho.
Qed.

(** Two levels of nesting are all the interceptor ever uses. *)
Lemma instance_request_fuel (fuel : nat) (inst : instance) (req : request) (w : world) :
  AutoDetect.instance_request E (S (S fuel)) inst req w =
  AutoDetect.instance_request E 2 inst req w.
Proof.
  rewrite !instance_request_unfold. unfold try_catch.
  destruct (dispatch E default_validateStatus (prepared inst req w) w) as [[r|e|] w1];
    try reflexivity.
  apply responseRejected_self_on_marked.
  intros q w' Hq. rewrite !marked_request_run by exact Hq. reflexivity.
Qed.

End AtMostOnce.

Lemma wake_cycles_opening (wr : wire) :
  wake_cycles [Http wr; ConsoleWarn AutoDetect.wake_marker] = 1.
Proof.
  unfold wake_cycles. cbn [filter is_wake_marker].
  rewrite String.eqb_refl. reflexivity.
Qed.

Lemma requests_sent_opening (wr : wire) (msg : string) :
  requests_sent [Http wr; ConsoleWarn msg] <= 1.
Proof.
  unfold requests_sent. cbn [filter is_request].
  destruct (negb (js_eqb (w_base wr) JUndefined)); simpl; lia.
Qed.

Lemma wake_cycles_http (wr : wire) : wake_cycles [Http wr] = 0.
Proof. reflexivity. Qed.

Lemma healthy_not_network_failure (a : answer) :
  network_failure a = true -> healthy_answer a = false.
Proof. destruct a; [discriminate | reflexivity]. Qed.

(** The [try] block of the interceptor, step by step, from any world. *)
Lemma retry_decision_run (E : env) (config : request) (w1 : world) :
  exists u w2 woke kw ew,
    AutoDetect.getApiUrlWithFallback E w1 = (Ret u, w2) /\
    truthy u = true /\
    AutoDetect.wakeUpServer E u w2 = (Ret woke, advance kw ew w2) /\
    1 <= kw <= 3 /\ http_count ew = kw /\
    (woke = true ->
     healthy_answer (net E (clock w2 + (kw - 1)) (wake_wire u kw)) = true) /\
    if woke : bool then
      AutoDetect.retry_decision E config w1 =
      (Ret (Some (set_baseURL u config)),
       advance kw (ew ++ [ConsoleLog "Server awakened, retrying request..."]) w2)
    else
      kw = 3 /\
      exists newUrl w4,
        AutoDetect.getApiUrlWithFallback E
          (set_cache JNull false
             (advance kw (ew ++ [ConsoleWarn "Wake-up failed, refreshing API URL..."]) w2))
        = (Ret newUrl, w4) /\
        truthy newUrl = true /\ cachedApiUrl w4 = newUrl /\
        AutoDetect.retry_decision E config w1 =
        (if js_eqb newUrl u then Ret None
         else match q_url config with
              | JStr p =>
                  Ret (Some (set_url (JStr (js_replace p (template newUrl) (template newUrl)))
                                     (set_baseURL newUrl config)))
              | _ => Throw (type_error
                              "Cannot read properties of undefined (reading 'replace')")
              end,
         w4).
Proof.
  unfold AutoDetect.retry_decision.
  destruct (autodetect_getApiUrlWithFallback_total E w1)
    as (u & w2 & Hget & _ & Hu & _ & _).
  destruct (wakeUpServer_run E u w2 Hu)
    as (b & k & evs & Hwake & Hk & Hc & _ & Htrue & Hfalse).
  exists u, w2, b, k, evs.
  split; [exact Hget|]. split; [exact Hu|]. split; [exact Hwake|].
  split; [destruct b; [destruct (Htrue eq_refl) | destruct (Hfalse eq_refl)]; lia|].
  split; [exact Hc|].
  split; [intros Hb; apply (Htrue Hb)|].
  rewrite (bind_run _ _ _ _ _ Hget), (bind_run _ _ _ _ _ Hwake).
  destruct b.
  - cbv [bind ret console_log modify]. rewrite emit_advance. reflexivity.
  - split; [apply (Hfalse eq_refl)|].
    set (w3 := set_cache JNull false
                 (advance k (evs ++ [ConsoleWarn "Wake-up failed, refreshing API URL..."]) w2)).
    destruct (autodetect_getApiUrlWithFallback_total E w3)
      as (u' & w4 & Hget' & _ & Hu' & Hcache4 & _).
    exists u', w4. split; [exact Hget'|]. split; [exact Hu'|]. split; [exact Hcache4|].
    assert (Hrun : forall (k0 : jsval -> M (option request)),
               bind (console_warn "Wake-up failed, refreshing API URL...")
                    (fun _ => bind (modify (set_cache JNull false))
                       (fun _ => bind (AutoDetect.getApiUrlWithFallback E) k0))
                    (advance k evs w2) = k0 u' w4).
    { intros k0. unfold bind at 1. unfold console_warn, modify at 1.
      unfold bind at 1. unfold modify at 1. rewrite emit_advance. fold w3.
      apply (bind_run _ _ _ _ _ Hget'). }
    rewrite Hrun.
    destruct (js_eqb u' u); cbn [negb]; [reflexivity|].
    cbn [q_url set_baseURL q_baseURL]. unfold js_or. rewrite Hu'.
    destruct (q_url config); reflexivity.
Qed.

(** A request that needs no cycle (it carries the marker, or its answer is
    no network-class failure) is a single network call. *)
Lemma no_cycle_run (E : env) (fuel : nat) (inst : instance) (req : request) (w : world) :
  q_retry req = true \/
  network_failure (net E (clock w) (wire_of (prepared inst req w))) = false ->
  AutoDetect.instance_request E (S fuel) inst req w = send_once E (prepared inst req w) w.
Proof.
  intros [Hr | Hn]; [apply marked_request_run, Hr|].
  rewrite instance_request_unfold. unfold send_once, try_catch. rewrite dispatch_run.
  destruct (net E (clock w) (wire_of (prepared inst req w))) as [r|code msg].
  - destruct (default_validateStatus (r_status r)); [reflexivity|].
    apply responseRejected_not_network, is_network_status_error.
  - apply responseRejected_not_network.
    rewrite is_network_transport_error. exact Hn.
Qed.

(** A network-class failure of an unmarked request is followed by exactly
    one cycle. *)
Lemma one_cycle_run (E : env) (fuel : nat) (inst : instance) (req : request) (w : world)
      (code msg : string) :
  q_retry req = false ->
  net E (clock w) (wire_of (prepared inst req w)) = NetFail code msg ->
  network_code code = true ->
  one_wake_and_retry E inst
    (set_retry true (prepared inst req w))
    (set_config (set_retry true (prepared inst req w))
                (transport_error code msg (prepared inst req w)))
    (advance 1 [Http (wire_of (prepared inst req w)); ConsoleWarn AutoDetect.wake_marker] w)
    (AutoDetect.instance_request E (S (S fuel)) inst req w).
Proof.
  intros Hr Ha Hnc.
  set (cfg := prepared inst req w) in *. set (cfg1 := set_retry true cfg).
  set (w1 := advance 1 [Http (wire_of cfg); ConsoleWarn AutoDetect.wake_marker] w).
  assert (Hrun : AutoDetect.instance_request E (S (S fuel)) inst req w =
            match AutoDetect.retry_decision E cfg1 w1 with
            | (Ret (Some q), w3) => AutoDetect.instance_request E (S fuel) inst q w3
            | (Ret None, w3) =>
                AutoDetect.reject_enhanced (set_config cfg1 (transport_error code msg cfg)) w3
            | (Throw e', w3) => (Throw (AutoDetect.retry_error e'), w3)
            | (OutOfFuel, w3) => (OutOfFuel, w3)
            end).
  { rewrite instance_request_unfold. fold cfg.
    unfold try_catch. rewrite dispatch_run, Ha.
    rewrite (responseRejected_cycle E _ _ cfg);
      [rewrite emit_advance; reflexivity | reflexivity
       | unfold cfg; rewrite prepared_retry; exact Hr |].
    rewrite is_network_transport_error. exact Hnc. }
  destruct (retry_decision_run E cfg1 w1)
    as (u & w2 & woke & kw & ew & Hget & Hu & Hwake & Hkw & Hc & _ & Hrest).
  exists u, w2, woke, kw, ew.
  split; [exact Hget|]. split; [exact Hwake|]. split; [exact Hkw|]. split; [exact Hc|].
  destruct woke.
  - rewrite Hrest in Hrun. cbv zeta.
    rewrite Hrun. apply marked_request_run. reflexivity.
  - destruct Hrest as (Hk3 & newUrl & w4 & Hget' & Hnew & Hcache4 & Hrd).
    split; [exact Hk3|]. exists newUrl, w4. split; [exact Hget'|].
    rewrite Hrd in Hrun.
    destruct (js_eqb newUrl u); [exact Hrun|].
    destruct (q_url cfg1) as [| |p] eqn:Hurl; try exact Hrun.
    rewrite Hrun. apply marked_request_run. reflexivity.
Qed.

(** Against a backend whose every answer is a network-class failure: the
    three probes of the wake-up all fail, the URL is resolved again, and the
    call is rejected, after one more send when the URL changed. *)
Lemma permanent_failure_run
      (E : env) (fuel : nat) (inst : instance) (req : request) (w : world) :
  q_retry req = false ->
  (forall n wr, network_failure (net E n wr) = true) ->
  exists u w2 ew newUrl w4 e,
    AutoDetect.getApiUrlWithFallback E
      (advance 1 [Http (wire_of (prepared inst req w)); ConsoleWarn AutoDetect.wake_marker] w)
    = (Ret u, w2) /\
    AutoDetect.wakeUpServer E u w2 = (Ret false, advance 3 ew w2) /\
    http_count ew = 3 /\
    AutoDetect.getApiUrlWithFallback E
      (set_cache JNull false
         (advance 3 (ew ++ [ConsoleWarn "Wake-up failed, refreshing API URL..."]) w2))
    = (Ret newUrl, w4) /\
    (AutoDetect.instance_request E (S (S fuel)) inst req w = (Throw e, w4) \/
     exists q, q_retry q = true /\
       AutoDetect.instance_request E (S (S fuel)) inst req w
       = (Throw e, advance 1 [Http (wire_of (prepared inst q w4))] w4)).
Proof.
  intros Hr Hall.
  pose proof (Hall (clock w) (wire_of (prepared inst req w))) as Ha.
  destruct (net E (clock w) (wire_of (prepared inst req w))) as [r|code msg] eqn:Hnet;
    [discriminate Ha|].
  destruct (one_cycle_run E fuel inst req w code msg Hr Hnet Ha)
    as (u & w2 & woke & kw & ew & Hget & Hwake & Hkw & Hc & Hrest).
  assert (Hwoke : woke = false).
  { destruct woke; [|reflexivity].
    assert (Hu : truthy u = true).
    { destruct (autodetect_getApiUrlWithFallback_total E
                  (advance 1 [Http (wire_of (prepared inst req w));
                              ConsoleWarn AutoDetect.wake_marker] w))
        as (u0 & w0 & Hget0 & _ & Hu0 & _).
      rewrite Hget in Hget0. injection Hget0 as -> _. exact Hu0. }
    destruct (wakeUpServer_run E u w2 Hu) as (b & k & evs & Hwake' & _ & _ & _ & Htrue & _).
    rewrite Hwake in Hwake'. injection Hwake' as <- _.
    destruct (Htrue eq_refl) as [_ Hh].
    rewrite healthy_not_network_failure in Hh by apply Hall. discriminate Hh. }
  subst woke. destruct Hrest as (-> & newUrl & w4 & Hget' & Hrest).
  assert (Hsend : forall q,
             exists e, send_once E (prepared inst q w4) w4
                       = (Throw e, advance 1 [Http (wire_of (prepared inst q w4))] w4)).
  { intros q. rewrite send_once_run.
    pose proof (Hall (clock w4) (wire_of (prepared inst q w4))) as Hq.
    destruct (net E (clock w4) (wire_of (prepared inst q w4))); [discriminate Hq|].
    eexists. reflexivity. }
  destruct (js_eqb newUrl u).
  - exists u, w2, ew, newUrl, w4. eexists.
    split; [exact Hget|]. split; [exact Hwake|]. split; [exact Hc|]. split; [exact Hget'|].
    left. rewrite Hrest. reflexivity.
  - destruct (q_url (set_retry true (prepared inst req w))) as [| |p].
    1, 2: exists u, w2, ew, newUrl, w4; eexists;
      (split; [exact Hget|]); (split; [exact Hwake|]); (split; [exact Hc|]);
      (split; [exact Hget'|]); left; exact Hrest.
    match type of Hrest with _ = send_once _ (prepared _ ?q0 _) _ =>
      destruct (Hsend q0) as (e & He);
      exists u, w2, ew, newUrl, w4, e;
      (split; [exact Hget|]); (split; [exact Hwake|]); (split; [exact Hc|]);
      (split; [exact Hget'|]); right; exists q0;
      split; [reflexivity | rewrite Hrest; exact He]
    end.
Qed.

(** C1: a call of the instance of [AutoDetect] never needs more than two
    levels of nesting and always ends (with a response or a rejection) after
    at most 19 network calls; it opens at most one wake-and-retry cycle and
    sends the request at most twice; a request that already carries the
    marker opens no cycle and makes exactly one network call; against a
    backend whose every answer is a network-class failure an unmarked
    request opens exactly one cycle and is then rejected.  The interceptor
    hands the request back to the instance only with the marker set.

    The run itself: a request that carries the marker, or whose answer is no
    network-class failure, is one network call and nothing else.  A
    network-class failure of an unmarked request is followed by exactly one
    cycle [one_wake_and_retry]: one run of [wakeUpServer], then at most one
    more send of the marked request, which cannot open a cycle.  Against the
    backend that always fails this cycle is: the three probes of
    [wakeUpServer] all made and failed, the URL resolved again, and the
    rejection, preceded by one more send when the URL changed. *)
Theorem retry_at_most_once
  (E : env) (fuel : nat) (inst : instance) (req : request) (w : world) :
  (exists o w' k evs,
      AutoDetect.instance_request E (S (S fuel)) inst req w = (o, w') /\
      o <> OutOfFuel /\
      run_summary w w' k evs /\ k <= 19 /\
      wake_cycles evs <= 1 /\ requests_sent evs <= 2 /\
      (q_retry req = true -> wake_cycles evs = 0 /\ k = 1) /\
      (q_retry req = false ->
       (forall n wr, network_failure (net E n wr) = true) ->
       wake_cycles evs = 1 /\ exists e, o = Throw e)) /\
  AutoDetect.instance_request E (S (S fuel)) inst req w =
    AutoDetect.instance_request E 2 inst req w /\
  (forall self e w0,
      AutoDetect.responseRejected E self e w0 =
      AutoDetect.responseRejected E (only_marked self) e w0) /\
  (q_retry req = true \/
   network_failure (net E (clock w) (wire_of (prepared inst req w))) = false ->
   AutoDetect.instance_request E (S (S fuel)) inst req w
   = send_once E (prepared inst req w) w) /\
  (forall code msg,
      q_retry req = false ->
      net E (clock w) (wire_of (prepared inst req w)) = NetFail code msg ->
      network_code code = true ->
      one_wake_and_retry E inst
        (set_retry true (prepared inst req w))
        (set_config (set_retry true (prepared inst req w))
                    (transport_error code msg (prepared inst req w)))
        (advance 1 [Http (wire_of (prepared inst req w));
                    ConsoleWarn AutoDetect.wake_marker] w)
        (AutoDetect.instance_request E (S (S fuel)) inst req w)) /\
  (q_retry req = false ->
   (forall n wr, network_failure (net E n wr) = true) ->
   exists u w2 ew newUrl w4 e,
     AutoDetect.getApiUrlWithFallback E
       (advance 1 [Http (wire_of (prepared inst req w));
                   ConsoleWarn AutoDetect.wake_marker] w)
     = (Ret u, w2) /\
     AutoDetect.wakeUpServer E u w2 = (Ret false, advance 3 ew w2) /\
     http_count ew = 3 /\
     AutoDetect.getApiUrlWithFallback E
       (set_cache JNull false
          (advance 3 (ew ++ [ConsoleWarn "Wake-up failed, refreshing API URL..."]) w2))
     = (Ret newUrl, w4) /\
     (AutoDetect.instance_request E (S (S fuel)) inst req w = (Throw e, w4) \/
      exists q, q_retry q = true /\
        AutoDetect.instance_request E (S (S fuel)) inst req w
        = (Throw e, advance 1 [Http (wire_of (prepared inst q w4))] w4))).
Proof.
  split; [|split; [|split; [|split; [|split]]]].
  2: apply instance_request_fuel.
  2: { intros self e w0. apply responseRejected_self_on_marked.
       intros q w' Hq. unfold only_marked. rewrite Hq. reflexivity. }
  2: apply no_cycle_run.
  2: { intros code msg. apply one_cycle_run. }
  2: apply permanent_failure_run.
  rewrite instance_request_unfold. unfold try_catch. rewrite dispatch_run.
  set (cfg := prepared inst req w). set (wr := wire_of cfg).
  set (w1 := advance 1 [Http wr] w).
  assert (Hs1 : run_summary w w1 1 [Http wr]) by (apply run_summary_advance; reflexivity).
  assert (Hdirect : forall o : outcome response,
             o <> OutOfFuel ->
             (q_retry req = false -> network_failure (net E (clock w) wr) = true -> False) ->
             exists o' w' k evs,
               (o, w1) = (o', w') /\ o' <> OutOfFuel /\
               run_summary w w' k evs /\ k <= 19 /\
               wake_cycles evs <= 1 /\ requests_sent evs <= 2 /\
               (q_retry req = true -> wake_cycles evs = 0 /\ k = 1) /\
               (q_retry req = false ->
                (forall n wr, network_failure (net E n wr) = true) ->
                wake_cycles evs = 1 /\ exists e, o' = Throw e)).
  { intros o Ho Hno. exists o, w1, 1, [Http wr].
    split; [reflexivity|]. split; [exact Ho|]. split; [exact Hs1|].
    split; [lia|]. split; [rewrite wake_cycles_http; lia|].
    split; [pose proof (requests_sent_single (Http wr)); lia|].
    split; [intros _; split; reflexivity|].
    intros Hr Hall. exfalso. apply (Hno Hr). apply Hall. }
  destruct (net E (clock w) wr) as [r|code msg] eqn:Ha.
  - destruct (default_validateStatus (r_status r)).
    + apply Hdirect; [discriminate | intros _ H; discriminate H].
    + rewrite responseRejected_not_network by apply is_network_status_error.
      apply Hdirect; [discriminate | intros _ H; discriminate H].
  - destruct (network_code code) eqn:Hnc.
    2: { rewrite responseRejected_not_network
           by (rewrite is_network_transport_error; exact Hnc).
         apply Hdirect; [discriminate|].
         intros _ H. simpl in H. congruence. }
    destruct (q_retry req) eqn:Hr.
    { rewrite (responseRejected_marked E _ _ cfg);
        [| reflexivity | unfold cfg; rewrite prepared_retry; exact Hr].
      apply Hdirect; [discriminate | intros H; discriminate H]. }
    rewrite (responseRejected_cycle E _ _ cfg);
      [| reflexivity | unfold cfg; rewrite prepared_retry; exact Hr
       | rewrite is_network_transport_error; exact Hnc].
    destruct (retry_decision_spec E (set_retry true cfg)
                (emit (ConsoleWarn AutoDetect.wake_marker) w1))
      as (o3 & w3 & Hrd & Hq3 & _ & Ho3).
    rewrite Hrd.
    assert (Hs2 : run_summary w (emit (ConsoleWarn AutoDetect.wake_marker) w1) 1
                    [Http wr; ConsoleWarn AutoDetect.wake_marker]).
    { unfold w1. rewrite emit_advance. apply run_summary_advance. reflexivity. }
    destruct (run_summary_quietly 17 _ _ _ _ _ Hs2 Hq3) as (k3 & e3 & Hs3 & Hk3 & Hquiet3).
    pose proof (quiet_no_cycle e3 Hquiet3) as Hcyc3.
    pose proof (quiet_no_request e3 Hquiet3) as Hreq3.
    pose proof (wake_cycles_opening wr) as Hcyc2.
    pose proof (requests_sent_opening wr AutoDetect.wake_marker) as Hreq2.
    destruct o3 as [[q|]|e'|]; [| | |contradiction].
    + destruct Ho3 as [Hqr _]. cbn [q_retry set_retry] in Hqr.
      rewrite marked_request_run by exact Hqr. rewrite send_once_run.
      set (wr' := wire_of (prepared inst q w3)).
      eexists; exists (advance 1 [Http wr'] w3), (1 + k3 + 1),
        (([Http wr; ConsoleWarn AutoDetect.wake_marker] ++ e3) ++ [Http wr'])%list.
      split; [reflexivity|]. split.
      { destruct (net E (clock w3) wr') as [r|c m];
          [destruct (default_validateStatus (r_status r))|]; discriminate. }
      split; [apply run_summary_step; [exact Hs3 | reflexivity]|].
      split; [lia|].
      rewrite !wake_cycles_app, !requests_sent_app, Hcyc2, Hcyc3, Hreq3, wake_cycles_http.
      pose proof (requests_sent_single (Http wr')).
      split; [lia|]. split; [lia|]. split; [intros H'; discriminate H'|].
      intros _ Hall. split; [reflexivity|].
      specialize (Hall (clock w3) wr').
      destruct (net E (clock w3) wr') as [r|c m]; [discriminate Hall|].
      eexists; reflexivity.
    + eexists; exists w3, (1 + k3),
        ([Http wr; ConsoleWarn AutoDetect.wake_marker] ++ e3)%list.
      split; [reflexivity|]. split; [discriminate|]. split; [exact Hs3|].
      split; [lia|].
      rewrite !wake_cycles_app, !requests_sent_app, Hcyc2, Hcyc3, Hreq3.
      split; [lia|]. split; [lia|]. split; [intros H'; discriminate H'|].
      intros _ _. split; [reflexivity | eexists; reflexivity].
    + eexists; exists w3, (1 + k3),
        ([Http wr; ConsoleWarn AutoDetect.wake_marker] ++ e3)%list.
      split; [reflexivity|]. split; [discriminate|]. split; [exact Hs3|].
      split; [lia|].
      rewrite !wake_cycles_app, !requests_sent_app, Hcyc2, Hcyc3, Hreq3.
      split; [lia|]. split; [lia|]. split; [intros H'; discriminate H'|].
      intros _ _. split; [reflexivity | eexists; reflexivity].
Qed.

(** ** One wake-and-retry cycle, step by step *)

Lemma js_eqb_eq (a b : jsval) : js_eqb a b = true <-> a = b.
Proof.
  destruct a as [| |s], b as [| |t]; simpl; split; intros H;
    try reflexivity; try discriminate.
  - f_equal. apply String.eqb_eq. exact H.
  - injection H as ->. apply String.eqb_refl.
Qed.

Lemma prepared_fixed (inst : instance) (config : request) (w : world) :
  truthy (cachedApiUrl w) = true ->
  q_baseURL config = cachedApiUrl w ->
  q_timeout config <> None ->
  prepared inst config w = config.
Proof.
  intros Ht Hb Hto. unfold prepared. rewrite Ht.
  destruct config as [m u b t r]. cbn in *. subst b.
  unfold set_baseURL, merge_defaults; cbn.
  destruct (cachedApiUrl w); try discriminate.
  destruct t; [reflexivity | congruence].
Qed.

Lemma merge_defaults_timeout (inst : instance) (config : request) :
  q_timeout (merge_defaults inst config) <> None.
Proof. unfold merge_defaults; cbn. destruct (q_timeout config); discriminate. Qed.

(** C2: a request that has not been retried fails with a network-class error
    while a base URL is cached.  The interceptor then runs [wakeUpServer] on
    the cached URL.  If the server woke, the same request (same method, url,
    base URL and timeout, now marked) is sent once more; if not, the cache is
    cleared and the URL resolved again: when the new URL is the old one the
    failure is rejected to the caller with the connectivity message, and
    when it differs the marked request is sent once more against the new
    URL. *)
Theorem wake_and_retry_cycle
  (E : env) (fuel : nat) (inst : instance) (req : request) (w : world)
  (code msg : string) :
  truthy (cachedApiUrl w) = true -> apiUrlChecked w = true ->
  q_retry req = false ->
  let url := cachedApiUrl w in
  let cfg := set_baseURL url (merge_defaults inst req) in
  net E (clock w) (wire_of cfg) = NetFail code msg ->
  network_code code = true ->
  let w1 := advance 1 [Http (wire_of cfg); ConsoleWarn AutoDetect.wake_marker] w in
  let cfg1 := set_retry true cfg in
  let run := AutoDetect.instance_request E (S (S fuel)) inst req w in
  exists woke kw ew,
    AutoDetect.wakeUpServer E url w1 = (Ret woke, advance kw ew w1) /\
    kw <= 3 /\
    (woke = true ->
     wire_of cfg1 = wire_of cfg /\
     run = send_once E cfg1
             (advance kw (ew ++ [ConsoleLog "Server awakened, retrying request..."]) w1)) /\
    (woke = false ->
     exists newUrl w4,
       AutoDetect.getApiUrlWithFallback E
         (set_cache JNull false
            (advance kw (ew ++ [ConsoleWarn "Wake-up failed, refreshing API URL..."]) w1))
       = (Ret newUrl, w4) /\
       cachedApiUrl w4 = newUrl /\
       (newUrl = url ->
        run = (Throw (set_userMessage (JStr connectivity_message)
                        (transport_error code msg cfg1)), w4)) /\
       (newUrl <> url ->
        forall p, q_url req = JStr p ->
        run = send_once E
                (set_url (JStr (js_replace p (template newUrl) (template newUrl)))
                         (set_baseURL newUrl cfg1))
                w4)).
Proof.
  intros Ht Hchk Hr url cfg Ha Hnc w1 cfg1 run.
  assert (Hprep : prepared inst req w = cfg) by (unfold prepared; rewrite Ht; reflexivity).
  assert (Hrun : run =
            match AutoDetect.retry_decision E cfg1 w1 with
            | (Ret (Some q), w3) => AutoDetect.instance_request E (S fuel) inst q w3
            | (Ret None, w3) =>
                AutoDetect.reject_enhanced (set_config cfg1 (transport_error code msg cfg)) w3
            | (Throw e', w3) => (Throw (AutoDetect.retry_error e'), w3)
            | (OutOfFuel, w3) => (OutOfFuel, w3)
            end).
  { unfold run. rewrite instance_request_unfold, Hprep.
    unfold try_catch. rewrite dispatch_run, Ha.
    rewrite (responseRejected_cycle E _ _ cfg);
      [rewrite emit_advance; reflexivity | reflexivity | exact Hr |].
    rewrite is_network_transport_error. exact Hnc. }
  assert (Hcached : AutoDetect.getApiUrlWithFallback E w1 = (Ret url, w1)).
  { destruct (autodetect_getApiUrlWithFallback_run E w1) as [[_ H] | [Hc _]];
      [exact H|].
    unfold w1 in Hc. cbn [cachedApiUrl apiUrlChecked advance] in Hc.
    rewrite Ht, Hchk in Hc. discriminate. }
  destruct (wakeUpServer_run E url w1 Ht) as (woke & kw & ew & Hwake & Hkw & _).
  exists woke, kw, ew. split; [exact Hwake|]. split; [exact Hkw|].
  unfold AutoDetect.retry_decision in Hrun.
  rewrite (bind_run _ _ _ _ _ Hcached), (bind_run _ _ _ _ _ Hwake) in Hrun.
  split.
  - intros ->. split; [reflexivity|].
    rewrite Hrun.
    cbv [bind ret console_log modify]. rewrite emit_advance.
    change (set_baseURL url (set_retry true cfg)) with cfg1.
    rewrite marked_request_run by reflexivity.
    rewrite prepared_fixed; [reflexivity | exact Ht | reflexivity |].
    apply merge_defaults_timeout.
  - intros ->.
    set (w3 := set_cache JNull false
                 (advance kw (ew ++ [ConsoleWarn "Wake-up failed, refreshing API URL..."]) w1)).
    destruct (autodetect_getApiUrlWithFallback_total E w3)
      as (newUrl & w4 & Hget & _ & Hnew & Hcache4 & _).
    exists newUrl, w4. split; [exact Hget|]. split; [exact Hcache4|].
    assert (Hstep : forall (k0 : jsval -> M (option request)),
               bind (console_warn "Wake-up failed, refreshing API URL...")
                    (fun _ => bind (modify (set_cache JNull false))
                       (fun _ => bind (AutoDetect.getApiUrlWithFallback E) k0))
                    (advance kw ew w1) = k0 newUrl w4).
    { intros k0. unfold bind at 1. unfold console_warn, modify at 1.
      unfold bind at 1. unfold modify at 1. rewrite emit_advance. fold w3.
      apply (bind_run _ _ _ _ _ Hget). }
    rewrite Hstep in Hrun. split.
    + intros Heq. rewrite Hrun.
      rewrite (proj2 (js_eqb_eq newUrl url) Heq). cbn [negb]. unfold ret.
      unfold AutoDetect.reject_enhanced, throw, AutoDetect.userMessage_of.
      change (AutoDetect.is_network (set_config cfg1 (transport_error code msg cfg)))
        with (network_code code).
      rewrite Hnc. reflexivity.
    + intros Hneq p Hp. rewrite Hrun.
      destruct (js_eqb newUrl url) eqn:Hcmp;
        [apply js_eqb_eq in Hcmp; contradiction|].
      cbn [negb q_url set_baseURL set_retry cfg1 cfg merge_defaults].
      rewrite Hp.
      change (q_baseURL (set_baseURL newUrl cfg1)) with newUrl.
      unfold js_or. rewrite Hnew. unfold ret.
      rewrite marked_request_run by reflexivity.
      rewrite prepared_fixed; [reflexivity | rewrite Hcache4; exact Hnew
                               | rewrite Hcache4; reflexivity |].
      cbn. destruct (q_timeout req); discriminate.
Qed.

(** C2 at a concrete input: the backend is unreachable, the URL resolved. *)
Lemma wake_and_retry_cycle_witness :
  exists woke kw ew,
    AutoDetect.wakeUpServer env_down (JStr localUrl)
      (advance 1 [Http (wire_of (set_baseURL (JStr localUrl)
                                   (merge_defaults instance_local (get_request "/api/results"))));
                  ConsoleWarn AutoDetect.wake_marker] world_resolved)
    = (Ret woke,
       advance kw ew
         (advance 1 [Http (wire_of (set_baseURL (JStr localUrl)
                                      (merge_defaults instance_local (get_request "/api/results"))));
                     ConsoleWarn AutoDetect.wake_marker] world_resolved)) /\
    kw <= 3.
Proof.
  destruct (wake_and_retry_cycle env_down 0 instance_local (get_request "/api/results")
              world_resolved "ERR_NETWORK" "Network Error"
              eq_refl eq_refl eq_refl eq_refl eq_refl)
    as (woke & kw & ew & Hwake & Hkw & _).
  exists woke, kw, ew. split; [exact Hwake | exact Hkw].
Defined.

(** ** Every rejection carries a user message *)

Lemma js_or_string (a : jsval) (s : string) : is_string (js_or a (JStr s)) = true.
Proof. unfold js_or. destruct a as [| |t]; try reflexivity. destruct (truthy (JStr t)); reflexivity. Qed.

Lemma direct_userMessage_string (e : error) : is_string (Direct.userMessage_of e) = true.
Proof.
  unfold Direct.userMessage_of.
  destruct (orb _ _); [reflexivity|]. destruct (andb _ _); [reflexivity|].
  destruct (e_response e); apply js_or_string.
Qed.

Lemma autodetect_userMessage_string (e : error) :
  is_string (AutoDetect.userMessage_of e) = true.
Proof.
  unfold AutoDetect.userMessage_of.
  destruct (AutoDetect.is_network e); [reflexivity|].
  destruct (e_response e); apply js_or_string.
Qed.

Lemma direct_rejection_annotated (E : env) (inst : instance) (req : request) (w : world) :
  annotated_by Direct.userMessage_of (fst (Direct.instance_request E inst req w)).
Proof.
  unfold Direct.instance_request.
  assert (Hreq : exists config', Direct.requestFulfilled (merge_defaults inst req) w
                                 = (Ret config', w)).
  { unfold Direct.requestFulfilled. rewrite bind_get_world.
    destruct (cachedApiUrl w) as [| |s]; try (eexists; reflexivity).
    destruct (truthy (JStr s)); eexists; reflexivity. }
  destruct Hreq as (config' & Hreq).
  rewrite (bind_run _ _ _ _ _ Hreq).
  unfold try_catch. rewrite dispatch_run.
  destruct (net E (clock w) (wire_of config')) as [r|code msg];
    [destruct (default_validateStatus (r_status r))|]; cbn; try exact I;
    (split; [reflexivity | apply direct_userMessage_string]).
Qed.

Lemma reject_enhanced_annotated (e : error) (w : world) :
  annotated_by AutoDetect.userMessage_of (fst (AutoDetect.reject_enhanced e w)).
Proof. cbn. split; [reflexivity | apply autodetect_userMessage_string]. Qed.

Lemma send_once_annotated (E : env) (config : request) (w : world) :
  annotated_by AutoDetect.userMessage_of (fst (send_once E config w)).
Proof.
  rewrite send_once_run.
  destruct (net E (clock w) (wire_of config)) as [r|code msg];
    [destruct (default_validateStatus (r_status r))|]; cbn; try exact I;
    (split; [reflexivity | apply autodetect_userMessage_string]).
Qed.

Lemma autodetect_rejection_annotated
      (E : env) (fuel : nat) (inst : instance) (req : request) (w : world) :
  is_string (q_url req) = true ->
  annotated_by AutoDetect.userMessage_of
    (fst (AutoDetect.instance_request E (S (S fuel)) inst req w)).
Proof.
  intros Hurl. rewrite instance_request_unfold. unfold try_catch. rewrite dispatch_run.
  set (cfg := prepared inst req w).
  set (w1 := advance 1 [Http (wire_of cfg)] w).
  destruct (net E (clock w) (wire_of cfg)) as [r|code msg].
  - destruct (default_validateStatus (r_status r)); [exact I|].
    rewrite responseRejected_not_network by apply is_network_status_error.
    apply reject_enhanced_annotated.
  - destruct (network_code code) eqn:Hnc.
    2: { rewrite responseRejected_not_network
           by (rewrite is_network_transport_error; exact Hnc).
         apply reject_enhanced_annotated. }
    destruct (q_retry req) eqn:Hr.
    { rewrite (responseRejected_marked E _ _ cfg);
        [| reflexivity | unfold cfg; rewrite prepared_retry; exact Hr].
      apply reject_enhanced_annotated. }
    rewrite (responseRejected_cycle E _ _ cfg);
      [| reflexivity | unfold cfg; rewrite prepared_retry; exact Hr
       | rewrite is_network_transport_error; exact Hnc].
    destruct (retry_decision_spec E (set_retry true cfg)
                (emit (ConsoleWarn AutoDetect.wake_marker) w1))
      as (o3 & w3 & Hrd & _ & _ & Ho3).
    rewrite Hrd.
    destruct o3 as [[q|]|e'|]; [| | |contradiction].
    + destruct Ho3 as [Hqr _]. cbn [q_retry set_retry] in Hqr.
      rewrite marked_request_run by exact Hqr. apply send_once_annotated.
    + apply reject_enhanced_annotated.
    + cbn [q_url set_retry] in Ho3. unfold cfg in Ho3.
      rewrite prepared_url, Hurl in Ho3. discriminate.
Qed.

(** C8 (as amended): in [Direct] every rejection of an instance call carries
    a [userMessage] string chosen by the four-way classification: network or
    DNS code, then [ECONNABORTED] with a message containing ["timeout"], then
    an HTTP response (the server's message, else the error's own message),
    then anything else (the error's message, else a generic text).  In
    [AutoDetect] every rejection of a call whose [url] is a string carries a
    [userMessage] string chosen by a three-way classification that has no
    timeout class: network or DNS code, then an HTTP response, then anything
    else. *)
Theorem rejections_carry_userMessage (E : env) (inst : instance) (w : world) :
  (forall req,
      annotated_by Direct.userMessage_of (fst (Direct.instance_request E inst req w))) /\
  (forall fuel method path base timeout retried,
      annotated_by AutoDetect.userMessage_of
        (fst (AutoDetect.instance_request E (S (S fuel)) inst
                (mkRequest method (JStr path) base timeout retried) w))) /\
  (forall e,
      Direct.userMessage_of e =
      if is_str (e_code e) "ERR_NETWORK" || is_str (e_code e) "ERR_NAME_NOT_RESOLVED"
      then JStr "Cannot connect to server. Please check your connection and try again."
      else if is_str (e_code e) "ECONNABORTED" && includes "timeout" (e_message e)
      then JStr "Upload timeout: The server is taking too long to respond. This may happen if the service is waking up. Please try again."
      else match e_response e with
           | Some r => js_or (data_message r) (JStr (e_message e))
           | None => js_or (JStr (e_message e)) (JStr "An unexpected error occurred")
           end) /\
  (forall e,
      AutoDetect.userMessage_of e =
      if is_str (e_code e) "ERR_NETWORK" || is_str (e_code e) "ERR_NAME_NOT_RESOLVED"
      then JStr connectivity_message
      else match e_response e with
           | Some r => js_or (data_message r) (JStr (e_message e))
           | None => js_or (JStr (e_message e)) (JStr "An unexpected error occurred")
           end).
Proof.
  split; [|split; [|split]].
  - intros req. apply direct_rejection_annotated.
  - intros fuel method path base timeout retried.
    apply autodetect_rejection_annotated. reflexivity.
  - intros e. reflexivity.
  - intros e. reflexivity.
Qed.

(** C8 (the claim as stated fails): in [AutoDetect] a request that times out
    is rejected with axios's own timeout text as [userMessage]; nothing in it
    says that the server may be waking up, which is what [Direct] derives for
    the same error. *)
Lemma autodetect_timeout_keeps_raw_message :
  let raw :=
    mkError (JStr "ECONNABORTED") "timeout of 30000ms exceeded" None
            (Some (mkRequest "get" (JStr "/api/results") (JStr "https://api.example.com")
                             (Some 30000%N) false))
            JUndefined false in
  fst (AutoDetect.api_getResults env_timeout 2 initial_world)
    = Throw (set_userMessage (JStr "timeout of 30000ms exceeded") raw) /\
  includes "waking up" "timeout of 30000ms exceeded" = false /\
  fst (Direct.api_getResults env_timeout initial_world)
    = Throw (set_userMessage
               (JStr "Upload timeout: The server is taking too long to respond. This may happen if the service is waking up. Please try again.")
               raw).
Proof. vm_compute. repeat split. Qed.

(** ** The URL cache and the instance singleton *)

Lemma direct_getApiUrlWithFallback_run (E : env) (w : world) :
  Direct.getApiUrlWithFallback E w =
  if truthy (cachedApiUrl w) && apiUrlChecked w
  then (Ret (cachedApiUrl w), w)
  else (Ret (Direct.getApiUrl E), set_cache (Direct.getApiUrl E) true w).
Proof.
  unfold Direct.getApiUrlWithFallback. rewrite bind_get_world.
  destruct (truthy (cachedApiUrl w) && apiUrlChecked w); reflexivity.
Qed.

Lemma quietly_instance (n : nat) (w w' : world) :
  quietly n w w' -> apiInstance w' = apiInstance w /\ created w' = created w.
Proof. intros (c & b & k & evs & -> & _). split; reflexivity. Qed.










(** ** Scenarios *)

(** C1 at a concrete input: the backend never answers and the URL is
    resolved; the request opens exactly one wake-and-retry cycle, in which
    [wakeUpServer] makes its three probes, and is then rejected. *)
Lemma retry_at_most_once_witness :
  (exists o w' k evs,
      AutoDetect.instance_request env_down 2 instance_local (get_request "/api/results")
        world_resolved = (o, w') /\
      run_summary world_resolved w' k evs /\
      wake_cycles evs = 1 /\ exists e, o = Throw e) /\
  (exists u w2 ew w4 e,
      AutoDetect.wakeUpServer env_down u w2 = (Ret false, advance 3 ew w2) /\
      http_count ew = 3 /\
      (AutoDetect.instance_request env_down 2 instance_local (get_request "/api/results")
         world_resolved = (Throw e, w4) \/
       exists q, q_retry q = true /\
         AutoDetect.instance_request env_down 2 instance_local (get_request "/api/results")
           world_resolved
         = (Throw e, advance 1 [Http (wire_of (prepared instance_local q w4))] w4))).
Proof.
  destruct (retry_at_most_once env_down 0 instance_local
              (get_request "/api/results") world_resolved)
    as (Hsum & _ & _ & _ & _ & Hperm).
  split.
  - destruct Hsum as (o & w' & k & evs & Hrun & _ & Hsum & _ & _ & _ & _ & Hdown).
    exists o, w', k, evs. split; [exact Hrun|]. split; [exact Hsum|].
    apply Hdown; [reflexivity | intros n wr; reflexivity].
  - destruct (Hperm eq_refl (fun n wr => eq_refl))
      as (u & w2 & ew & newUrl & w4 & e & _ & Hwake & Hc & _ & Hrun).
    exists u, w2, ew, w4, e. split; [exact Hwake|]. split; [exact Hc | exact Hrun].
Defined.

(** The same backend seen through the exported [api] object from a fresh
    module: the call is rejected with the connectivity message after one
    cycle; the request itself went out once (the re-resolved URL is the old
    one) among 14 network calls, and one instance was constructed. *)
Example permanently_down_backend :
  let '(o, w') := AutoDetect.api_getResults env_down 2 initial_world in
  (exists e, o = Throw e /\ e_userMessage e = JStr connectivity_message) /\
  wake_cycles (trace w') = 1 /\
  requests_sent (trace w') = 1 /\
  http_count (trace w') = 14 /\
  created w' = 1.
Proof.
  vm_compute. split; [|repeat split].
  eexists. split; reflexivity.
Qed.

(** The spec's scenario "upload fails with a DNS error, wake-up succeeds on
    attempt 2": the upload is sent again exactly once and succeeds. *)
Example upload_recovers_after_wake :
  let upload := mkWire "post" (JStr localUrl) (JStr "/api/upload") 30000 in
  let probe := "http://localhost:5000/api/health"%string in
  AutoDetect.instance_request env_waking 2 instance_local upload_request world_resolved
  = (Ret (mkResponse 200 (Some healthy_body)),
     advance 4 [ Http upload;
                 ConsoleWarn AutoDetect.wake_marker;
                 Http (probe_wire probe 5000);
                 Sleep 2000;
                 Http (probe_wire probe 15000);
                 ConsoleLog "Server is awake and responding";
                 ConsoleLog "Server awakened, retrying request...";
                 Http upload ]
             world_resolved).
Proof. vm_compute. reflexivity. Qed.

(** The spec's scenario "configured URL unset, local default, health endpoint
    healthy": both variants resolve to the local default. *)
Example resolves_to_local_default :
  let E := mkEnv JUndefined "localhost"
                 (fun _ _ => Reply (mkResponse 200 (Some healthy_body))) in
  fst (AutoDetect.getApiUrlWithFallback E initial_world) = Ret (JStr localUrl) /\
  fst (Direct.getApiUrlWithFallback E initial_world) = Ret (JStr localUrl).
Proof. vm_compute. split; reflexivity. Qed.

(** The spec's scenario "configured URL = https://api.example.com///": the
    variant [Direct] resolves to exactly [https://api.example.com]. *)
Example direct_strips_configured_slashes :
  fst (Direct.getApiUrlWithFallback env_slashes initial_world)
  = Ret (JStr "https://api.example.com").
Proof. vm_compute. reflexivity. Qed.

(* ========================================================================= *)
(** * Further properties of the code *)

(** ** The health check stops at the first healthy answer *)

Lemma sleeps_app (t1 t2 : list event) : sleeps (t1 ++ t2) = (sleeps t1 ++ sleeps t2)%list.
Proof.
  induction t1 as [|ev t1 IH]; [reflexivity|].
  destruct ev; simpl; rewrite IH; reflexivity.
Qed.

Lemma timeouts_app (t1 t2 : list event) :
  timeouts (t1 ++ t2) = (timeouts t1 ++ timeouts t2)%list.
Proof.
  induction t1 as [|ev t1 IH]; [reflexivity|].
  destruct ev; simpl; rewrite IH; reflexivity.
Qed.

Section HealthLoop.
Variable E : env.
Variable body : nat -> M (option health_result).
Variable wr : wire.
Variable url : jsval.
Variable retries : nat.

Hypothesis body_healthy :
  forall i w, healthy_answer (net E (clock w) wr) = true ->
    body i w = (Ret (Some (mkHealth true (Some url) None)), advance 1 [Http wr] w).

Hypothesis body_unhealthy :
  forall i w, healthy_answer (net E (clock w) wr) = false ->
    exists r evs,
      body i w = (Ret r, advance 1 (Http wr :: evs) w) /\ http_count evs = 0 /\
      (r = None \/ (S i = retries /\ exists h, r = Some h /\ success h = false)).

Lemma health_loop_spec (n i : nat) (w : world) :
  i + n = retries ->
  exists r k evs,
    for_loop body (ret (mkHealth false None None)) n i w = (Ret r, advance k evs w) /\
    k <= n /\ http_count evs = k /\
    (success r = true ->
     r = mkHealth true (Some url) None /\ 1 <= k /\
     healthy_answer (net E (clock w + (k - 1)) wr) = true /\
     forall j, j < k - 1 -> healthy_answer (net E (clock w + j) wr) = false) /\
    (success r = false ->
     k = n /\ forall j, j < n -> healthy_answer (net E (clock w + j) wr) = false).
Proof.
  revert i w. induction n as [|n IH]; intros i w Hin.
  - exists (mkHealth false None None), 0, []. simpl. unfold ret. rewrite advance_0.
    repeat split; try reflexivity; try discriminate; intros; lia.
  - simpl for_loop.
    destruct (healthy_answer (net E (clock w) wr)) eqn:Hh.
    + rewrite (bind_run _ _ _ _ _ (body_healthy i w Hh)).
      exists (mkHealth true (Some url) None), 1, [Http wr].
      split; [reflexivity|]. split; [lia|]. split; [reflexivity|].
      split; [|discriminate].
      intros _. split; [reflexivity|]. split; [lia|].
      split; [simpl; rewrite Nat.add_0_r; exact Hh | intros j Hj; simpl in Hj; lia].
    + destruct (body_unhealthy i w Hh) as (r & evs1 & Hrun & Hc1 & Hr).
      rewrite (bind_run _ _ _ _ _ Hrun).
      assert (Hcount1 : http_count (Http wr :: evs1) = 1)
        by (rewrite http_count_cons, Hc1; reflexivity).
      destruct Hr as [-> | (Hlast & h & -> & Hfail)].
      * destruct (IH (S i) (advance 1 (Http wr :: evs1) w) ltac:(lia))
          as (r & k & evs & Hloop & Hk & Hc & Ht & Hf).
        exists r, (1 + k), ((Http wr :: evs1) ++ evs)%list.
        rewrite Hloop, advance_advance.
        split; [reflexivity|]. split; [lia|].
        split; [rewrite http_count_app, Hcount1, Hc; reflexivity|].
        split.
        -- intros Hs. destruct (Ht Hs) as (Hr & Hk1 & Hans & Hbefore).
           split; [exact Hr|]. split; [lia|]. split.
           ++ replace (clock w + (1 + k - 1))
                with (clock (advance 1 (Http wr :: evs1) w) + (k - 1)) by (simpl; lia).
              exact Hans.
           ++ intros j Hj. destruct j as [|j]; [rewrite Nat.add_0_r; exact Hh|].
              replace (clock w + S j)
                with (clock (advance 1 (Http wr :: evs1) w) + j) by (simpl; lia).
              apply Hbefore. lia.
        -- intros Hs. destruct (Hf Hs) as [Hkn Hall]. split; [lia|].
           intros j Hj. destruct j as [|j]; [rewrite Nat.add_0_r; exact Hh|].
           replace (clock w + S j)
             with (clock (advance 1 (Http wr :: evs1) w) + j) by (simpl; lia).
           apply Hall. lia.
      * assert (n = 0) by lia. subst n.
        exists h, 1, (Http wr :: evs1).
        split; [reflexivity|]. split; [lia|]. split; [exact Hcount1|].
        split; [rewrite Hfail; discriminate|].
        intros _. split; [reflexivity|].
        intros j Hj. assert (j = 0) by lia. subst j. rewrite Nat.add_0_r. exact Hh.
Qed.

End HealthLoop.

Lemma direct_checkApiHealth_spec (E : env) (url : jsval) (retries : nat) (w : world) :
  let wr := probe_wire (Direct.healthUrl (Direct.clean url)) 10000 in
  exists r k evs,
    Direct.checkApiHealth E url retries w = (Ret r, advance k evs w) /\
    k <= retries /\ http_count evs = k /\
    (success r = true ->
     r = mkHealth true (Some url) None /\ 1 <= k /\
     healthy_answer (net E (clock w + (k - 1)) wr) = true /\
     forall j, j < k - 1 -> healthy_answer (net E (clock w + j) wr) = false) /\
    (success r = false ->
     k = retries /\ forall j, j < retries -> healthy_answer (net E (clock w + j) wr) = false).
Proof.
  intros wr. unfold Direct.checkApiHealth.
  apply (health_loop_spec E _ wr url retries); [| |reflexivity].
  - intros i w0 Hh.
    pose proof (direct_body_run E url retries i w0) as Hrun. cbv zeta in Hrun.
    fold wr in Hrun. rewrite Hrun.
    destruct (net E (clock w0) wr) as [r|code msg]; [|discriminate].
    simpl in Hh. apply andb_prop in Hh. destruct Hh as [Hs Hb]. rewrite Hs, Hb. reflexivity.
  - intros i w0 Hh.
    pose proof (direct_body_run E url retries i w0) as Hrun. cbv zeta in Hrun.
    fold wr in Hrun. rewrite Hrun.
    destruct (net E (clock w0) wr) as [r|code msg].
    + simpl in Hh. destruct (below_500 (r_status r)).
      * simpl in Hh. rewrite Hh.
        exists None, []. split; [reflexivity|]. split; [reflexivity | left; reflexivity].
      * destruct (S i =? retries) eqn:Hl.
        -- apply Nat.eqb_eq in Hl. eexists; exists [].
           split; [reflexivity|]. split; [reflexivity|]. right.
           split; [exact Hl|]. eexists; split; reflexivity.
        -- exists None; eexists. split; [reflexivity|]. split; [reflexivity | left; reflexivity].
    + destruct (S i =? retries) eqn:Hl.
      * apply Nat.eqb_eq in Hl. eexists; exists [].
        split; [reflexivity|]. split; [reflexivity|]. right.
        split; [exact Hl|]. eexists; split; reflexivity.
      * exists None; eexists. split; [reflexivity|]. split; [reflexivity | left; reflexivity].
Qed.

Lemma autodetect_checkApiHealth_spec (E : env) (url : jsval) (retries : nat) (w : world) :
  let wr := probe_wire (template url ++ "/api/health") 5000 in
  exists r k evs,
    AutoDetect.checkApiHealth E url retries w = (Ret r, advance k evs w) /\
    k <= retries /\ http_count evs = k /\
    (success r = true ->
     r = mkHealth true (Some url) None /\ 1 <= k /\
     healthy_answer (net E (clock w + (k - 1)) wr) = true /\
     forall j, j < k - 1 -> healthy_answer (net E (clock w + j) wr) = false) /\
    (success r = false ->
     k = retries /\ forall j, j < retries -> healthy_answer (net E (clock w + j) wr) = false).
Proof.
  intros wr. unfold AutoDetect.checkApiHealth.
  apply (health_loop_spec E _ wr url retries); [| |reflexivity].
  - intros i w0 Hh.
    pose proof (autodetect_body_run E url retries i w0) as Hrun. cbv zeta in Hrun.
    fold wr in Hrun. rewrite Hrun.
    destruct (net E (clock w0) wr) as [r|code msg]; [|discriminate].
    simpl in Hh. apply andb_prop in Hh. destruct Hh as [Hs Hb]. rewrite Hs, Hb. reflexivity.
  - intros i w0 Hh.
    pose proof (autodetect_body_run E url retries i w0) as Hrun. cbv zeta in Hrun.
    fold wr in Hrun. rewrite Hrun.
    destruct (net E (clock w0) wr) as [r|code msg].
    + simpl in Hh. destruct (below_500 (r_status r)).
      * simpl in Hh. rewrite Hh.
        exists None, []. split; [reflexivity|]. split; [reflexivity | left; reflexivity].
      * destruct (S i =? retries) eqn:Hl.
        -- apply Nat.eqb_eq in Hl. eexists; exists [].
           split; [reflexivity|]. split; [reflexivity|]. right.
           split; [exact Hl|]. eexists; split; reflexivity.
        -- exists None; eexists. split; [reflexivity|]. split; [reflexivity | left; reflexivity].
    + destruct (S i =? retries) eqn:Hl.
      * apply Nat.eqb_eq in Hl. eexists; exists [].
        split; [reflexivity|]. split; [reflexivity|]. right.
        split; [exact Hl|]. eexists; split; reflexivity.
      * exists None; eexists. split; [reflexivity|]. split; [reflexivity | left; reflexivity].
Qed.

(** X1: in both variants [checkApiHealth] reports success exactly when one of
    its attempts is answered healthy (status below 500, body status "ok"): it
    stops at the first such attempt, whatever happened to the attempts before
    it, and returns [{success: true, url}] with the url it was given; it
    reports failure only after all [retries] attempts went unanswered or
    unhealthy. *)
Theorem checkApiHealth_stops_at_first_healthy_answer
  (E : env) (url : jsval) (retries : nat) (w : world) :
  let dwr := probe_wire (Direct.healthUrl (Direct.clean url)) 10000 in
  let awr := probe_wire (template url ++ "/api/health") 5000 in
  (exists r k evs,
      Direct.checkApiHealth E url retries w = (Ret r, advance k evs w) /\
      k <= retries /\ http_count evs = k /\
      (success r = true ->
       r = mkHealth true (Some url) None /\ 1 <= k /\
       healthy_answer (net E (clock w + (k - 1)) dwr) = true /\
       forall j, j < k - 1 -> healthy_answer (net E (clock w + j) dwr) = false) /\
      (success r = false ->
       k = retries /\
       forall j, j < retries -> healthy_answer (net E (clock w + j) dwr) = false)) /\
  (exists r k evs,
      AutoDetect.checkApiHealth E url retries w = (Ret r, advance k evs w) /\
      k <= retries /\ http_count evs = k /\
      (success r = true ->
       r = mkHealth true (Some url) None /\ 1 <= k /\
       healthy_answer (net E (clock w + (k - 1)) awr) = true /\
       forall j, j < k - 1 -> healthy_answer (net E (clock w + j) awr) = false) /\
      (success r = false ->
       k = retries /\
       forall j, j < retries -> healthy_answer (net E (clock w + j) awr) = false)).
Proof.
  intros dwr awr. split.
  - apply direct_checkApiHealth_spec.
  - apply autodetect_checkApiHealth_spec.
Qed.

(** ** The waiting budget of the wake-up orchestrator *)

Ltac finish_wait_case :=
  cbv [bind ret sleep console_log console_warn modify];
  repeat rewrite emit_advance; cbn [app];
  do 2 eexists; split; [reflexivity|];
  split; [reflexivity|]; split; [reflexivity|]; split; [reflexivity|].

Section WakeBudget.
Variable E : env.
Variable apiUrl : jsval.

(** One wake-up attempt, with what it waits for: nothing when it ends the
    loop, [2000 * attempt] ms when another attempt follows. *)
Lemma wakeUpServer_body_waits (attempt : nat) (w : world) :
  attempt <= AutoDetect.maxRetries ->
  exists r evs,
    AutoDetect.wakeUpServer_body E apiUrl attempt w =
      (Ret r, advance 1 (Http (wake_wire apiUrl attempt) :: evs) w) /\
    http_count evs = 0 /\ timeouts evs = [] /\
    sleeps evs = match r with
                 | None => if attempt =? AutoDetect.maxRetries then []
                           else [(2000 * N.of_nat attempt)%N]
                 | Some _ => []
                 end /\
    (if healthy_answer (net E (clock w) (wake_wire apiUrl attempt))
     then r = Some true
     else r = None \/ (r = Some false /\ attempt = AutoDetect.maxRetries)).
Proof.
  intros Hle.
  assert (Hlt : (attempt <? AutoDetect.maxRetries) = negb (attempt =? AutoDetect.maxRetries)).
  { destruct (attempt =? AutoDetect.maxRetries) eqn:He; simpl.
    - apply Nat.eqb_eq in He. apply Nat.ltb_ge. lia.
    - apply Nat.eqb_neq in He. apply Nat.ltb_lt. lia. }
  unfold AutoDetect.wakeUpServer_body, axios_get.
  rewrite Hlt.
  unfold bind at 1. unfold try_catch. unfold bind at 1.
  rewrite dispatch_run.
  change (wire_of (mkRequest "get" (JStr (template apiUrl ++ "/api/health")) JUndefined
                     (Some (if attempt =? 1 then 5000%N else 15000%N)) false))
    with (wake_wire apiUrl attempt).
  destruct (net E (clock w) (wake_wire apiUrl attempt)) as [r|code msg];
    cbn [healthy_answer].
  - destruct (below_500 (r_status r)); cbn [andb].
    + destruct (body_ok r).
      * finish_wait_case. reflexivity.
      * destruct (attempt =? AutoDetect.maxRetries); cbn [negb];
          finish_wait_case; left; reflexivity.
    + cbn [e_code status_error].
      rewrite !status_code_is_str by discriminate. cbn [orb].
      destruct (attempt =? AutoDetect.maxRetries) eqn:Hlast; cbn [negb].
      * apply Nat.eqb_eq in Hlast.
        finish_wait_case. right. split; [reflexivity | exact Hlast].
      * finish_wait_case; left; reflexivity.
  - cbn [e_code transport_error]. unfold is_str, js_eqb.
    destruct (attempt =? AutoDetect.maxRetries) eqn:Hlast; cbn [negb];
      [apply Nat.eqb_eq in Hlast|];
      destruct (String.eqb code "ERR_NAME_NOT_RESOLVED");
      try destruct (String.eqb code "ECONNABORTED");
      try destruct (String.eqb code "ETIMEDOUT"); cbn [orb];
        finish_wait_case;
        first [left; reflexivity | right; split; [reflexivity | exact Hlast]].
Qed.

Lemma wake_loop_waits (n i : nat) (w : world) :
  i + n = S AutoDetect.maxRetries ->
  exists b k evs,
    for_loop (AutoDetect.wakeUpServer_body E apiUrl) (ret false) n i w =
      (Ret b, advance k evs w) /\
    k <= n /\ (0 < n -> 1 <= k) /\
    sleeps evs = map wake_sleep (seq i (k - 1)) /\
    timeouts evs = map wake_timeout (seq i k) /\
    (healthy_answer (net E (clock w) (wake_wire apiUrl i)) = true -> 0 < n ->
     b = true /\ k = 1).
Proof.
  revert i w. induction n as [|n IH]; intros i w Hin.
  - exists false, 0, []. simpl. unfold ret. rewrite advance_0.
    repeat split; try reflexivity; try lia.
  - destruct (wakeUpServer_body_waits i w ltac:(unfold AutoDetect.maxRetries in *; lia))
      as (r & evs1 & Hrun & _ & Ht1 & Hs1 & Hr).
    simpl for_loop. rewrite (bind_run _ _ _ _ _ Hrun).
    destruct r as [b|].
    + exists b, 1, (Http (wake_wire apiUrl i) :: evs1).
      split; [reflexivity|]. split; [lia|]. split; [lia|].
      split; [simpl; exact Hs1|].
      split; [simpl; rewrite Ht1; reflexivity|].
      intros Hh _. rewrite Hh in Hr. injection Hr as ->. split; reflexivity.
    + destruct (IH (S i) (advance 1 (Http (wake_wire apiUrl i) :: evs1) w) ltac:(lia))
        as (b & k & evs & Hloop & Hk & Hk1 & Hs & Ht & _).
      exists b, (1 + k), ((Http (wake_wire apiUrl i) :: evs1) ++ evs)%list.
      rewrite Hloop, advance_advance.
      split; [reflexivity|]. split; [lia|]. split; [lia|].
      rewrite sleeps_app, timeouts_app, Hs, Ht.
      change (sleeps (Http (wake_wire apiUrl i) :: evs1)) with (sleeps evs1).
      change (timeouts (Http (wake_wire apiUrl i) :: evs1))
        with (wake_timeout i :: timeouts evs1).
      rewrite Hs1, Ht1.
      split; [|split; [reflexivity|]].
      * destruct (i =? AutoDetect.maxRetries) eqn:Hlast.
        -- apply Nat.eqb_eq in Hlast.
           assert (k = 0) by (unfold AutoDetect.maxRetries in *; lia). subst k.
           reflexivity.
        -- apply Nat.eqb_neq in Hlast.
           assert (1 <= k) by (apply Hk1; unfold AutoDetect.maxRetries in *; lia).
           replace (1 + k - 1) with (S (k - 1)) by lia. reflexivity.
      * intros Hh _. rewrite Hh in Hr. discriminate Hr.
Qed.

End WakeBudget.

(** X2: [wakeUpServer] on a non-empty URL waits exactly [2000 * j] ms after
    each attempt [j] that is followed by another one and never after its last
    attempt; its probes carry the timeouts 5000, 15000, 15000 ms in this
    order; so one call waits at most 6000 ms and allows its probes at most
    35000 ms.  When the first probe is answered healthy it returns [true]
    after that one probe, without waiting. *)
Theorem wakeUpServer_waiting_budget (E : env) (url : jsval) (w : world) :
  truthy url = true ->
  exists b k evs,
    AutoDetect.wakeUpServer E url w = (Ret b, advance k evs w) /\
    1 <= k <= 3 /\
    sleeps evs = map wake_sleep (seq 1 (k - 1)) /\
    timeouts evs = map wake_timeout (seq 1 k) /\
    (total (sleeps evs) <= 6000)%N /\ (total (timeouts evs) <= 35000)%N /\
    (healthy_answer (net E (clock w) (wake_wire url 1)) = true ->
     b = true /\ k = 1 /\ sleeps evs = []).
Proof.
  intros Ht. unfold AutoDetect.wakeUpServer. rewrite Ht. simpl negb.
  rewrite (bind_run _ _ w w url eq_refl).
  destruct (wake_loop_waits E url AutoDetect.maxRetries 1 w eq_refl)
    as (b & k & evs & Hloop & Hk & Hk1 & Hs & Hto & Hfirst).
  assert (H1 : 1 <= k) by (apply Hk1; unfold AutoDetect.maxRetries; lia).
  unfold AutoDetect.maxRetries in Hk.
  exists b, k, evs. split; [exact Hloop|]. split; [lia|].
  split; [exact Hs|]. split; [exact Hto|].
  rewrite Hs, Hto.
  assert (Hcases : k = 1 \/ k = 2 \/ k = 3) by lia.
  split; [|split].
  - destruct Hcases as [-> | [-> | ->]]; vm_compute; discriminate.
  - destruct Hcases as [-> | [-> | ->]]; vm_compute; discriminate.
  - intros Hh. destruct (Hfirst Hh) as [Hb Hk']; [unfold AutoDetect.maxRetries; lia|].
    subst k. split; [exact Hb|]. split; reflexivity.
Qed.

(** X2 at a concrete input: a backend that is already awake. *)
Lemma wakeUpServer_waiting_budget_witness :
  exists b k evs,
    AutoDetect.wakeUpServer env_slashes (JStr localUrl) initial_world
      = (Ret b, advance k evs initial_world) /\
    1 <= k <= 3 /\ (total (sleeps evs) <= 6000)%N.
Proof.
  destruct (wakeUpServer_waiting_budget env_slashes (JStr localUrl) initial_world eq_refl)
    as (b & k & evs & H & Hk & _ & _ & Hs & _).
  exists b, k, evs. split; [exact H|]. split; [exact Hk | exact Hs].
Defined.

(** ** Auto-detection only answers URLs that were probed healthy *)

Section Detection.
Variable E : env.

Lemma detect_candidates_sound (urls : list string) (w : world) :
  exists u k evs,
    AutoDetect.detect_candidates E urls w = (Ret u, advance k evs w) /\
    k <= 2 * length urls /\ http_count evs = k /\
    (u = JNull \/
     exists c j,
       In c urls /\ u = JStr c /\ j < k /\
       healthy_answer (net E (clock w + j) (probe_wire (c ++ "/api/health") 5000)) = true).
Proof.
  revert w. induction urls as [|url rest IH]; intros w.
  - exists JNull, 0,
      [ConsoleWarn "Could not auto-detect API URL. Please set VITE_API_URL environment variable."].
    split; [reflexivity|]. split; [simpl; lia|]. split; [reflexivity | left; reflexivity].
  - simpl AutoDetect.detect_candidates.
    destruct (autodetect_checkApiHealth_spec E (JStr url) 2 w)
      as (h & k1 & e1 & Hrun & Hk1 & Hc1 & Ht & Hf).
    unfold bind at 1. unfold try_catch. rewrite (bind_run _ _ _ _ _ Hrun).
    destruct (success h) eqn:Hs.
    + destruct (Ht eq_refl) as (_ & Hpos & Hans & _).
      cbv [bind console_log modify ret]. rewrite emit_advance.
      exists (JStr url), k1, (e1 ++ [ConsoleLog ("Auto-detected API URL: " ++ url)])%list.
      split; [reflexivity|]. split; [simpl; lia|].
      split; [rewrite http_count_app, Hc1; unfold http_count; simpl; lia|].
      right. exists url, (k1 - 1). split; [left; reflexivity|].
      split; [reflexivity|]. split; [lia | exact Hans].
    + unfold ret at 1.
      destruct (IH (advance k1 e1 w)) as (u & k2 & e2 & Hrest & Hk2 & Hc2 & Hu).
      rewrite Hrest, advance_advance.
      exists u, (k1 + k2), (e1 ++ e2)%list.
      split; [reflexivity|]. split; [simpl length; lia|].
      split; [rewrite http_count_app; lia|].
      destruct Hu as [-> | (c & j & Hin & -> & Hj & Hans)]; [left; reflexivity|].
      right. exists c, (k1 + j). split; [right; exact Hin|].
      split; [reflexivity|]. split; [lia|].
      replace (clock w + (k1 + j)) with (clock (advance k1 e1 w) + j) by (simpl; lia).
      exact Hans.
Qed.

Lemma detectApiUrl_sound (w : world) :
  exists u k evs,
    AutoDetect.detectApiUrl E w = (Ret u, advance k evs w) /\
    k <= 6 /\ http_count evs = k /\
    (u = JNull \/
     ((u = VITE_API_URL E \/ is_candidate u) /\ truthy u = true /\
      exists j, j < k /\
        healthy_answer (net E (clock w + j)
                          (probe_wire (template u ++ "/api/health") 5000)) = true)) /\
    (truthy (VITE_API_URL E) = true ->
     (exists j, j < 2 /\
        healthy_answer (net E (clock w + j)
                          (probe_wire (template (VITE_API_URL E) ++ "/api/health") 5000))
        = true) ->
     u = VITE_API_URL E).
Proof.
  unfold AutoDetect.detectApiUrl.
  assert (Hcand : forall w0,
             exists u k evs,
               AutoDetect.detect_candidates E AutoDetect.possibleUrls w0
                 = (Ret u, advance k evs w0) /\
               k <= 4 /\ http_count evs = k /\
               (u = JNull \/
                (is_candidate u /\ truthy u = true /\
                 exists j, j < k /\
                   healthy_answer (net E (clock w0 + j)
                                     (probe_wire (template u ++ "/api/health") 5000))
                   = true))).
  { intros w0.
    destruct (detect_candidates_sound AutoDetect.possibleUrls w0)
      as (u & k & evs & Hrun & Hk & Hc & Hu).
    exists u, k, evs. split; [exact Hrun|]. split; [exact Hk|]. split; [exact Hc|].
    destruct Hu as [-> | (c & j & Hin & -> & Hj & Hans)]; [left; reflexivity|].
    right. split; [exists c; auto|]. split.
    - unfold AutoDetect.possibleUrls in Hin. apply filter_In in Hin.
      simpl. apply Hin.
    - exists j. auto. }
  destruct (truthy (VITE_API_URL E)) eqn:Hv.
  - destruct (autodetect_checkApiHealth_spec E (VITE_API_URL E) 2 w)
      as (h & k1 & e1 & Hrun & Hk1 & Hc1 & Ht & Hf).
    rewrite bind_assoc, (bind_run _ _ _ _ _ Hrun).
    unfold bind at 1. unfold ret at 1.
    destruct (success h) eqn:Hs.
    + destruct (Ht eq_refl) as (_ & Hpos & Hans & _).
      exists (VITE_API_URL E), k1, e1.
      split; [reflexivity|]. split; [lia|]. split; [exact Hc1|].
      split; [|intros _ _; reflexivity].
      right. split; [left; reflexivity|]. split; [exact Hv|].
      exists (k1 - 1). split; [lia | exact Hans].
    + destruct (Hf eq_refl) as [-> Hall].
      destruct (Hcand (advance 2 e1 w)) as (u & k2 & e2 & Hrest & Hk2 & Hc2 & Hu).
      rewrite Hrest, advance_advance.
      exists u, (2 + k2), (e1 ++ e2)%list.
      split; [reflexivity|]. split; [lia|].
      split; [rewrite http_count_app; lia|]. split.
      * destruct Hu as [-> | (Hc & Htr & j & Hj & Hans)]; [left; reflexivity|].
        right. split; [right; exact Hc|]. split; [exact Htr|].
        exists (2 + j). split; [lia|].
        replace (clock w + (2 + j)) with (clock (advance 2 e1 w) + j) by (simpl; lia).
        exact Hans.
      * intros _ (j & Hj & Hans). rewrite (Hall j Hj) in Hans. discriminate.
  - unfold bind at 1. unfold ret at 1.
    destruct (Hcand w) as (u & k2 & e2 & Hrest & Hk2 & Hc2 & Hu).
    rewrite Hrest. exists u, k2, e2.
    split; [reflexivity|]. split; [lia|]. split; [exact Hc2|].
    split; [|intros H; discriminate H].
    destruct Hu as [-> | (Hc & Htr & Hj)]; [left; reflexivity|].
    right. split; [right; exact Hc|]. split; [exact Htr | exact Hj].
Qed.

End Detection.

(** X3: [detectApiUrl] never throws and makes at most 6 probes.  It answers
    [null], the configured URL or one of the two candidate URLs, and it
    answers a URL only if a probe of that URL's health endpoint was answered
    healthy during the call.  A configured URL that answers healthy within
    its two attempts is preferred to every candidate. *)
Theorem detectApiUrl_answers_only_healthy_urls (E : env) (w : world) :
  exists u k evs,
    AutoDetect.detectApiUrl E w = (Ret u, advance k evs w) /\
    k <= 6 /\ http_count evs = k /\
    (u = JNull \/
     ((u = VITE_API_URL E \/ is_candidate u) /\ truthy u = true /\
      exists j, j < k /\
        healthy_answer (net E (clock w + j)
                          (probe_wire (template u ++ "/api/health") 5000)) = true)) /\
    (truthy (VITE_API_URL E) = true ->
     (exists j, j < 2 /\
        healthy_answer (net E (clock w + j)
                          (probe_wire (template (VITE_API_URL E) ++ "/api/health") 5000))
        = true) ->
     u = VITE_API_URL E).
Proof. apply detectApiUrl_sound. Qed.

(** ** Resolution in [AutoDetect] always ends with a usable URL *)

Section Fallback.
Variable E : env.

Lemma js_or_fallback_truthy (v : jsval) : truthy (js_or v (JStr localUrl)) = true.
Proof. unfold js_or. destruct (truthy v) eqn:H; [exact H | reflexivity]. Qed.

Lemma fallback_after_detection (w0 : world) :
  exists u k evs,
    bind (console_warn "API URL not available, attempting auto-detection...")
         (fun _ => bind (AutoDetect.detectApiUrl E)
            (fun detected =>
               if negb (truthy detected)
               then ret (js_or (VITE_API_URL E) (JStr localUrl))
               else ret detected)) w0
    = (Ret u, advance k evs w0) /\
    k <= 6 /\ http_count evs = k /\ truthy u = true /\
    (u = VITE_API_URL E \/ is_candidate u \/ u = JStr localUrl) /\
    ((forall n wr, healthy_answer (net E n wr) = false) ->
     u = js_or (VITE_API_URL E) (JStr localUrl)).
Proof.
  unfold bind at 1. unfold console_warn, modify.
  set (w1 := emit (ConsoleWarn "API URL not available, attempting auto-detection...") w0).
  destruct (detectApiUrl_sound E w1) as (d & k & evs & Hrun & Hk & Hc & Hd & _).
  rewrite (bind_run _ _ _ _ _ Hrun).
  assert (Hw : advance k evs w1
               = advance k ([ConsoleWarn "API URL not available, attempting auto-detection..."]
                              ++ evs) w0).
  { unfold w1. change (emit ?ev w0) with (advance 0 [ev] w0).
    rewrite advance_advance. reflexivity. }
  assert (Hcount : http_count
                     ([ConsoleWarn "API URL not available, attempting auto-detection..."]
                        ++ evs) = k)
    by (rewrite http_count_app, Hc; reflexivity).
  destruct Hd as [-> | (Hwhich & Htr & j & Hj & Hans)].
  - cbn [truthy negb]. unfold ret. rewrite Hw.
    eexists; exists k; eexists. split; [reflexivity|]. split; [exact Hk|].
    split; [exact Hcount|]. split; [apply js_or_fallback_truthy|].
    split; [|intros _; reflexivity].
    unfold js_or. destruct (truthy (VITE_API_URL E)); auto.
  - rewrite Htr. cbn [negb]. unfold ret. rewrite Hw.
    exists d, k; eexists. split; [reflexivity|]. split; [exact Hk|].
    split; [exact Hcount|]. split; [exact Htr|].
    split; [destruct Hwhich; auto|].
    intros Hall. rewrite Hall in Hans. discriminate.
Qed.

Lemma autodetect_resolution_spec (w : world) :
  resolved w = false ->
  exists u k evs,
    AutoDetect.getApiUrlWithFallback E w = (Ret u, set_cache u true (advance k evs w)) /\
    k <= 7 /\ http_count evs = k /\ truthy u = true /\
    (u = AutoDetect.getApiUrl E \/ u = VITE_API_URL E \/ is_candidate u
     \/ u = JStr localUrl) /\
    ((forall n wr, healthy_answer (net E n wr) = false) ->
     u = js_or (VITE_API_URL E) (JStr localUrl)) /\
    (truthy (AutoDetect.getApiUrl E) = true ->
     healthy_answer
       (net E (clock w)
            (probe_wire (template (AutoDetect.getApiUrl E) ++ "/api/health") 5000)) = true ->
     u = AutoDetect.getApiUrl E /\ k = 1).
Proof.
  intros Hres. unfold resolved in Hres.
  unfold AutoDetect.getApiUrlWithFallback. rewrite bind_get_world, Hres.
  destruct (truthy (AutoDetect.getApiUrl E)) eqn:Hg; cbn [negb].
  - destruct (autodetect_checkApiHealth_spec E (AutoDetect.getApiUrl E) 1 w)
      as (h & k1 & e1 & Hrun & Hk1 & Hc1 & Ht & Hf).
    rewrite bind_assoc, (bind_run _ _ _ _ _ Hrun).
    unfold bind at 1. unfold ret at 1.
    destruct (success h) eqn:Hs; cbn [negb].
    + destruct (Ht eq_refl) as (_ & Hpos & Hans & _).
      assert (Hone : k1 = 1) by lia. rewrite Hone in *.
      unfold bind at 1. unfold ret at 1.
      exists (AutoDetect.getApiUrl E), 1, e1.
      split; [reflexivity|]. split; [lia|]. split; [exact Hc1|].
      split; [exact Hg|]. split; [left; reflexivity|]. split.
      * intros Hall. rewrite Hall in Hans. discriminate.
      * intros _ _. split; reflexivity.
    + destruct (Hf eq_refl) as [-> Hall1].
      destruct (fallback_after_detection (advance 1 e1 w))
        as (u & k & evs & Hfb & Hk & Hc & Hu & Hwhich & Hdown).
      rewrite (bind_run _ _ _ _ _ Hfb).
      rewrite advance_advance.
      exists u, (1 + k), (e1 ++ evs)%list.
      split; [reflexivity|]. split; [lia|].
      split; [rewrite http_count_app; lia|].
      split; [exact Hu|]. split; [right; exact Hwhich|].
      split; [exact Hdown|].
      intros _ Hh. specialize (Hall1 0 ltac:(lia)). rewrite Nat.add_0_r in Hall1.
      rewrite Hall1 in Hh. discriminate.
  - rewrite (bind_run _ _ w w true eq_refl).
    destruct (fallback_after_detection w)
      as (u & k & evs & Hfb & Hk & Hc & Hu & Hwhich & Hdown).
    rewrite (bind_run _ _ _ _ _ Hfb).
    exists u, k, evs.
    split; [reflexivity|]. split; [lia|]. split; [exact Hc|].
    split; [exact Hu|]. split; [right; exact Hwhich|].
    split; [exact Hdown | intros H; discriminate H].
Qed.

End Fallback.

(** X4: when no base URL is resolved yet, [getApiUrlWithFallback] of
    [AutoDetect] never throws and never answers [null]: after at most 7
    probes it returns a non-empty URL (the one [getApiUrl] proposes, the
    configured one, a candidate, or the local default), stores it in the
    cache and sets the flag.  If no probe is ever answered healthy the result
    is the configured URL, or the local default when none is configured; if
    the first probe of the proposed URL is answered healthy that URL is the
    result after this single probe. *)
Theorem autodetect_resolution_always_yields_a_url (E : env) (w : world) :
  resolved w = false ->
  exists u k evs,
    AutoDetect.getApiUrlWithFallback E w = (Ret u, set_cache u true (advance k evs w)) /\
    k <= 7 /\ http_count evs = k /\ truthy u = true /\
    (u = AutoDetect.getApiUrl E \/ u = VITE_API_URL E \/ is_candidate u
     \/ u = JStr localUrl) /\
    ((forall n wr, healthy_answer (net E n wr) = false) ->
     u = js_or (VITE_API_URL E) (JStr localUrl)) /\
    (truthy (AutoDetect.getApiUrl E) = true ->
     healthy_answer
       (net E (clock w)
            (probe_wire (template (AutoDetect.getApiUrl E) ++ "/api/health") 5000)) = true ->
     u = AutoDetect.getApiUrl E /\ k = 1).
Proof. apply autodetect_resolution_spec. Qed.

(** X4 at a concrete input: a fresh module and an unreachable backend. *)
Lemma autodetect_resolution_always_yields_a_url_witness :
  exists k evs,
    AutoDetect.getApiUrlWithFallback env_down initial_world
    = (Ret (JStr localUrl), set_cache (JStr localUrl) true (advance k evs initial_world)) /\
    k <= 7.
Proof.
  destruct (autodetect_resolution_always_yields_a_url env_down initial_world eq_refl)
    as (u & k & evs & Hrun & Hk & _ & _ & _ & Hdown & _).
  rewrite (Hdown (fun _ _ => eq_refl)) in Hrun.
  exists k, evs. split; [exact Hrun | exact Hk].
Defined.

(** ** Edge cases of the configured URL in [Direct] *)

Lemma drop_while_all {A} (p : A -> bool) (l : list A) :
  forallb p l = true -> drop_while p l = [].
Proof.
  induction l as [|x l IH]; [reflexivity|].
  simpl. intros H. apply andb_prop in H. destruct H as [Hx Hl].
  rewrite Hx. exact (IH Hl).
Qed.

Lemma forallb_rev_true {A} (p : A -> bool) (l : list A) :
  forallb p l = true -> forallb p (rev l) = true.
Proof.
  intros H. apply forallb_forall. intros x Hx.
  apply in_rev in Hx. exact (proj1 (forallb_forall p l) H x Hx).
Qed.

Lemma strip_end_all (p : ascii -> bool) (s : string) :
  forallb p (list_ascii_of_string s) = true -> strip_end p s = EmptyString.
Proof.
  intros H. unfold strip_end.
  rewrite (drop_while_all p _ (forallb_rev_true p _ H)). reflexivity.
Qed.

Lemma strip_end_noop (p : ascii -> bool) (s : string) :
  match rev (list_ascii_of_string s) with
  | c :: _ => p c = false
  | [] => True
  end ->
  strip_end p s = s.
Proof.
  intros H. unfold strip_end.
  destruct (rev (list_ascii_of_string s)) as [|c r] eqn:Hr.
  - simpl. apply (f_equal (@rev ascii)) in Hr. rewrite rev_involutive in Hr. simpl in Hr.
    rewrite <- (string_of_list_ascii_of_string s), Hr. reflexivity.
  - simpl. rewrite H. rewrite <- Hr, rev_involutive.
    apply string_of_list_ascii_of_string.
Qed.

Lemma list_of_string_app (a b : string) :
  list_ascii_of_string (a ++ b) = (list_ascii_of_string a ++ list_ascii_of_string b)%list.
Proof. induction a as [|c a IH]; [reflexivity | simpl; rewrite IH; reflexivity]. Qed.

(** Each of the 25 code points is removed, from the front and from the end. *)
Lemma trim_start_unit (u l : list ascii) :
  In u white_space -> trim_start (u ++ l)%list = trim_start l.
Proof.
  intros H. unfold white_space in H. cbn [map] in H.
  repeat (destruct H as [<- | H]; [reflexivity|]). destruct H.
Qed.

Lemma drop_units_back_unit (u l : list ascii) :
  In u white_space -> drop_units_back (rev u ++ l)%list = drop_units_back l.
Proof.
  intros H. unfold white_space in H. cbn [map] in H.
  repeat (destruct H as [<- | H]; [reflexivity|]). destruct H.
Qed.

Lemma trim_start_units (units : list (list ascii)) (l : list ascii) :
  Forall (fun u => In u white_space) units ->
  trim_start (concat units ++ l)%list = trim_start l.
Proof.
  induction 1 as [|u units Hu _ IH]; [reflexivity|].
  simpl concat. rewrite <- app_assoc, trim_start_unit by exact Hu. exact IH.
Qed.

Lemma drop_units_back_units (units : list (list ascii)) (l : list ascii) :
  Forall (fun u => In u white_space) units ->
  drop_units_back (rev (concat units) ++ l)%list = drop_units_back l.
Proof.
  intros H. revert l. induction H as [|u units Hu _ IH]; intros l; [reflexivity|].
  simpl concat. rewrite rev_app_distr, <- app_assoc, IH.
  apply drop_units_back_unit, Hu.
Qed.

(** A printable ASCII character is no byte of a white-space code point. *)
Lemma graphic_not_space (a : ascii) :
  is_graphic a = true ->
  is_space a = false /\
  (forall b, is_space2 a b = false /\ is_space2 b a = false) /\
  (forall b c, is_space3 a b c = false /\ is_space3 c b a = false).
Proof.
  unfold is_graphic, is_space, is_space2, is_space3.
  set (n := nat_of_ascii a). intros H.
  apply andb_prop in H. destruct H as [Hlo Hhi].
  apply Nat.leb_le in Hlo. apply Nat.leb_le in Hhi.
  assert (Hle13 : (n <=? 13) = false) by (apply Nat.leb_gt; lia).
  assert (Hge128 : (128 <=? n) = false) by (apply Nat.leb_gt; lia).
  assert (Hne : forall m, m = 32 \/ 127 <= m -> (n =? m) = false)
    by (intros m Hm; apply Nat.eqb_neq; lia).
  rewrite Hle13, Hge128, !Hne by lia.
  split; [rewrite andb_false_r; reflexivity|].
  split; intros; cbn [andb orb]; rewrite ?andb_false_r; split; reflexivity.
Qed.

Lemma trim_start_graphic (a : ascii) (l : list ascii) :
  is_graphic a = true -> trim_start (a :: l) = a :: l.
Proof.
  intros H. destruct (graphic_not_space a H) as (H1 & H2 & H3).
  unfold trim_start. cbn [drop_units]. rewrite H1.
  destruct l as [|b l]; [reflexivity|]. rewrite (proj1 (H2 b)).
  destruct l as [|c l]; [reflexivity|]. rewrite (proj1 (H3 b c)). reflexivity.
Qed.

Lemma drop_units_back_graphic (z : ascii) (l : list ascii) :
  is_graphic z = true -> drop_units_back (z :: l) = z :: l.
Proof.
  intros H. destruct (graphic_not_space z H) as (H1 & H2 & H3).
  unfold drop_units_back. cbn [drop_units]. rewrite H1.
  destruct l as [|b l]; [reflexivity|]. rewrite (proj2 (H2 b)).
  destruct l as [|c l]; [reflexivity|]. rewrite (proj2 (H3 b c)). reflexivity.
Qed.

Lemma trim_blank (s : string) : blank s -> trim s = EmptyString.
Proof.
  intros (units & Hu & Hs). unfold trim. rewrite Hs.
  rewrite <- (app_nil_r (concat units)), trim_start_units by exact Hu.
  reflexivity.
Qed.

(** White space around a text that begins and ends with a printable
    character is removed, and nothing else. *)
Lemma trim_padded (pre core post : string) :
  blank pre -> blank post -> graphic_ends core = true ->
  trim (pre ++ core ++ post) = core.
Proof.
  intros (u1 & Hu1 & Hpre) (u2 & Hu2 & Hpost) Hg. unfold trim, graphic_ends in *.
  rewrite !list_of_string_app, Hpre, Hpost, trim_start_units by exact Hu1.
  destruct (list_ascii_of_string core) as [|a l] eqn:Hcore; [discriminate Hg|].
  destruct (rev (a :: l)) as [|z r] eqn:Hrev; [discriminate Hg|].
  apply andb_prop in Hg. destruct Hg as [Ha Hz].
  cbn [app]. rewrite trim_start_graphic by exact Ha.
  unfold trim_end.
  change (a :: (l ++ concat u2)%list) with ((a :: l) ++ concat u2)%list.
  rewrite rev_app_distr, drop_units_back_units by exact Hu2.
  rewrite Hrev, drop_units_back_graphic by exact Hz.
  rewrite <- Hrev, rev_involutive, <- Hcore.
  apply string_of_list_ascii_of_string.
Qed.

Lemma strip_trailing_slashes_noop (s : string) :
  ends_with_slash s = false -> strip_trailing_slashes s = s.
Proof.
  intros H. apply strip_end_noop. unfold ends_with_slash in H.
  destruct (rev (list_ascii_of_string s)); [exact I | exact H].
Qed.

Lemma trim_nonempty_source (s : string) : trim s <> EmptyString -> is_empty s = false.
Proof. destruct s; [intros H; exfalso; apply H; reflexivity | reflexivity]. Qed.

(** X5: [getApiUrl] of [Direct] falls back to the local default when the
    configured URL is unset, [null], empty or made of white space only (any
    of the code points [trim] removes, the no-break space among them); a
    configured URL that begins and ends with a printable character, padded
    with any white space, resolves to that URL without its trailing slashes;
    a configured URL made only of slashes resolves to the empty string, for
    which the health check probes the relative path [/api/health]; a
    configured URL that, once trimmed, has no trailing slash is used as
    trimmed. *)
Theorem direct_getApiUrl_edge_cases (E : env) :
  (truthy (VITE_API_URL E) = false -> Direct.getApiUrl E = JStr localUrl) /\
  (forall s, VITE_API_URL E = JStr s ->
     (blank s -> Direct.getApiUrl E = JStr localUrl) /\
     (forall pre core post,
         blank pre -> blank post -> graphic_ends core = true ->
         s = (pre ++ core ++ post)%string ->
         Direct.getApiUrl E = JStr (strip_trailing_slashes core)) /\
     (trim s <> EmptyString ->
      forallb is_slash (list_ascii_of_string (trim s)) = true ->
      Direct.getApiUrl E = JStr EmptyString /\
      Direct.healthUrl (Direct.clean (Direct.getApiUrl E)) = "/api/health"%string) /\
     (trim s <> EmptyString -> ends_with_slash (trim s) = false ->
      Direct.getApiUrl E = JStr (trim s))).
Proof.
  unfold Direct.getApiUrl. split.
  - destruct (VITE_API_URL E) as [| |s]; try reflexivity.
    intros H. rewrite H. reflexivity.
  - intros s ->.
    assert (Hne : trim s <> EmptyString ->
                  truthy (JStr s) && truthy (JStr (trim s)) = true).
    { intros Hne. simpl. rewrite (trim_nonempty_source s Hne).
      destruct (trim s); [contradiction | reflexivity]. }
    split; [|split; [|split]].
    + intros Hb. rewrite (trim_blank s Hb). rewrite andb_false_r. reflexivity.
    + intros pre core post Hpre Hpost Hg ->.
      assert (Ht : trim (pre ++ core ++ post) = core) by (apply trim_padded; assumption).
      rewrite Hne; rewrite Ht; [reflexivity|].
      intros ->. discriminate Hg.
    + intros Hn Hsl. rewrite (Hne Hn). unfold strip_trailing_slashes.
      rewrite (strip_end_all is_slash _ Hsl). split; reflexivity.
    + intros Hn Hend.
      rewrite (Hne Hn), (strip_trailing_slashes_noop _ Hend). reflexivity.
Qed.

(** X5 at concrete inputs: a URL of three spaces, a URL padded with spaces
    and no-break spaces, a lone slash, a clean URL between spaces. *)
Lemma direct_getApiUrl_edge_cases_witness :
  Direct.getApiUrl (mkEnv (JStr "   ") "localhost" (net env_down)) = JStr localUrl /\
  Direct.getApiUrl
    (mkEnv (JStr ((nbsp ++ " ") ++ "https://api.example.com/" ++ (" " ++ nbsp)))
           "localhost" (net env_down))
    = JStr (strip_trailing_slashes "https://api.example.com/") /\
  Direct.getApiUrl (mkEnv (JStr "/") "localhost" (net env_down)) = JStr EmptyString /\
  Direct.getApiUrl (mkEnv (JStr " https://api.example.com ") "localhost" (net env_down))
    = JStr "https://api.example.com".
Proof.
  assert (Hsp : In (list_ascii_of_string " ") white_space) by (vm_compute; tauto).
  assert (Hnb : In (list_ascii_of_string nbsp) white_space) by (vm_compute; tauto).
  split; [|split; [|split]].
  - apply (proj1 (proj2 (direct_getApiUrl_edge_cases
                           (mkEnv (JStr "   ") "localhost" (net env_down))) _ eq_refl)).
    exists [list_ascii_of_string " "; list_ascii_of_string " "; list_ascii_of_string " "].
    split; [repeat constructor; exact Hsp | reflexivity].
  - apply (proj1 (proj2 (proj2 (direct_getApiUrl_edge_cases
                           (mkEnv (JStr ((nbsp ++ " ") ++ "https://api.example.com/"
                                          ++ (" " ++ nbsp)))
                                  "localhost" (net env_down))) _ eq_refl))
                 (nbsp ++ " ")%string "https://api.example.com/"%string
                 (" " ++ nbsp)%string).
    + exists [list_ascii_of_string nbsp; list_ascii_of_string " "].
      split; [repeat constructor; assumption | reflexivity].
    + exists [list_ascii_of_string " "; list_ascii_of_string nbsp].
      split; [repeat constructor; assumption | reflexivity].
    + reflexivity.
    + reflexivity.
  - refine (proj1 (proj1 (proj2 (proj2 (proj2 (direct_getApiUrl_edge_cases
                           (mkEnv (JStr "/") "localhost" (net env_down))) _ eq_refl)))
                     _ eq_refl)).
    discriminate.
  - refine (proj2 (proj2 (proj2 (proj2 (direct_getApiUrl_edge_cases
                           (mkEnv (JStr " https://api.example.com ") "localhost"
                                  (net env_down))) _ eq_refl)))
                  _ eq_refl).
    discriminate.
Defined.

(** ** Requests that are not retried *)

(** X6: in [AutoDetect], with a base URL in the cache, a request goes out on
    the cached URL whatever base URL the instance was constructed with or the
    caller passed; and when its answer is anything but a network-class
    failure (a reply of any status, a timeout, any other transport code) the
    interceptor starts no wake-up: the call makes this single network call,
    leaves the module variables alone, returns a 2xx reply unchanged, and
    rejects any other answer with the server's message, the error's own
    message, or the generic text as [userMessage]. *)
Theorem autodetect_retries_only_network_failures
  (E : env) (fuel : nat) (inst : instance) (req : request) (w : world) :
  truthy (cachedApiUrl w) = true ->
  let wr := mkWire (q_method req) (cachedApiUrl w) (q_url req)
                   (match q_timeout req with Some t => t | None => i_timeout inst end) in
  network_failure (net E (clock w) wr) = false ->
  exists o,
    AutoDetect.instance_request E (S fuel) inst req w = (o, advance 1 [Http wr] w) /\
    match net E (clock w) wr with
    | Reply r =>
        if default_validateStatus (r_status r) then o = Ret r
        else exists e, o = Throw e /\ e_response e = Some r /\
                       e_userMessage e = js_or (data_message r) (JStr (e_message e))
    | NetFail code msg =>
        exists e, o = Throw e /\ e_code e = JStr code /\ e_message e = msg /\
                  e_userMessage e = js_or (JStr msg) (JStr "An unexpected error occurred")
    end.
Proof.
  intros Ht wr Hnet.
  rewrite instance_request_unfold. unfold try_catch. rewrite dispatch_run.
  assert (Hwire : wire_of (prepared inst req w) = wr).
  { unfold prepared. rewrite Ht. unfold wr, wire_of, set_baseURL, merge_defaults; cbn.
    destruct (q_timeout req); reflexivity. }
  rewrite Hwire.
  destruct (net E (clock w) wr) as [r|code msg].
  - destruct (default_validateStatus (r_status r)).
    + exists (Ret r). split; reflexivity.
    + rewrite responseRejected_not_network by apply is_network_status_error.
      eexists. split; [reflexivity|].
      eexists. split; [reflexivity|]. split; [reflexivity|].
      cbn. unfold AutoDetect.userMessage_of.
      rewrite is_network_status_error. reflexivity.
  - simpl in Hnet.
    rewrite responseRejected_not_network
      by (rewrite is_network_transport_error; exact Hnet).
    eexists. split; [reflexivity|].
    eexists. split; [reflexivity|]. split; [reflexivity|]. split; [reflexivity|].
    cbn. unfold AutoDetect.userMessage_of.
    rewrite is_network_transport_error, Hnet. reflexivity.
Qed.

(** X6 at a concrete input: the backend answers 500 to a resolved module. *)
Lemma autodetect_retries_only_network_failures_witness :
  exists o,
    AutoDetect.instance_request env_500 1 instance_local (get_request "/api/results")
      world_resolved
    = (o, advance 1 [Http (mkWire "get" (JStr localUrl) (JStr "/api/results") 30000)]
                  world_resolved).
Proof.
  destruct (autodetect_retries_only_network_failures env_500 0 instance_local
              (get_request "/api/results") world_resolved eq_refl eq_refl) as (o & H & _).
  exists o. exact H.
Defined.

(** X7: the instance of [Direct] never retries and never probes: every call
    is exactly one network call, made on the cached URL stripped of trailing
    slashes whatever base URL the instance was constructed with; a 2xx reply
    is returned unchanged, any other answer is rejected carrying the response
    (if any) and the derived [userMessage]; the module variables are left
    alone. *)
Theorem direct_instance_sends_exactly_once
  (E : env) (inst : instance) (req : request) (w : world) (s : string) :
  cachedApiUrl w = JStr s -> is_empty s = false ->
  let wr := mkWire (q_method req) (JStr (strip_trailing_slashes s)) (q_url req)
                   (match q_timeout req with Some t => t | None => i_timeout inst end) in
  exists o,
    Direct.instance_request E inst req w = (o, advance 1 [Http wr] w) /\
    match net E (clock w) wr with
    | Reply r =>
        if default_validateStatus (r_status r) then o = Ret r
        else exists e, o = Throw e /\ e_response e = Some r /\
                       e_userMessage e = Direct.userMessage_of e
    | NetFail code msg =>
        exists e, o = Throw e /\ e_code e = JStr code /\ e_message e = msg /\
                  e_response e = None /\ e_userMessage e = Direct.userMessage_of e
    end.
Proof.
  intros Hc Hne wr. unfold Direct.instance_request.
  assert (Hreq : Direct.requestFulfilled (merge_defaults inst req) w
                 = (Ret (mkRequest (q_method req) (q_url req)
                                   (JStr (strip_trailing_slashes s))
                                   (q_timeout (merge_defaults inst req)) (q_retry req)), w)).
  { unfold Direct.requestFulfilled. rewrite bind_get_world, Hc.
    unfold truthy. rewrite Hne. reflexivity. }
  rewrite (bind_run _ _ _ _ _ Hreq).
  unfold try_catch. rewrite dispatch_run.
  assert (Hwire : wire_of (mkRequest (q_method req) (q_url req)
                             (JStr (strip_trailing_slashes s))
                             (q_timeout (merge_defaults inst req)) (q_retry req)) = wr).
  { unfold wr, wire_of, merge_defaults; cbn. destruct (q_timeout req); reflexivity. }
  rewrite Hwire.
  destruct (net E (clock w) wr) as [r|code msg].
  - destruct (default_validateStatus (r_status r)).
    + exists (Ret r). split; reflexivity.
    + eexists. split; [reflexivity|]. eexists. repeat split.
  - eexists. split; [reflexivity|]. eexists. repeat split.
Qed.

(** X7 at a concrete input: a cached URL with a trailing slash. *)
Lemma direct_instance_sends_exactly_once_witness :
  exists o,
    Direct.instance_request env_down (mkInstance 0 (JStr "http://stale.example") 30000)
      (get_request "/api/results")
      (set_cache (JStr "http://localhost:5000/") true initial_world)
    = (o, advance 1 [Http (mkWire "get" (JStr localUrl) (JStr "/api/results") 30000)]
                  (set_cache (JStr "http://localhost:5000/") true initial_world)).
Proof.
  destruct (direct_instance_sends_exactly_once env_down
              (mkInstance 0 (JStr "http://stale.example") 30000)
              (get_request "/api/results")
              (set_cache (JStr "http://localhost:5000/") true initial_world)
              "http://localhost:5000/" eq_refl eq_refl) as (o & H & _).
  exists o. exact H.
Defined.

(** ** The request handed back for the retry *)

Lemma string_app_assoc (a b c : string) : ((a ++ b) ++ c = a ++ (b ++ c))%string.
Proof. induction a as [|x a IH]; [reflexivity | simpl; rewrite IH; reflexivity]. Qed.

Lemma string_of_list_app (l1 l2 : list ascii) :
  string_of_list_ascii (l1 ++ l2)
  = (string_of_list_ascii l1 ++ string_of_list_ascii l2)%string.
Proof. induction l1 as [|x l1 IH]; [reflexivity | simpl; rewrite IH; reflexivity]. Qed.

Lemma substring_all (s : string) : substring 0 (String.length s) s = s.
Proof. induction s as [|c s IH]; [reflexivity | simpl; rewrite IH; reflexivity]. Qed.

Lemma prefix_split (p s : string) :
  String.prefix p s = true ->
  s = (p ++ substring (String.length p) (String.length s - String.length p) s)%string.
Proof.
  revert s. induction p as [|a p IH]; intros s H.
  - simpl. rewrite Nat.sub_0_r, substring_all. reflexivity.
  - destruct s as [|b s]; [discriminate H|].
    simpl in H. destruct (ascii_dec a b) as [->|]; [|discriminate H].
    simpl. f_equal. apply IH. exact H.
Qed.

Lemma split_at_first_sound (pat s : string) (acc : list ascii) (b a : string) :
  split_at_first pat s acc = Some (b, a) ->
  (string_of_list_ascii (rev acc) ++ s = b ++ pat ++ a)%string.
Proof.
  revert acc. induction s as [|c s IH]; intros acc H.
  - cbn [split_at_first] in H.
    destruct (String.prefix pat EmptyString) eqn:Hp; [|discriminate H].
    injection H as <- <-. f_equal. apply prefix_split. exact Hp.
  - cbn [split_at_first] in H.
    destruct (String.prefix pat (String c s)) eqn:Hp.
    + injection H as <- <-. f_equal. apply prefix_split. exact Hp.
    + apply IH in H. rewrite <- H. simpl rev.
      rewrite string_of_list_app, string_app_assoc. reflexivity.
Qed.

Lemma expand_replacement_plain (rep matched before after : string) :
  has_dollar rep = false -> expand_replacement rep matched before after = rep.
Proof.
  induction rep as [|c rep IH]; [reflexivity|].
  unfold has_dollar. simpl. intros H. apply orb_false_elim in H. destruct H as [Hc Hrest].
  rewrite Hc. f_equal. apply IH. exact Hrest.
Qed.

(** Replacing the first occurrence of a text by the same text changes nothing,
    unless the text contains a [$] (which [replace] would expand). *)
Lemma js_replace_same (p u : string) : has_dollar u = false -> js_replace p u u = p.
Proof.
  intros H. unfold js_replace.
  destruct (split_at_first u p []) as [[b a]|] eqn:Hs; [|reflexivity].
  rewrite (expand_replacement_plain u u b a H).
  apply split_at_first_sound in Hs. simpl in Hs. symmetry. exact Hs.
Qed.

Section HandBack.
Variable E : env.

Lemma resolved_after_events (k : nat) (evs : list event) (w : world) :
  resolved (advance k evs w) = resolved w.
Proof. reflexivity. Qed.

Lemma retry_decision_hand_back (config : request) (w : world) :
  exists o w',
    AutoDetect.retry_decision E config w = (o, w') /\
    resolved w' = true /\
    apiInstance w' = apiInstance w /\ created w' = created w /\
    forall q, o = Ret (Some q) ->
      q_method q = q_method config /\ q_timeout q = q_timeout config /\
      q_retry q = q_retry config /\ q_baseURL q = cachedApiUrl w' /\
      (has_dollar (template (cachedApiUrl w')) = false -> q_url q = q_url config).
Proof.
  unfold AutoDetect.retry_decision.
  destruct (autodetect_getApiUrlWithFallback_total E w)
    as (u & w1 & Hget & Hq1 & Hu & Hcache1 & Hflag1).
  apply quietly_instance in Hq1. destruct Hq1 as [Hi1 Hc1].
  rewrite (bind_run _ _ _ _ _ Hget).
  destruct (wakeUpServer_run E u w1 Hu) as (b & k & evs & Hwake & _).
  rewrite (bind_run _ _ _ _ _ Hwake).
  destruct b.
  - eexists; eexists. split; [reflexivity|].
    split; [unfold resolved; simpl; rewrite Hcache1, Hu, Hflag1; reflexivity|].
    split; [simpl; exact Hi1|]. split; [simpl; exact Hc1|].
    intros q Hq. injection Hq as <-. simpl. rewrite Hcache1. auto.
  - set (w3 := set_cache JNull false
                 (emit (ConsoleWarn "Wake-up failed, refreshing API URL...")
                       (advance k evs w1))).
    destruct (autodetect_getApiUrlWithFallback_total E w3)
      as (u' & w4 & Hget' & Hq4 & Hu' & Hcache4 & Hflag4).
    apply quietly_instance in Hq4. destruct Hq4 as [Hi4 Hc4].
    assert (Hrun : forall (k0 : jsval -> M (option request)),
               bind (console_warn "Wake-up failed, refreshing API URL...")
                    (fun _ => bind (modify (set_cache JNull false))
                       (fun _ => bind (AutoDetect.getApiUrlWithFallback E) k0))
                    (advance k evs w1) = k0 u' w4).
    { intros k0. unfold bind at 1. unfold console_warn, modify at 1.
      unfold bind at 1. unfold modify at 1. fold w3.
      apply (bind_run _ _ _ _ _ Hget'). }
    rewrite Hrun.
    assert (Hres4 : resolved w4 = true)
      by (unfold resolved; rewrite Hcache4, Hu', Hflag4; reflexivity).
    assert (Hinst : apiInstance w4 = apiInstance w /\ created w4 = created w).
    { rewrite Hi4, Hc4. unfold w3. simpl. auto. }
    destruct (negb (js_eqb u' u)).
    + cbn [q_url set_baseURL].
      destruct (q_url config) as [| |p] eqn:Hp; unfold throw, ret;
        eexists; eexists; (split; [reflexivity|]); (split; [exact Hres4|]);
        (split; [apply Hinst|]); (split; [apply Hinst|]);
        intros q Hq; try discriminate Hq.
      injection Hq as <-. cbn. rewrite Hcache4.
      repeat split; try reflexivity.
      intros Hd. unfold js_or. rewrite Hu'. rewrite (js_replace_same p _ Hd). reflexivity.
    + eexists; eexists. split; [reflexivity|]. split; [exact Hres4|].
      split; [apply Hinst|]. split; [apply Hinst|].
      intros q Hq. discriminate Hq.
Qed.

End HandBack.

(** X8: whenever the [try] block of the interceptor hands the request back to
    the instance, the request keeps its method, timeout and marker, carries
    the URL that is now cached as base URL, and (unless that URL contains a
    [$], which [String.prototype.replace] would expand) keeps its [url]: the
    rewrite of [originalRequest.url] changes nothing.  Whatever the outcome,
    the block leaves a resolved base URL in the cache and does not touch the
    instance singleton. *)
Theorem retried_request_differs_only_in_base_url
  (E : env) (config : request) (w : world) :
  exists o w',
    AutoDetect.retry_decision E config w = (o, w') /\
    resolved w' = true /\
    apiInstance w' = apiInstance w /\ created w' = created w /\
    forall q, o = Ret (Some q) ->
      q_method q = q_method config /\ q_timeout q = q_timeout config /\
      q_retry q = q_retry config /\ q_baseURL q = cachedApiUrl w' /\
      (has_dollar (template (cachedApiUrl w')) = false -> q_url q = q_url config).
Proof. apply retry_decision_hand_back. Qed.

(** ** Requests always run with a resolved base URL *)

Section ResolvedInvariant.
Variable E : env.

Lemma autodetect_getApiInstance_resolves (w : world) :
  apiInstance w = None ->
  exists inst w1,
    AutoDetect.getApiInstance E w = (Ret inst, w1) /\
    resolved w1 = true /\ apiInstance w1 = Some inst /\
    i_baseURL inst = cachedApiUrl w1.
Proof.
  intros Hnone. unfold AutoDetect.getApiInstance. rewrite bind_get_world, Hnone.
  unfold AutoDetect.createApiInstance. rewrite bind_assoc.
  destruct (autodetect_getApiUrlWithFallback_total E w)
    as (u & w' & Hget & _ & Hu & Hcache & Hflag).
  rewrite (bind_run _ _ _ _ _ Hget).
  eexists; eexists. split; [reflexivity|].
  split; [unfold resolved; cbn; rewrite Hcache, Hu, Hflag; reflexivity|].
  split; [reflexivity | cbn; symmetry; exact Hcache].
Qed.

Lemma instance_request_keeps_resolved
      (fuel : nat) (inst : instance) (req : request) (w : world) :
  resolved w = true ->
  exists o w',
    AutoDetect.instance_request E (S (S fuel)) inst req w = (o, w') /\
    resolved w' = true /\ apiInstance w' = apiInstance w /\ created w' = created w.
Proof.
  intros Hres. rewrite instance_request_unfold. unfold try_catch. rewrite dispatch_run.
  set (cfg := prepared inst req w).
  set (w1 := advance 1 [Http (wire_of cfg)] w).
  assert (Hdirect : forall o : outcome response,
             exists o' w', (o, w1) = (o', w') /\ resolved w' = true /\
                           apiInstance w' = apiInstance w /\ created w' = created w).
  { intros o. exists o, w1. repeat split. exact Hres. }
  destruct (net E (clock w) (wire_of cfg)) as [r|code msg].
  - destruct (default_validateStatus (r_status r)); [apply Hdirect|].
    rewrite responseRejected_not_network by apply is_network_status_error.
    apply Hdirect.
  - destruct (network_code code) eqn:Hnc.
    2: { rewrite responseRejected_not_network
           by (rewrite is_network_transport_error; exact Hnc).
         apply Hdirect. }
    destruct (q_retry req) eqn:Hr.
    { rewrite (responseRejected_marked E _ _ cfg);
        [| reflexivity | unfold cfg; rewrite prepared_retry; exact Hr].
      apply Hdirect. }
    rewrite (responseRejected_cycle E _ _ cfg);
      [| reflexivity | unfold cfg; rewrite prepared_retry; exact Hr
       | rewrite is_network_transport_error; exact Hnc].
    destruct (retry_decision_hand_back E (set_retry true cfg)
                (emit (ConsoleWarn AutoDetect.wake_marker) w1))
      as (o3 & w3 & Hrd & Hres3 & Hi3 & Hc3 & Hq).
    rewrite Hrd.
    destruct o3 as [[q|]|e'|].
    + destruct (Hq q eq_refl) as (_ & _ & Hqr & _).
      cbn [q_retry set_retry] in Hqr.
      rewrite marked_request_run by exact Hqr. rewrite send_once_run.
      eexists; eexists. split; [reflexivity|]. split; [exact Hres3|].
      split; [exact Hi3 | exact Hc3].
    + eexists; eexists. split; [reflexivity|]. split; [exact Hres3|].
      split; [exact Hi3 | exact Hc3].
    + eexists; eexists. split; [reflexivity|]. split; [exact Hres3|].
      split; [exact Hi3 | exact Hc3].
    + eexists; eexists. split; [reflexivity|]. split; [exact Hres3|].
      split; [exact Hi3 | exact Hc3].
Qed.

End ResolvedInvariant.

(** X9: in [AutoDetect] the first [getApiInstance] of a module resolves the
    base URL, stores it (non-empty, flag set) and constructs the instance
    with it; and every call of the instance made while a base URL is resolved
    ends with a base URL resolved again, also when the retry path cleared the
    cache on the way, and leaves the instance singleton as it was. *)
Theorem autodetect_requests_keep_url_resolved (E : env) :
  (forall w, apiInstance w = None ->
     exists inst w1,
       AutoDetect.getApiInstance E w = (Ret inst, w1) /\
       resolved w1 = true /\ apiInstance w1 = Some inst /\
       i_baseURL inst = cachedApiUrl w1) /\
  (forall fuel inst req w, resolved w = true ->
     exists o w',
       AutoDetect.instance_request E (S (S fuel)) inst req w = (o, w') /\
       resolved w' = true /\ apiInstance w' = apiInstance w /\ created w' = created w).
Proof.
  split.
  - apply autodetect_getApiInstance_resolves.
  - intros fuel inst req w. apply instance_request_keeps_resolved.
Qed.

(** X9 at a concrete input: a fresh module, then a request, backend down. *)
Lemma autodetect_requests_keep_url_resolved_witness :
  (exists inst w1,
      AutoDetect.getApiInstance env_down initial_world = (Ret inst, w1) /\
      resolved w1 = true) /\
  (exists o w',
      AutoDetect.instance_request env_down 2 instance_local (get_request "/api/results")
        world_resolved = (o, w') /\
      resolved w' = true).
Proof.
  split.
  - destruct (proj1 (autodetect_requests_keep_url_resolved env_down) initial_world eq_refl)
      as (inst & w1 & H & Hres & _).
    exists inst, w1. split; [exact H | exact Hres].
  - destruct (proj2 (autodetect_requests_keep_url_resolved env_down) 0 instance_local
                (get_request "/api/results") world_resolved eq_refl)
      as (o & w' & H & Hres & _).
    exists o, w'. split; [exact H | exact Hres].
Defined.

(** ** The upload page: server status and error message *)

Section Pages.
Variable E : env.

Lemma direct_api_healthCheck_returns (w : world) :
  exists h w', Direct.api_healthCheck E w = (Ret h, w').
Proof.
  unfold Direct.api_healthCheck.
  assert (Hget : exists u w1, Direct.getApiUrlWithFallback E w = (Ret u, w1)).
  { rewrite direct_getApiUrlWithFallback_run.
    destruct (truthy (cachedApiUrl w) && apiUrlChecked w); eauto. }
  destruct Hget as (u & w1 & Hget). rewrite (bind_run _ _ _ _ _ Hget).
  destruct (direct_checkApiHealth_io E u 3 w1) as (h & k & evs & H & _). eauto.
Qed.

Lemma autodetect_api_healthCheck_returns (w : world) :
  exists h w', AutoDetect.api_healthCheck E w = (Ret h, w').
Proof.
  unfold AutoDetect.api_healthCheck.
  destruct (autodetect_getApiUrlWithFallback_total E w) as (u & w1 & Hget & _).
  rewrite (bind_run _ _ _ _ _ Hget).
  destruct (autodetect_checkApiHealth_io E u 3 w1) as (h & k & evs & H & _). eauto.
Qed.

Lemma checkServer_of_total (healthCheck : M health_result) (ui : server_view)
      (w w' : world) (h : health_result) :
  healthCheck w = (Ret h, w') ->
  checkServer healthCheck ui w =
  (Ret (if success h then mkView "online" ""
        else mkView "offline"
               "Server is not available. Please check your connection and try again."),
   w').
Proof.
  intros H. unfold checkServer, try_catch. rewrite (bind_run _ _ _ _ _ H).
  destruct (success h); reflexivity.
Qed.

End Pages.

(** X10: [checkServer] of the upload page, with [api.healthCheck] of either
    variant, always ends in one of two states: 'online' with no message when
    the health check succeeded, 'offline' with "Server is not available..."
    when it did not.  Its [catch] branch is never taken, so the message
    "Cannot connect to server. Please check your connection." is never
    shown; the state before the check does not matter. *)
Theorem checkServer_never_reaches_catch (E : env) (ui : server_view) (w : world) :
  (exists h w',
      Direct.api_healthCheck E w = (Ret h, w') /\
      checkServer (Direct.api_healthCheck E) ui w =
      (Ret (if success h then mkView "online" ""
            else mkView "offline"
                   "Server is not available. Please check your connection and try again."),
       w')) /\
  (exists h w',
      AutoDetect.api_healthCheck E w = (Ret h, w') /\
      checkServer (AutoDetect.api_healthCheck E) ui w =
      (Ret (if success h then mkView "online" ""
            else mkView "offline"
                   "Server is not available. Please check your connection and try again."),
       w')).
Proof.
  split.
  - destruct (direct_api_healthCheck_returns E w) as (h & w' & H).
    exists h, w'. split; [exact H | apply checkServer_of_total; exact H].
  - destruct (autodetect_api_healthCheck_returns E w) as (h & w' & H).
    exists h, w'. split; [exact H | apply checkServer_of_total; exact H].
Qed.

Lemma js_or_literal_truthy (v : jsval) (s : string) :
  is_empty s = false -> truthy (js_or v (JStr s)) = true.
Proof.
  intros H. unfold js_or. destruct (truthy v) eqn:Hv; [exact Hv|].
  simpl. rewrite H. reflexivity.
Qed.

(** X11: the message the upload page shows for a failed upload is never
    empty; an error with code [ECONNABORTED], or whose message contains
    "timeout", is always shown as the upload-timeout text, whatever
    [userMessage] the API layer attached; any other error is shown with its
    [userMessage] when that is non-empty, else with its own message, else
    with "Unknown error occurred". *)
Theorem upload_error_message_cases (e : error) :
  truthy (upload_error_message e) = true /\
  (is_str (e_code e) "ECONNABORTED" || includes "timeout" (e_message e) = true ->
   upload_error_message e = JStr upload_timeout_message) /\
  (is_str (e_code e) "ECONNABORTED" || includes "timeout" (e_message e) = false ->
   upload_error_message e =
   if truthy (e_userMessage e) then e_userMessage e
   else if is_empty (e_message e) then JStr "Unknown error occurred"
        else JStr (e_message e)).
Proof.
  unfold upload_error_message.
  destruct (is_str (e_code e) "ECONNABORTED" || includes "timeout" (e_message e)).
  - split; [reflexivity|]. split; [reflexivity | discriminate].
  - split; [apply js_or_literal_truthy; reflexivity|].
    split; [discriminate|]. intros _.
    unfold js_or at 2. destruct (truthy (e_userMessage e)) eqn:Hu.
    + unfold js_or. rewrite Hu. reflexivity.
    + unfold js_or. simpl truthy. destruct (is_empty (e_message e)); reflexivity.
Qed.

(** X12: when the network call of an upload times out (axios code
    [ECONNABORTED]), both variants reject the call and the upload page shows
    the upload-timeout text, although the interceptor of [AutoDetect]
    attaches only axios's own message as [userMessage]. *)
Theorem upload_timeout_is_reported (E : env) (inst : instance) (req : request)
        (w : world) (msg : string) (fuel : nat) :
  (forall wr, net E (clock w) wr = NetFail "ECONNABORTED" msg) ->
  (exists e w',
      Direct.instance_request E inst req w = (Throw e, w') /\
      upload_error_message e = JStr upload_timeout_message) /\
  (exists e w',
      AutoDetect.instance_request E (S fuel) inst req w = (Throw e, w') /\
      e_userMessage e = js_or (JStr msg) (JStr "An unexpected error occurred") /\
      upload_error_message e = JStr upload_timeout_message).
Proof.
  intros Hnet. split.
  - unfold Direct.instance_request.
    assert (Hreq : exists config', Direct.requestFulfilled (merge_defaults inst req) w
                                   = (Ret config', w)).
    { unfold Direct.requestFulfilled. rewrite bind_get_world.
      destruct (cachedApiUrl w) as [| |s]; try (eexists; reflexivity).
      destruct (truthy (JStr s)); eexists; reflexivity. }
    destruct Hreq as (config' & Hreq).
    rewrite (bind_run _ _ _ _ _ Hreq).
    unfold try_catch. rewrite dispatch_run, Hnet.
    eexists; eexists. split; reflexivity.
  - rewrite instance_request_unfold. unfold try_catch. rewrite dispatch_run, Hnet.
    rewrite responseRejected_not_network by reflexivity.
    eexists; eexists. split; [reflexivity|]. split; reflexivity.
Qed.

(** X12 at a concrete input: every call times out. *)
Lemma upload_timeout_is_reported_witness :
  exists e w',
    AutoDetect.instance_request env_timeout 1 instance_local upload_request world_resolved
      = (Throw e, w') /\
    upload_error_message e = JStr upload_timeout_message.
Proof.
  destruct (proj2 (upload_timeout_is_reported env_timeout instance_local upload_request
                     world_resolved "timeout of 30000ms exceeded" 0 (fun _ => eq_refl)))
    as (e & w' & H & _ & Hm).
  exists e, w'. split; [exact H | exact Hm].
Defined.

(** ** The results page: the name of a downloaded file *)

Lemma all_ext_chars_dot (b e : string) :
  all_ext_chars (b ++ String "."%char e) = false.
Proof.
  unfold all_ext_chars. induction b as [|c b IH]; [reflexivity|].
  simpl. rewrite IH. apply andb_false_r.
Qed.

Lemma strip_extension_last (base ext : string) :
  is_empty ext = false -> all_ext_chars ext = true ->
  strip_extension (base ++ String "."%char ext) = base.
Proof.
  intros Hne Hext. induction base as [|c base IH].
  - simpl. rewrite Hne, Hext. reflexivity.
  - change (String c base ++ String "."%char ext)%string
      with (String c (base ++ String "."%char ext)%string).
    cbn [strip_extension]. rewrite all_ext_chars_dot, andb_false_r, IH. reflexivity.
Qed.

Lemma strip_extension_no_dot (s : string) :
  forallb (fun c => negb (Ascii.eqb c "."%char)) (list_ascii_of_string s) = true ->
  strip_extension s = s.
Proof.
  induction s as [|c s IH]; [reflexivity|].
  simpl. intros H. apply andb_prop in H. destruct H as [Hc Hs].
  apply negb_true_iff in Hc. rewrite Hc. simpl. rewrite (IH Hs). reflexivity.
Qed.

Lemma append_dot_nonempty (base ext : string) :
  is_empty (base ++ String "."%char ext) = false.
Proof. destruct base; reflexivity. Qed.

(** X13: the download name always replaces exactly the last extension by
    [.pdf]: for a file name [base.ext], where [ext] is non-empty and has no
    dot or slash, it is [base.pdf], whatever [base] contains; a non-empty
    name without any dot gets [.pdf] appended; without a file name it is
    [file_<id>.pdf].  Naming is idempotent: the name computed for a file
    that already has its download name is that same name. *)
Theorem pdfFilename_replaces_last_extension (id : nat) :
  (forall base ext,
      is_empty ext = false -> all_ext_chars ext = true ->
      pdfFilename id (JStr (base ++ String "."%char ext)) = (base ++ ".pdf")%string) /\
  (forall name,
      is_empty name = false ->
      forallb (fun c => negb (Ascii.eqb c "."%char)) (list_ascii_of_string name) = true ->
      pdfFilename id (JStr name) = (name ++ ".pdf")%string) /\
  (forall filename,
      truthy filename = false ->
      pdfFilename id filename = ("file_" ++ decimal id ++ ".pdf")%string) /\
  (forall filename,
      pdfFilename id (JStr (pdfFilename id filename)) = pdfFilename id filename).
Proof.
  assert (Hlast : forall base ext,
             is_empty ext = false -> all_ext_chars ext = true ->
             pdfFilename id (JStr (base ++ String "."%char ext)) = (base ++ ".pdf")%string).
  { intros base ext Hne Hext. unfold pdfFilename. simpl truthy.
    rewrite append_dot_nonempty. simpl negb. cbn [template].
    rewrite (strip_extension_last base ext Hne Hext). reflexivity. }
  split; [exact Hlast|]. split; [|split].
  - intros name Hne Hnd. unfold pdfFilename. simpl truthy. rewrite Hne. simpl negb.
    cbn [template]. rewrite (strip_extension_no_dot name Hnd). reflexivity.
  - intros filename Hf. unfold pdfFilename. rewrite Hf.
    rewrite string_app_assoc. reflexivity.
  - intros filename. unfold pdfFilename at 2 3.
    apply (Hlast _ "pdf"%string); reflexivity.
Qed.

Lemma preflight_of_total (healthCheck : M health_result)
      (w w' : world) (h : health_result) :
  healthCheck w = (Ret h, w') ->
  preflight healthCheck w = (Ret tt, emit (ConsoleLog "Server health check passed") w').
Proof.
  intros H. unfold preflight, try_catch. rewrite (bind_run _ _ _ _ _ H). reflexivity.
Qed.

(** X14: the pre-flight check of [handleUpload] cannot tell a healthy server
    from an unhealthy one: with [api.healthCheck] of either variant it always
    logs "Server health check passed", also when the health check returned
    [{success: false}], and never logs the warning of its [catch] branch. *)
Theorem preflight_always_reports_passed (E : env) (w : world) :
  (exists h w',
      Direct.api_healthCheck E w = (Ret h, w') /\
      preflight (Direct.api_healthCheck E) w
      = (Ret tt, emit (ConsoleLog "Server health check passed") w')) /\
  (exists h w',
      AutoDetect.api_healthCheck E w = (Ret h, w') /\
      preflight (AutoDetect.api_healthCheck E) w
      = (Ret tt, emit (ConsoleLog "Server health check passed") w')).
Proof.
  split.
  - destruct (direct_api_healthCheck_returns E w) as (h & w' & H).
    exists h, w'. split; [exact H | apply (preflight_of_total _ _ _ h); exact H].
  - destruct (autodetect_api_healthCheck_returns E w) as (h & w' & H).
    exists h, w'. split; [exact H | apply (preflight_of_total _ _ _ h); exact H].
Qed.

(** The pre-flight check against a backend that is down: the health check
    fails, the log still says it passed. *)
Example preflight_passes_on_dead_backend :
  let '(h, _) := Direct.api_healthCheck env_down initial_world in
  (exists r, h = Ret r /\ success r = false) /\
  In (ConsoleLog "Server health check passed")
     (trace (snd (preflight (Direct.api_healthCheck env_down) initial_world))).
Proof.
  vm_compute. split; [eexists; split; reflexivity|].
  do 5 right. left. reflexivity.
Qed.
